(** * Coupon engine: shallow embedding of the coupon handlers

    Source files embedded here:
    - [src/types/coupon.ts], [types/common.ts]: the data model;
    - [src/functions/coupons/schemas.ts]: the request schemas;
    - [src/functions/coupons/helpers.ts]: the shared helpers;
    - [src/functions/coupons/handlers.ts]: the six handlers, in the later
      version built on the helpers and in the earlier version with inline
      logic (module [V1]).

    Conventions of the embedding.
    - A JS [number] is a rational of [Q] in the handlers: that is exact
      where the code compares numbers and counts uses.  Where it multiplies
      and divides, in [calculateDiscount], the rounding of IEEE doubles
      matters, and module [Double] gives the function as doubles compute
      it.
    - [String.prototype.toUpperCase] is a parameter of the model, the class
      [UpperCasing]: the handlers are modelled, and their properties
      proved, for every upper-casing function.
    - An ISO date string is the instant [new Date(s)] makes of it, a [Z]
      counting milliseconds; the clock [new Date()] is the argument [now]
      of a handler.
    - The document store is a pair of finite maps; handlers are programs of
      a state-and-exception monad [IO] over it. *)

From Stdlib Require Import QArith Qround Qminmax Lqa ZArith Lia Ascii String Floats.
From stdpp Require Import gmap strings.

(** ** Numbers and instants *)

Definition number := Q.
Definition timestamp := Z.
Bind Scope Q_scope with number.
Bind Scope Z_scope with timestamp.

Definition Qltb (x y : number) : bool := negb (Qle_bool y x).
Definition Qgtb (x y : number) : bool := Qltb y x.
Definition Qgeb (x y : number) : bool := Qle_bool y x.

(** [Math.round]: the nearest integer, a tie going up. *)
Definition Math_round (x : number) : number := inject_Z (Qfloor (x + (1 # 2))%Q).
Definition Math_min (x y : number) : number := Qmin x y.
Definition Math_max (x y : number) : number := Qmax x y.

(** [Number.isInteger], the test behind zod's [.int()]. *)
Definition isInteger (x : number) : bool := Qeq_bool (inject_Z (Qfloor x)) x.

(** ** Strings *)

Definition ascii_toUpperCase (c : ascii) : ascii :=
  let n := Ascii.nat_of_ascii c in
  if (97 <=? n)%nat && (n <=? 122)%nat then Ascii.ascii_of_nat (n - 32) else c.

(** The upper-casing of the letters a to z.  On a string of ASCII characters
    it is what [String.prototype.toUpperCase] does; on other strings it is
    not (the engine maps ñ to Ñ and ß to SS).  It serves where an example
    with an ASCII code is evaluated, and nowhere else. *)
Fixpoint toUpperCase_ascii (s : string) : string :=
  match s with
  | EmptyString => EmptyString
  | String c s' => String (ascii_toUpperCase c) (toUpperCase_ascii s')
  end.

(** [String.prototype.toUpperCase].  The function belongs to the engine and
    not to the sources: it maps every cased letter of Unicode, by tables the
    model does not have.  The model takes it as a parameter, the way it takes
    [canCreateCoupon]: whatever is proved of a handler holds for every
    upper-casing function, and a property that needs more of the function
    than that says so in a hypothesis. *)
Class UpperCasing := toUpperCase : string → string.

(** Truthiness of a string that may be [null] or [undefined]. *)
Definition truthy (o : option string) : bool :=
  match o with
  | Some s => negb (String.eqb s "")
  | None => false
  end.

(** ** types/common.ts *)

Inductive ErrorCode :=
| INVALID_INPUT
| SITE_NOT_FOUND
| COUPON_NOT_FOUND
| FORBIDDEN
| DUPLICATE_CODE
| COUPON_LIMIT_REACHED
| COUPON_INACTIVE
| COUPON_EXPIRED
| COUPON_NOT_YET_VALID
| COUPON_MAX_USES
| MIN_PURCHASE_NOT_MET
| INTERNAL_ERROR.

(** The texts of the [error] field.  A template keeps the values the source
    interpolates into it; [ZodIssues] stands for [formatZodError]'s text. *)
Inductive ErrorMessage :=
| ZodIssues                                   (* formatZodError(parsed.error) *)
| SitioNoEncontrado                           (* "Sitio no encontrado" *)
| LimiteDeCupones (current limit : number)    (* "Límite de cupones alcanzado (c/l)" *)
| CodigoDuplicado (normalizedCode : string)   (* "Ya existe un cupón con el código ..." *)
| CuponNoEncontrado                           (* "Cupón no encontrado" *)
| CuponDeOtraTienda                           (* "El cupón no pertenece a esta tienda" *)
| PorcentajeSobre100                          (* "Porcentaje no puede superar 100%" *)
| ValidFromPosterior                          (* "validFrom debe ser anterior a validUntil" *)
| CuponNoActivo                               (* "El cupón no está activo" *)
| CuponAunNoValido                            (* "El cupón aún no es válido" *)
| CuponExpirado                               (* "El cupón ha expirado" *)
| CuponSinUsos                                (* "El cupón ha alcanzado el límite de usos" *)
| MontoMinimo (minPurchase : number)          (* "El monto mínimo de compra es $..." *)
| ErrorInterno.                               (* "Error interno del servidor" *)

Record FunctionResponse (T : Type) := mkResponse {
  data : option T;
  error : option ErrorMessage;
  errorCode : option ErrorCode
}.
Arguments mkResponse {T} _ _ _.
Arguments data {T} _.
Arguments error {T} _.
Arguments errorCode {T} _.

(** [{ data: d, error: null }] *)
Definition success {T} (d : T) : FunctionResponse T := mkResponse (Some d) None None.
(** [{ data: null, error: msg, errorCode: c }] *)
Definition failure {T} (msg : ErrorMessage) (c : ErrorCode) : FunctionResponse T :=
  mkResponse None (Some msg) (Some c).

(** ** types/coupon.ts *)

Inductive DiscountType := percentage | fixed.

(** The fields of a document of the [coupons] collection.  Firestore
    documents carry no schema.  The fields the handlers compute with are
    total here; [userId], [createdAt] and [updatedAt], which the handlers
    only carry along, may be missing from a stored document ([None] is
    [undefined]).  [minPurchase] and [maxUses] are [None] when [null] or
    missing. *)
Record CouponData := mkCouponData {
  siteId : string;
  userId : option string;
  code : string;
  discountType : DiscountType;
  discountValue : number;
  minPurchase : option number;
  maxUses : option number;
  usedCount : number;
  validFrom : timestamp;
  validUntil : timestamp;
  isActive : bool;
  createdAt : option timestamp;
  updatedAt : option timestamp
}.

(** [CouponDocument]: [{ id: doc.id, ...data }]. *)
Record CouponDocument := mkCouponDocument {
  id : string;
  fields : CouponData
}.

Module Site.
(** A document of the [sites] collection, as far as the handlers read it. *)
Record t := mk { userId : option string }.
End Site.

(** The verdict of [canCreateCoupon] (lib/limits.ts). *)
Record LimitCheck := mkLimitCheck {
  allowed : bool;
  current : number;
  limit : number
}.

(** *** Requests *)

Module Create.
Record t := mk {
  siteId : string;
  code : string;
  discountType : DiscountType;
  discountValue : number;
  minPurchase : option number;
  maxUses : option number;
  validFrom : timestamp;
  validUntil : timestamp
}.
End Create.

Module Get.
Record t := mk { siteId : string }.
End Get.

(** The mutable fields of an update request: [None] is a key that is absent
    (or [undefined]); for [minPurchase] and [maxUses], [Some None] is an
    explicit [null]. *)
Module Updates.
Record t := mk {
  code : option string;
  discountType : option DiscountType;
  discountValue : option number;
  minPurchase : option (option number);
  maxUses : option (option number);
  validFrom : option timestamp;
  validUntil : option timestamp;
  isActive : option bool
}.
End Updates.

Module Update.
(** [const { siteId, couponId, ...updates } = parsed.data] *)
Record t := mk {
  siteId : string;
  couponId : string;
  updates : Updates.t
}.
End Update.

Module Delete.
Record t := mk { siteId : string; couponId : string }.
End Delete.

Module Validate.
Record t := mk { siteId : string; code : string; cartTotal : number }.
End Validate.

Module Apply.
Record t := mk {
  siteId : string;
  couponId : string;
  orderId : string;
  cartTotal : number
}.
End Apply.

(** *** Results *)

Record ValidateCouponResult := mkValidateCouponResult {
  v_valid : bool;
  v_couponId : string;
  v_code : string;
  v_discountType : DiscountType;
  v_discountValue : number;
  v_discountAmount : number;
  v_finalTotal : number
}.

Record ApplyCouponResult := mkApplyCouponResult {
  a_couponId : string;
  a_orderId : string;
  a_discountType : DiscountType;
  a_discountValue : number;
  a_discountAmount : number;
  a_finalTotal : number;
  a_usedCount : number
}.

(** ** functions/coupons/schemas.ts

    [safeParse] on a request of the right shape: [true] is
    [parsed.success].  ([isoDateString] holds of every instant.) *)

Definition positive_number (x : number) : bool := Qltb 0%Q x.

Definition optional {A} (check : A → bool) (o : option A) : bool :=
  match o with Some x => check x | None => true end.

Definition min1 (s : string) : bool := negb (String.eqb s "").

Definition createCouponBase (d : Create.t) : bool :=
  min1 (Create.siteId d)
  && min1 (Create.code d)
  && positive_number (Create.discountValue d)
  && optional positive_number (Create.minPurchase d)
  && optional (λ m, isInteger m && positive_number m) (Create.maxUses d).

Definition is_percentage (ty : DiscountType) : bool :=
  match ty with percentage => true | fixed => false end.

Definition createCouponSchema (d : Create.t) : bool :=
  createCouponBase d
  && (negb (is_percentage (Create.discountType d))
      || Qle_bool (Create.discountValue d) 100%Q)
  && (Create.validFrom d <? Create.validUntil d)%Z.

Definition getCouponsSchema (d : Get.t) : bool := min1 (Get.siteId d).

Definition updateCouponBase (d : Update.t) : bool :=
  let u := Update.updates d in
  min1 (Update.siteId d)
  && min1 (Update.couponId d)
  && optional min1 (Updates.code u)
  && optional positive_number (Updates.discountValue u)
  && optional (optional positive_number) (Updates.minPurchase u)
  && optional (optional (λ m, isInteger m && positive_number m)) (Updates.maxUses u).

Definition updateCouponSchema (d : Update.t) : bool :=
  let u := Update.updates d in
  updateCouponBase d
  && (match Updates.discountType u, Updates.discountValue u with
      | Some percentage, Some v => Qle_bool v 100%Q
      | _, _ => true
      end)
  && (match Updates.validFrom u, Updates.validUntil u with
      | Some f, Some t => (f <? t)%Z
      | _, _ => true
      end).

Definition deleteCouponSchema (d : Delete.t) : bool :=
  min1 (Delete.siteId d) && min1 (Delete.couponId d).

Definition nonnegative (x : number) : bool := Qle_bool 0%Q x.

Definition validateCouponSchema (d : Validate.t) : bool :=
  min1 (Validate.siteId d) && min1 (Validate.code d)
  && nonnegative (Validate.cartTotal d).

Definition applyCouponSchema (d : Apply.t) : bool :=
  min1 (Apply.siteId d) && min1 (Apply.couponId d) && min1 (Apply.orderId d)
  && nonnegative (Apply.cartTotal d).

(** ** functions/coupons/helpers.ts: the pure helpers *)

(** [calculateDiscount] over exact rationals, as the handlers of the model
    use it: what the code computes but for the rounding of the quotient and
    of the product to doubles.  [Double.calculateDiscount] has that
    rounding; the two differ where it moves a product across a half. *)
Definition calculateDiscount
    (discountType : DiscountType) (discountValue cartTotal : number) : number :=
  match discountType with
  | percentage => Math_round (cartTotal * (discountValue / 100))%Q
  | fixed => Math_min discountValue cartTotal
  end.

(** Eligibility of a coupon: [None] is the source's [null] (eligible). *)
Definition validateCouponEligibility {T}
    (now : timestamp) (coupon : CouponDocument) (cartTotal : number)
    : option (FunctionResponse T) :=
  let c := fields coupon in
  if negb (isActive c) then Some (failure CuponNoActivo COUPON_INACTIVE)
  else if (now <? validFrom c)%Z then
    Some (failure CuponAunNoValido COUPON_NOT_YET_VALID)
  else if (now >? validUntil c)%Z then
    Some (failure CuponExpirado COUPON_EXPIRED)
  else if match maxUses c with
          | Some m => Qgeb (usedCount c) m
          | None => false
          end then
    Some (failure CuponSinUsos COUPON_MAX_USES)
  else
    match minPurchase c with
    | Some p =>
        if Qltb cartTotal p then
          Some (failure (MontoMinimo p) MIN_PURCHASE_NOT_MET)
        else None
    | None => None
    end.

(** [a ?? b] *)
Definition nullish {A} (o : option A) (d : A) : A :=
  match o with Some x => x | None => d end.
Infix "??" := nullish (at level 45, left associativity).

(** Cross-field rules of a partial update, on the merged values. *)
Definition validateUpdateFields {T}
    (currentData : CouponDocument) (updates : Updates.t)
    : option (FunctionResponse T) :=
  let finalDiscountType :=
    Updates.discountType updates ?? discountType (fields currentData) in
  let finalDiscountValue :=
    Updates.discountValue updates ?? discountValue (fields currentData) in
  if is_percentage finalDiscountType && Qgtb finalDiscountValue 100%Q then
    Some (failure PorcentajeSobre100 INVALID_INPUT)
  else
    let finalValidFrom :=
      Updates.validFrom updates ?? validFrom (fields currentData) in
    let finalValidUntil :=
      Updates.validUntil updates ?? validUntil (fields currentData) in
    if (finalValidFrom >=? finalValidUntil)%Z then
      Some (failure ValidFromPosterior INVALID_INPUT)
    else None.

(** The object handed to [update]: the keys of an update request that carry
    a value, and the two fields only the handlers write. *)
Record DocChanges := mkDocChanges {
  set_fields : Updates.t;
  set_usedCount : option number;
  set_updatedAt : option timestamp
}.

(** Drops the [undefined] entries (the [None] of [Updates.t]) and adds
    [updatedAt]. *)
Definition buildCleanUpdates (now : timestamp) (updates : Updates.t) : DocChanges :=
  {| set_fields := updates; set_usedCount := None; set_updatedAt := Some now |}.

(** ** The document store *)

Record Store := mkStore {
  sites : gmap string Site.t;
  coupons : gmap string CouponData
}.

(** A [DocumentSnapshot]: [doc_data] is [None] when the document does not
    exist. *)
Record DocumentSnapshot := mkSnapshot {
  doc_id : string;
  doc_data : option CouponData
}.

Definition doc_exists (doc : DocumentSnapshot) : bool :=
  match doc_data doc with Some _ => true | None => false end.

(** What a field of a stored document becomes under [update]. *)
Definition write_fields (w : DocChanges) (d : CouponData) : CouponData :=
  let u := set_fields w in
  {| siteId := siteId d;
     userId := userId d;
     code := Updates.code u ?? code d;
     discountType := Updates.discountType u ?? discountType d;
     discountValue := Updates.discountValue u ?? discountValue d;
     minPurchase := Updates.minPurchase u ?? minPurchase d;
     maxUses := Updates.maxUses u ?? maxUses d;
     usedCount := set_usedCount w ?? usedCount d;
     validFrom := Updates.validFrom u ?? validFrom d;
     validUntil := Updates.validUntil u ?? validUntil d;
     isActive := Updates.isActive u ?? isActive d;
     createdAt := createdAt d;
     updatedAt := match set_updatedAt w with
                  | Some t => Some t
                  | None => updatedAt d
                  end |}.

(** *** Programs over the store

    A program returns a value or throws, and leaves a store. *)

Inductive outcome (A : Type) :=
| Returned (a : A)
| Thrown.
Arguments Returned {A} _.
Arguments Thrown {A}.

Definition IO (A : Type) : Type := Store → outcome A * Store.

#[global] Instance IO_ret : MRet IO := λ A a s, (Returned a, s).

#[global] Instance IO_bind : MBind IO := λ A B f m s,
  match m s with
  | (Returned a, s') => f a s'
  | (Thrown, s') => (Thrown, s')
  end.

Definition throw {A} : IO A := λ s, (Thrown, s).

(** [try { ... } catch (err) { ... }] *)
Definition try_catch {A} (body handler : IO A) : IO A := λ s,
  match body s with
  | (Returned a, s') => (Returned a, s')
  | (Thrown, s') => handler s'
  end.

(** [sitesCollection.doc(siteId).get()] *)
Definition sites_doc_get (sid : string) : IO (option Site.t) :=
  λ s, (Returned (sites s !! sid), s).

(** [couponsCollection.doc(couponId).get()], also [transaction.get] *)
Definition coupons_doc_get (cid : string) : IO DocumentSnapshot :=
  λ s, (Returned (mkSnapshot cid (coupons s !! cid)), s).

Definition snapshots (l : list (string * CouponData)) : list DocumentSnapshot :=
  List.map (λ kd, mkSnapshot (fst kd) (Some (snd kd))) l.

(** The documents of a site, in the order the store lists them. *)
Definition docs_of_site (s : Store) (sid : string) : list DocumentSnapshot :=
  snapshots
    (List.filter (λ kd, String.eqb (siteId (snd kd)) sid)
       (map_to_list (coupons s))).

(** The first document of a site with a given code, if there is one. *)
Definition docs_of_site_code (s : Store) (sid c : string) : list DocumentSnapshot :=
  snapshots (take 1
    (List.filter
       (λ kd, String.eqb (siteId (snd kd)) sid && String.eqb (code (snd kd)) c)
       (map_to_list (coupons s)))).

(** [couponsCollection.where("siteId", "==", siteId).get()]: the [docs] *)
Definition coupons_where_siteId (sid : string) : IO (list DocumentSnapshot) :=
  λ s, (Returned (docs_of_site s sid), s).

(** [.where("siteId", "==", siteId).where("code", "==", code).limit(1).get()] *)
Definition coupons_where_siteId_code (sid c : string) : IO (list DocumentSnapshot) :=
  λ s, (Returned (docs_of_site_code s sid c), s).

Definition set_coupons (s : Store) (m : gmap string CouponData) : Store :=
  {| sites := sites s; coupons := m |}.

(** [couponsCollection.add(couponData)]: a document under an identifier
    that is not in use; returns the identifier. *)
Definition coupons_add (d : CouponData) : IO string :=
  λ s, let cid := fresh (dom (coupons s)) in
       (Returned cid, set_coupons s (<[cid := d]> (coupons s))).

(** [couponRef.update(changes)], also [transaction.update]: rejects when
    the document does not exist. *)
Definition coupons_doc_update (cid : string) (w : DocChanges) : IO unit :=
  λ s, match coupons s !! cid with
       | Some d => (Returned tt, set_coupons s (<[cid := write_fields w d]> (coupons s)))
       | None => (Thrown, s)
       end.

(** [couponRef.delete()] *)
Definition coupons_doc_delete (cid : string) : IO unit :=
  λ s, (Returned tt, set_coupons s (delete cid (coupons s))).

(** [db.runTransaction(fn)], one request at a time: the writes of [fn] are
    committed when it returns and dropped when it throws. *)
Definition runTransaction {A} (fn : IO A) : IO A := λ s,
  match fn s with
  | (Returned a, s') => (Returned a, s')
  | (Thrown, _) => (Thrown, s)
  end.

(** ** helpers.ts: the helpers that touch the store *)

Definition couponByCodeQuery {upcase : UpperCasing} (sid c : string) : IO (list DocumentSnapshot) :=
  coupons_where_siteId_code sid (toUpperCase c).

Definition getSiteUserId (sid : string) : IO (option string) :=
  siteDoc ← sites_doc_get sid;
  match siteDoc with
  | None => mret None
  | Some d => mret (Site.userId d)
  end.

Definition COUPON_REQUIRED_FIELDS : list string :=
  [ "siteId"; "userId"; "code"; "discountType"; "discountValue";
    "usedCount"; "validFrom"; "validUntil"; "isActive"; "createdAt"; "updatedAt" ].

Definition is_None {A} (o : option A) : bool :=
  match o with Some _ => false | None => true end.

(** [data[f] === undefined] *)
Definition field_undefined (d : CouponData) (f : string) : bool :=
  if String.eqb f "userId" then is_None (userId d)
  else if String.eqb f "createdAt" then is_None (createdAt d)
  else if String.eqb f "updatedAt" then is_None (updatedAt d)
  else false.

Definition toCouponDocument (doc : DocumentSnapshot) : IO CouponDocument :=
  match doc_data doc with
  | None => throw
  | Some d =>
      let missing := List.filter (field_undefined d) COUPON_REQUIRED_FIELDS in
      if (0 <? length missing)%nat then throw
      else mret (mkCouponDocument (doc_id doc) d)
  end.

(** Wraps a handler: an exception becomes [INTERNAL_ERROR]. *)
Definition withErrorHandling {D T} (handlerName : string)
    (fn : D → IO (FunctionResponse T)) : D → IO (FunctionResponse T) :=
  λ request, try_catch (fn request) (mret (failure ErrorInterno INTERNAL_ERROR)).

(** A string that is truthy, or nothing: the value that survives
    [if (!x) return ...]. *)
Definition truthy_string (o : option string) : option string :=
  if truthy o then o else None.

Definition is_empty (docs : list DocumentSnapshot) : bool :=
  match docs with [] => true | _ :: _ => false end.

Definition with_code (u : Updates.t) (c : string) : Updates.t :=
  {| Updates.code := Some c;
     Updates.discountType := Updates.discountType u;
     Updates.discountValue := Updates.discountValue u;
     Updates.minPurchase := Updates.minPurchase u;
     Updates.maxUses := Updates.maxUses u;
     Updates.validFrom := Updates.validFrom u;
     Updates.validUntil := Updates.validUntil u;
     Updates.isActive := Updates.isActive u |}.

(** The [updates] object after the handler's block on [code]. *)
Definition normalized_updates {upcase : UpperCasing} (u : Updates.t) : Updates.t :=
  match truthy_string (Updates.code u) with
  | Some c => with_code u (toUpperCase c)
  | None => u
  end.

Definition no_updates : Updates.t :=
  Updates.mk None None None None None None None None.

(** ** functions/coupons/handlers.ts, the version built on the helpers *)

Section Handlers.

Context {upcase : UpperCasing}.

(** [canCreateCoupon(userId, siteId)] of lib/limits.ts, which is not part of
    the sources at hand: it reads the store and may throw. *)
Variable canCreateCoupon : string → string → Store → outcome LimitCheck.

Definition limits_canCreateCoupon (uid sid : string) : IO LimitCheck :=
  λ s, (canCreateCoupon uid sid s, s).

Definition createCouponHandler (now : timestamp)
    : Create.t → IO (FunctionResponse CouponDocument) :=
  withErrorHandling "createCoupon" (λ data,
    if negb (createCouponSchema data) then
      mret (failure ZodIssues INVALID_INPUT)
    else
      userId ← getSiteUserId (Create.siteId data);
      match truthy_string userId with
      | None => mret (failure SitioNoEncontrado SITE_NOT_FOUND)
      | Some userId =>
          limitCheck ← limits_canCreateCoupon userId (Create.siteId data);
          if negb (allowed limitCheck) then
            mret (failure (LimiteDeCupones (current limitCheck) (limit limitCheck))
                    COUPON_LIMIT_REACHED)
          else
            let normalizedCode := toUpperCase (Create.code data) in
            existing ← coupons_where_siteId_code (Create.siteId data) normalizedCode;
            if negb (is_empty existing) then
              mret (failure (CodigoDuplicado normalizedCode) DUPLICATE_CODE)
            else
              let couponData :=
                {| siteId := Create.siteId data;
                   userId := Some userId;
                   code := normalizedCode;
                   discountType := Create.discountType data;
                   discountValue := Create.discountValue data;
                   minPurchase := Create.minPurchase data;
                   maxUses := Create.maxUses data;
                   usedCount := 0%Q;
                   validFrom := Create.validFrom data;
                   validUntil := Create.validUntil data;
                   isActive := true;
                   createdAt := Some now;
                   updatedAt := Some now |} in
              docRef ← coupons_add couponData;
              mret (success (mkCouponDocument docRef couponData))
      end).

Definition getCouponsHandler
    : Get.t → IO (FunctionResponse (list CouponDocument)) :=
  withErrorHandling "getCoupons" (λ data,
    if negb (getCouponsSchema data) then
      mret (failure ZodIssues INVALID_INPUT)
    else
      userId ← getSiteUserId (Get.siteId data);
      match truthy_string userId with
      | None => mret (failure SitioNoEncontrado SITE_NOT_FOUND)
      | Some _ =>
          docs ← coupons_where_siteId (Get.siteId data);
          coupons ← mapM toCouponDocument docs;
          mret (success coupons)
      end).

Definition updateCouponHandler (now : timestamp)
    : Update.t → IO (FunctionResponse CouponDocument) :=
  withErrorHandling "updateCoupon" (λ data,
    if negb (updateCouponSchema data) then
      mret (failure ZodIssues INVALID_INPUT)
    else
      let siteId_ := Update.siteId data in
      let couponId := Update.couponId data in
      userId ← getSiteUserId siteId_;
      match truthy_string userId with
      | None => mret (failure SitioNoEncontrado SITE_NOT_FOUND)
      | Some _ =>
          couponDoc ← coupons_doc_get couponId;
          if negb (doc_exists couponDoc) then
            mret (failure CuponNoEncontrado COUPON_NOT_FOUND)
          else
            currentData ← toCouponDocument couponDoc;
            if negb (String.eqb (siteId (fields currentData)) siteId_) then
              mret (failure CuponDeOtraTienda FORBIDDEN)
            else
              (* from the cross-field checks to the end, on the [updates]
                 object as the block on [code] leaves it *)
              let finish (updates : Updates.t) : IO (FunctionResponse CouponDocument) :=
                let finalDiscountType :=
                  Updates.discountType updates ?? discountType (fields currentData) in
                let finalDiscountValue :=
                  Updates.discountValue updates ?? discountValue (fields currentData) in
                if is_percentage finalDiscountType && Qgtb finalDiscountValue 100%Q then
                  mret (failure PorcentajeSobre100 INVALID_INPUT)
                else
                  let finalValidFrom :=
                    Updates.validFrom updates ?? validFrom (fields currentData) in
                  let finalValidUntil :=
                    Updates.validUntil updates ?? validUntil (fields currentData) in
                  if (finalValidFrom >=? finalValidUntil)%Z then
                    mret (failure ValidFromPosterior INVALID_INPUT)
                  else
                    let cleanUpdates :=
                      {| set_fields := updates;
                         set_usedCount := None;
                         set_updatedAt := Some now |} in
                    _ ← coupons_doc_update couponId cleanUpdates;
                    updatedDoc ← coupons_doc_get couponId;
                    updatedData ← toCouponDocument updatedDoc;
                    mret (success updatedData) in
              match truthy_string (Updates.code (Update.updates data)) with
              | Some c =>
                  let normalizedCode := toUpperCase c in
                  if negb (String.eqb normalizedCode (code (fields currentData))) then
                    existing ← coupons_where_siteId_code siteId_ normalizedCode;
                    if negb (is_empty existing) then
                      mret (failure (CodigoDuplicado normalizedCode) DUPLICATE_CODE)
                    else finish (with_code (Update.updates data) (toUpperCase c))
                  else finish (with_code (Update.updates data) (toUpperCase c))
              | None => finish (Update.updates data)
              end
      end).

Definition deleteCouponHandler
    : Delete.t → IO (FunctionResponse string) :=
  withErrorHandling "deleteCoupon" (λ data,
    if negb (deleteCouponSchema data) then
      mret (failure ZodIssues INVALID_INPUT)
    else
      let couponId := Delete.couponId data in
      userId ← getSiteUserId (Delete.siteId data);
      match truthy_string userId with
      | None => mret (failure SitioNoEncontrado SITE_NOT_FOUND)
      | Some _ =>
          couponDoc ← coupons_doc_get couponId;
          match doc_data couponDoc with
          | None => mret (failure CuponNoEncontrado COUPON_NOT_FOUND)
          | Some couponData =>
              if negb (String.eqb (siteId couponData) (Delete.siteId data)) then
                mret (failure CuponDeOtraTienda FORBIDDEN)
              else
                _ ← coupons_doc_delete couponId;
                mret (success couponId)
          end
      end).

Definition validateCouponHandler (now : timestamp)
    : Validate.t → IO (FunctionResponse ValidateCouponResult) :=
  withErrorHandling "validateCoupon" (λ data,
    if negb (validateCouponSchema data) then
      mret (failure ZodIssues INVALID_INPUT)
    else
      let cartTotal := Validate.cartTotal data in
      siteUserId ← getSiteUserId (Validate.siteId data);
      match truthy_string siteUserId with
      | None => mret (failure SitioNoEncontrado SITE_NOT_FOUND)
      | Some _ =>
          let normalizedCode := toUpperCase (Validate.code data) in
          snapshot ← coupons_where_siteId_code (Validate.siteId data) normalizedCode;
          match snapshot with
          | [] => mret (failure CuponNoEncontrado COUPON_NOT_FOUND)
          | couponDoc :: _ =>
              coupon ← toCouponDocument couponDoc;
              match validateCouponEligibility now coupon cartTotal with
              | Some eligibilityError => mret eligibilityError
              | None =>
                  let c := fields coupon in
                  let discountAmount :=
                    calculateDiscount (discountType c) (discountValue c) cartTotal in
                  let finalTotal := (cartTotal - discountAmount)%Q in
                  mret (success
                    {| v_valid := true;
                       v_couponId := id coupon;
                       v_code := code c;
                       v_discountType := discountType c;
                       v_discountValue := discountValue c;
                       v_discountAmount := discountAmount;
                       v_finalTotal := Math_max finalTotal 0%Q |})
              end
          end
      end).

Definition applyCouponHandler (now : timestamp)
    : Apply.t → IO (FunctionResponse ApplyCouponResult) :=
  withErrorHandling "applyCoupon" (λ data,
    if negb (applyCouponSchema data) then
      mret (failure ZodIssues INVALID_INPUT)
    else
      let couponId := Apply.couponId data in
      let cartTotal := Apply.cartTotal data in
      siteUserId ← getSiteUserId (Apply.siteId data);
      match truthy_string siteUserId with
      | None => mret (failure SitioNoEncontrado SITE_NOT_FOUND)
      | Some _ =>
          runTransaction (
            couponDoc ← coupons_doc_get couponId;
            if negb (doc_exists couponDoc) then
              mret (failure CuponNoEncontrado COUPON_NOT_FOUND)
            else
              coupon ← toCouponDocument couponDoc;
              if negb (String.eqb (siteId (fields coupon)) (Apply.siteId data)) then
                mret (failure CuponDeOtraTienda FORBIDDEN)
              else
                match validateCouponEligibility now coupon cartTotal with
                | Some eligibilityError => mret eligibilityError
                | None =>
                    let c := fields coupon in
                    let discountAmount :=
                      calculateDiscount (discountType c) (discountValue c) cartTotal in
                    let finalTotal := Math_max (cartTotal - discountAmount)%Q 0%Q in
                    let newUsedCount := (usedCount c + 1)%Q in
                    _ ← coupons_doc_update couponId
                          {| set_fields := no_updates;
                             set_usedCount := Some newUsedCount;
                             set_updatedAt := Some now |};
                    mret (success
                      {| a_couponId := id coupon;
                         a_orderId := Apply.orderId data;
                         a_discountType := discountType c;
                         a_discountValue := discountValue c;
                         a_discountAmount := discountAmount;
                         a_finalTotal := finalTotal;
                         a_usedCount := newUsedCount |})
                end)
      end).

End Handlers.

(** ** functions/coupons/handlers.ts, the earlier version

    Its own [toCouponDocument] and [calculateDiscount], eligibility checked
    inline, one [try]/[catch] per handler. *)

Module V1.

Definition toCouponDocument (doc : DocumentSnapshot) : IO CouponDocument :=
  match doc_data doc with
  | None => throw
  | Some d => mret (mkCouponDocument (doc_id doc) d)
  end.

Definition calculateDiscount
    (discountType : DiscountType) (discountValue cartTotal : number) : number :=
  match discountType with
  | percentage => Math_round (cartTotal * (discountValue / 100))%Q
  | fixed => Math_min discountValue cartTotal
  end.

Definition internal_error {T} : IO (FunctionResponse T) :=
  mret (failure ErrorInterno INTERNAL_ERROR).

Section Handlers.

Context {upcase : UpperCasing}.
Variable canCreateCoupon : string → string → Store → outcome LimitCheck.

Definition createCouponHandler (now : timestamp) (data : Create.t)
    : IO (FunctionResponse CouponDocument) :=
  try_catch (
    if negb (createCouponSchema data) then
      mret (failure ZodIssues INVALID_INPUT)
    else
      userId ← getSiteUserId (Create.siteId data);
      match truthy_string userId with
      | None => mret (failure SitioNoEncontrado SITE_NOT_FOUND)
      | Some userId =>
          limitCheck ← limits_canCreateCoupon canCreateCoupon userId (Create.siteId data);
          if negb (allowed limitCheck) then
            mret (failure (LimiteDeCupones (current limitCheck) (limit limitCheck))
                    COUPON_LIMIT_REACHED)
          else
            let normalizedCode := toUpperCase (Create.code data) in
            existing ← coupons_where_siteId_code (Create.siteId data) normalizedCode;
            if negb (is_empty existing) then
              mret (failure (CodigoDuplicado normalizedCode) DUPLICATE_CODE)
            else
              let couponData :=
                {| siteId := Create.siteId data;
                   userId := Some userId;
                   code := normalizedCode;
                   discountType := Create.discountType data;
                   discountValue := Create.discountValue data;
                   minPurchase := Create.minPurchase data;
                   maxUses := Create.maxUses data;
                   usedCount := 0%Q;
                   validFrom := Create.validFrom data;
                   validUntil := Create.validUntil data;
                   isActive := true;
                   createdAt := Some now;
                   updatedAt := Some now |} in
              docRef ← coupons_add couponData;
              mret (success (mkCouponDocument docRef couponData))
      end)
    internal_error.

Definition getCouponsHandler (data : Get.t)
    : IO (FunctionResponse (list CouponDocument)) :=
  try_catch (
    if negb (getCouponsSchema data) then
      mret (failure ZodIssues INVALID_INPUT)
    else
      userId ← getSiteUserId (Get.siteId data);
      match truthy_string userId with
      | None => mret (failure SitioNoEncontrado SITE_NOT_FOUND)
      | Some _ =>
          docs ← coupons_where_siteId (Get.siteId data);
          coupons ← mapM toCouponDocument docs;
          mret (success coupons)
      end)
    internal_error.

Definition updateCouponHandler (now : timestamp) (data : Update.t)
    : IO (FunctionResponse CouponDocument) :=
  try_catch (
    if negb (updateCouponSchema data) then
      mret (failure ZodIssues INVALID_INPUT)
    else
      let siteId_ := Update.siteId data in
      let couponId := Update.couponId data in
      userId ← getSiteUserId siteId_;
      match truthy_string userId with
      | None => mret (failure SitioNoEncontrado SITE_NOT_FOUND)
      | Some _ =>
          couponDoc ← coupons_doc_get couponId;
          if negb (doc_exists couponDoc) then
            mret (failure CuponNoEncontrado COUPON_NOT_FOUND)
          else
            currentData ← toCouponDocument couponDoc;
            if negb (String.eqb (siteId (fields currentData)) siteId_) then
              mret (failure CuponDeOtraTienda FORBIDDEN)
            else
              let finish (updates : Updates.t) : IO (FunctionResponse CouponDocument) :=
                let finalDiscountType :=
                  Updates.discountType updates ?? discountType (fields currentData) in
                let finalDiscountValue :=
                  Updates.discountValue updates ?? discountValue (fields currentData) in
                if is_percentage finalDiscountType && Qgtb finalDiscountValue 100%Q then
                  mret (failure PorcentajeSobre100 INVALID_INPUT)
                else
                  let finalValidFrom :=
                    Updates.validFrom updates ?? validFrom (fields currentData) in
                  let finalValidUntil :=
                    Updates.validUntil updates ?? validUntil (fields currentData) in
                  if (finalValidFrom >=? finalValidUntil)%Z then
                    mret (failure ValidFromPosterior INVALID_INPUT)
                  else
                    let cleanUpdates :=
                      {| set_fields := updates;
                         set_usedCount := None;
                         set_updatedAt := Some now |} in
                    _ ← coupons_doc_update couponId cleanUpdates;
                    updatedDoc ← coupons_doc_get couponId;
                    updatedData ← toCouponDocument updatedDoc;
                    mret (success updatedData) in
              match truthy_string (Updates.code (Update.updates data)) with
              | Some c =>
                  let normalizedCode := toUpperCase c in
                  if negb (String.eqb normalizedCode (code (fields currentData))) then
                    existing ← coupons_where_siteId_code siteId_ normalizedCode;
                    if negb (is_empty existing) then
                      mret (failure (CodigoDuplicado normalizedCode) DUPLICATE_CODE)
                    else finish (with_code (Update.updates data) (toUpperCase c))
                  else finish (with_code (Update.updates data) (toUpperCase c))
              | None => finish (Update.updates data)
              end
      end)
    internal_error.

Definition deleteCouponHandler (data : Delete.t)
    : IO (FunctionResponse string) :=
  try_catch (
    if negb (deleteCouponSchema data) then
      mret (failure ZodIssues INVALID_INPUT)
    else
      let couponId := Delete.couponId data in
      userId ← getSiteUserId (Delete.siteId data);
      match truthy_string userId with
      | None => mret (failure SitioNoEncontrado SITE_NOT_FOUND)
      | Some _ =>
          couponDoc ← coupons_doc_get couponId;
          match doc_data couponDoc with
          | None => mret (failure CuponNoEncontrado COUPON_NOT_FOUND)
          | Some couponData =>
              if negb (String.eqb (siteId couponData) (Delete.siteId data)) then
                mret (failure CuponDeOtraTienda FORBIDDEN)
              else
                _ ← coupons_doc_delete couponId;
                mret (success couponId)
          end
      end)
    internal_error.

(** The checks both [validateCouponHandler] and [applyCouponHandler] spell
    out after loading the coupon, up to the computation of the discount. *)
Definition inline_checks {T} (now : timestamp) (coupon : CouponDocument)
    (cartTotal : number) (otherwise : IO (FunctionResponse T))
    : IO (FunctionResponse T) :=
  let c := fields coupon in
  if negb (isActive c) then mret (failure CuponNoActivo COUPON_INACTIVE)
  else if (now <? validFrom c)%Z then
    mret (failure CuponAunNoValido COUPON_NOT_YET_VALID)
  else if (now >? validUntil c)%Z then
    mret (failure CuponExpirado COUPON_EXPIRED)
  else if match maxUses c with
          | Some m => Qgeb (usedCount c) m
          | None => false
          end then
    mret (failure CuponSinUsos COUPON_MAX_USES)
  else
    match minPurchase c with
    | Some p =>
        if Qltb cartTotal p then
          mret (failure (MontoMinimo p) MIN_PURCHASE_NOT_MET)
        else otherwise
    | None => otherwise
    end.

Definition validateCouponHandler (now : timestamp) (data : Validate.t)
    : IO (FunctionResponse ValidateCouponResult) :=
  try_catch (
    if negb (validateCouponSchema data) then
      mret (failure ZodIssues INVALID_INPUT)
    else
      let cartTotal := Validate.cartTotal data in
      siteUserId ← getSiteUserId (Validate.siteId data);
      match truthy_string siteUserId with
      | None => mret (failure SitioNoEncontrado SITE_NOT_FOUND)
      | Some _ =>
          let normalizedCode := toUpperCase (Validate.code data) in
          snapshot ← coupons_where_siteId_code (Validate.siteId data) normalizedCode;
          match snapshot with
          | [] => mret (failure CuponNoEncontrado COUPON_NOT_FOUND)
          | couponDoc :: _ =>
              coupon ← toCouponDocument couponDoc;
              inline_checks now coupon cartTotal (
                let c := fields coupon in
                let discountAmount :=
                  calculateDiscount (discountType c) (discountValue c) cartTotal in
                let finalTotal := (cartTotal - discountAmount)%Q in
                mret (success
                  {| v_valid := true;
                     v_couponId := id coupon;
                     v_code := code c;
                     v_discountType := discountType c;
                     v_discountValue := discountValue c;
                     v_discountAmount := discountAmount;
                     v_finalTotal := Math_max finalTotal 0%Q |}))
          end
      end)
    internal_error.

Definition applyCouponHandler (now : timestamp) (data : Apply.t)
    : IO (FunctionResponse ApplyCouponResult) :=
  try_catch (
    if negb (applyCouponSchema data) then
      mret (failure ZodIssues INVALID_INPUT)
    else
      let couponId := Apply.couponId data in
      let cartTotal := Apply.cartTotal data in
      siteUserId ← getSiteUserId (Apply.siteId data);
      match truthy_string siteUserId with
      | None => mret (failure SitioNoEncontrado SITE_NOT_FOUND)
      | Some _ =>
          runTransaction (
            couponDoc ← coupons_doc_get couponId;
            if negb (doc_exists couponDoc) then
              mret (failure CuponNoEncontrado COUPON_NOT_FOUND)
            else
              coupon ← toCouponDocument couponDoc;
              if negb (String.eqb (siteId (fields coupon)) (Apply.siteId data)) then
                mret (failure CuponDeOtraTienda FORBIDDEN)
              else
                inline_checks now coupon cartTotal (
                  let c := fields coupon in
                  let discountAmount :=
                    calculateDiscount (discountType c) (discountValue c) cartTotal in
                  let finalTotal := Math_max (cartTotal - discountAmount)%Q 0%Q in
                  let newUsedCount := (usedCount c + 1)%Q in
                  _ ← coupons_doc_update couponId
                        {| set_fields := no_updates;
                           set_usedCount := Some newUsedCount;
                           set_updatedAt := Some now |};
                  mret (success
                    {| a_couponId := id coupon;
                       a_orderId := Apply.orderId data;
                       a_discountType := discountType c;
                       a_discountValue := discountValue c;
                       a_discountAmount := discountAmount;
                       a_finalTotal := finalTotal;
                       a_usedCount := newUsedCount |})))
      end)
    internal_error.

End Handlers.

End V1.

(** ** Requests in sequence *)

Inductive Request :=
| CreateCoupon (data : Create.t)
| GetCoupons (data : Get.t)
| UpdateCoupon (data : Update.t)
| DeleteCoupon (data : Delete.t)
| ValidateCoupon (data : Validate.t)
| ApplyCoupon (data : Apply.t).

Section Service.

Context {upcase : UpperCasing}.

Variable canCreateCoupon : string → string → Store → outcome LimitCheck.

(** The store a request leaves, served at the instant [now]. *)
Definition serve (now : timestamp) (r : Request) (s : Store) : Store :=
  match r with
  | CreateCoupon data => snd (createCouponHandler canCreateCoupon now data s)
  | GetCoupons data => snd (getCouponsHandler data s)
  | UpdateCoupon data => snd (updateCouponHandler now data s)
  | DeleteCoupon data => snd (deleteCouponHandler data s)
  | ValidateCoupon data => snd (validateCouponHandler now data s)
  | ApplyCoupon data => snd (applyCouponHandler now data s)
  end.

(** Requests served one after the other, each at its instant. *)
Fixpoint serve_all (reqs : list (timestamp * Request)) (s : Store) : Store :=
  match reqs with
  | [] => s
  | (now, r) :: reqs' => serve_all reqs' (serve now r s)
  end.

End Service.

(** ** Properties of stored coupons *)

(** The counts of a coupon are whole numbers, and [usedCount ≤ maxUses]
    whenever [maxUses] is set. *)
Definition within_cap (d : CouponData) : Prop :=
  isInteger (usedCount d) = true
  ∧ ∀ m, maxUses d = Some m → isInteger m = true ∧ (usedCount d <= m)%Q.

Definition store_within_cap (s : Store) : Prop :=
  ∀ cid d, coupons s !! cid = Some d → within_cap d.

(** An update request that does not put the cap of its coupon under the
    uses the coupon has. *)
Definition update_keeps_cap (s : Store) (req : Update.t) : Prop :=
  ∀ d m, coupons s !! Update.couponId req = Some d →
         Updates.maxUses (Update.updates req) = Some (Some m) →
         (usedCount d <= m)%Q.

Definition keeps_cap (s : Store) (r : Request) : Prop :=
  match r with
  | UpdateCoupon req => update_keeps_cap s req
  | _ => True
  end.

(** Every request of the sequence keeps the cap, in the store it meets. *)
Fixpoint all_keep_cap {upcase : UpperCasing}
    (canCreateCoupon : string → string → Store → outcome LimitCheck)
    (reqs : list (timestamp * Request)) (s : Store) : Prop :=
  match reqs with
  | [] => True
  | (now, r) :: reqs' =>
      keeps_cap s r ∧ all_keep_cap canCreateCoupon reqs' (serve canCreateCoupon now r s)
  end.

(** A stored document that has every field of [COUPON_REQUIRED_FIELDS]. *)
Definition complete (d : CouponData) : Prop :=
  is_Some (userId d) ∧ is_Some (createdAt d) ∧ is_Some (updatedAt d).

Definition store_complete (s : Store) : Prop :=
  ∀ cid d, coupons s !! cid = Some d → complete d.

(** The site of a request exists and has an owner. *)
Definition site_found (s : Store) (sid : string) : Prop :=
  ∃ d uid, sites s !! sid = Some d ∧ Site.userId d = Some uid ∧ uid ≠ "".

(** The new code of an update is another one than the coupon has, and a
    coupon of the site already carries it. *)
Definition code_taken {upcase : UpperCasing}
    (s : Store) (sid current : string) (newcode : option string) : bool :=
  match truthy_string newcode with
  | Some c =>
      negb (String.eqb (toUpperCase c) current)
      && negb (is_empty (docs_of_site_code s sid (toUpperCase c)))
  | None => false
  end.

(** The cross-field rules fail on the merged values: the value of the
    request where it has one, the stored value otherwise. *)
Definition merged_rules_broken (c : CouponData) (u : Updates.t) : Prop :=
  let finalDiscountType := Updates.discountType u ?? discountType c in
  let finalDiscountValue := Updates.discountValue u ?? discountValue c in
  let finalValidFrom := Updates.validFrom u ?? validFrom c in
  let finalValidUntil := Updates.validUntil u ?? validUntil c in
  (finalDiscountType = percentage ∧ (100 < finalDiscountValue)%Q)
  ∨ ¬ (finalValidFrom < finalValidUntil)%Z.

(** The document [createCoupon] stores for a request, owned by [uid]. *)
Definition created {upcase : UpperCasing}
    (now : timestamp) (req : Create.t) (uid : string) : CouponData :=
  {| siteId := Create.siteId req;
     userId := Some uid;
     code := toUpperCase (Create.code req);
     discountType := Create.discountType req;
     discountValue := Create.discountValue req;
     minPurchase := Create.minPurchase req;
     maxUses := Create.maxUses req;
     usedCount := 0;
     validFrom := Create.validFrom req;
     validUntil := Create.validUntil req;
     isActive := true;
     createdAt := Some now;
     updatedAt := Some now |}.

(** The document a redemption leaves. *)
Definition redeemed (now : timestamp) (c : CouponData) : CouponData :=
  write_fields
    {| set_fields := no_updates;
       set_usedCount := Some (usedCount c + 1)%Q;
       set_updatedAt := Some now |} c.

(** The document an accepted update leaves. *)
Definition updated {upcase : UpperCasing}
    (now : timestamp) (u : Updates.t) (c : CouponData) : CouponData :=
  write_fields (buildCleanUpdates now (normalized_updates u)) c.

(** ** The eligibility rules as the specification words them

    In order, the first rule that fails gives the reason: the coupon is
    active; [now ≥ validFrom]; [now ≤ validUntil]; if [maxUses] is set,
    [usedCount < maxUses]; if [minPurchase] is set,
    [cartTotal ≥ minPurchase]. *)
Definition checkEligibility_spec
    (coupon : CouponData) (cartTotal : number) (now : timestamp) : option ErrorCode :=
  if bool_decide (isActive coupon = true) then
    if bool_decide (validFrom coupon ≤ now)%Z then
      if bool_decide (now ≤ validUntil coupon)%Z then
        let rule5 :=
          match minPurchase coupon with
          | Some p => if Qlt_le_dec cartTotal p then Some MIN_PURCHASE_NOT_MET else None
          | None => None
          end in
        match maxUses coupon with
        | Some m => if Qlt_le_dec (usedCount coupon) m then rule5 else Some COUPON_MAX_USES
        | None => rule5
        end
      else Some COUPON_EXPIRED
    else Some COUPON_NOT_YET_VALID
  else Some COUPON_INACTIVE.


(** ** Sample data, after seed.ts *)

Definition date_2025_01_01 : timestamp := 1735700400000.   (* 2025-01-01T00:00:00-03:00 *)
Definition date_2026_12_31 : timestamp := 1798772399000.   (* 2026-12-31T23:59:59-03:00 *)
Definition date_2026_06_01 : timestamp := 1780282800000.   (* 2026-06-01T00:00:00-03:00 *)

Definition sample_coupon (sid c : string) (ty : DiscountType) (v : number)
    (minP maxU : option number) (used : number) : CouponData :=
  {| siteId := sid; userId := Some "user123"; code := c;
     discountType := ty; discountValue := v;
     minPurchase := minP; maxUses := maxU; usedCount := used;
     validFrom := date_2025_01_01; validUntil := date_2026_12_31;
     isActive := true;
     createdAt := Some date_2025_01_01; updatedAt := Some date_2025_01_01 |}.

Definition sample_sites : gmap string Site.t :=
  {[ "site456" := Site.mk (Some "user123"); "site999" := Site.mk (Some "user789") ]}.

Definition store_of (m : gmap string CouponData) : Store :=
  {| sites := sample_sites; coupons := m |}.

(** The coupons of the seed: the same code on two sites. *)
Definition seed_store : Store :=
  store_of
    {[ "coupon001" := sample_coupon "site456" "BIENVENIDO" percentage 10 None (Some 100%Q) 0;
       "coupon002" := sample_coupon "site999" "BIENVENIDO" fixed 5000 (Some 20000%Q) (Some 10%Q) 0;
       "coupon003" := sample_coupon "site456" "BIENVENIDO3" percentage 5 None (Some 50%Q) 0 ]}.

(** A coupon for a single use, not used yet. *)
Definition single_use_store : Store :=
  store_of {[ "coupon004" := sample_coupon "site456" "UNUSO" fixed 1000 None (Some 1%Q) 0 ]}.

(** A coupon stored without [createdAt] and [updatedAt], as the sample
    document of the README shows it. *)
Definition legacy_store : Store :=
  store_of
    {[ "coupon001" :=
         {| siteId := "site456"; userId := Some "user123"; code := "BIENVENIDO";
            discountType := percentage; discountValue := 10;
            minPurchase := None; maxUses := Some 100%Q; usedCount := 0;
            validFrom := date_2025_01_01; validUntil := date_2026_12_31;
            isActive := true; createdAt := None; updatedAt := None |} ]}.

(** A plan that always has room. *)
Definition unlimited_plan : string → string → Store → outcome LimitCheck :=
  λ _ _ _, Returned (mkLimitCheck true 0 0).

(** A plan that is used up: three coupons of three. *)
Definition full_plan : string → string → Store → outcome LimitCheck :=
  λ _ _ _, Returned (mkLimitCheck false 3 3).

(** ** Further properties of responses and stored coupons *)

(** An envelope carries either data or an error, and an error code exactly
    with an error (types/common.ts: never both at a time). *)
Definition envelope {T} (r : FunctionResponse T) : Prop :=
  (data r = None ↔ is_Some (error r))
  ∧ (is_Some (errorCode r) ↔ is_Some (error r)).

(** The rules the schemas put on the fields of one coupon. *)
Definition coupon_rules (d : CouponData) : Prop :=
  (0 < discountValue d)%Q
  ∧ (discountType d = percentage → (discountValue d <= 100)%Q)
  ∧ (validFrom d < validUntil d)%Z
  ∧ (∀ p, minPurchase d = Some p → (0 < p)%Q)
  ∧ (∀ m, maxUses d = Some m → isInteger m = true ∧ (0 < m)%Q).

Definition store_rules (s : Store) : Prop :=
  ∀ cid d, coupons s !! cid = Some d → coupon_rules d.

(** A stored code is the upper-case form of a code that is not empty: what
    [createCoupon] and [updateCoupon] write. *)
Definition code_normalized {upcase : UpperCasing} (d : CouponData) : Prop :=
  ∃ c, c ≠ "" ∧ code d = toUpperCase c.

Definition store_codes_normalized {upcase : UpperCasing} (s : Store) : Prop :=
  ∀ cid d, coupons s !! cid = Some d → code_normalized d.

(** No two coupons of one site carry the same code. *)
Definition codes_unique (s : Store) : Prop :=
  ∀ cid1 cid2 d1 d2,
    coupons s !! cid1 = Some d1 → coupons s !! cid2 = Some d2 →
    siteId d1 = siteId d2 → code d1 = code d2 → cid1 = cid2.

(** [{ id: doc.id, ...data }] of a stored pair. *)
Definition document_of (kd : string * CouponData) : CouponDocument :=
  mkCouponDocument (fst kd) (snd kd).

(** A redemption request, made at an instant, that the rules of the coupon
    [c] of site [sid] under the id [cid] let through as far as the request
    and the instant go: the input is well formed and names the site and the
    coupon, the instant lies within the validity dates, and the cart total
    reaches the minimum purchase when there is one. *)
Definition redeemable (sid cid : string) (c : CouponData) (nr : timestamp * Apply.t) : Prop :=
  applyCouponSchema nr.2 = true
  ∧ Apply.siteId nr.2 = sid
  ∧ Apply.couponId nr.2 = cid
  ∧ (validFrom c ≤ nr.1 ≤ validUntil c)%Z
  ∧ ∀ p, minPurchase c = Some p → (p <= Apply.cartTotal nr.2)%Q.

(** Redemption requests as requests to the service. *)
Definition redemptions (reqs : list (timestamp * Apply.t)) : list (timestamp * Request) :=
  map (λ nr, (nr.1, ApplyCoupon nr.2)) reqs.

(** ** Numbers in double precision

    A JavaScript number is an IEEE 754 binary64 value, and [*], [/] and [-]
    round their exact result to the nearest such value, ties to even.
    Rocq's [float] is that type with the processor's operations.  The
    handlers above are modelled over exact rationals, which is faithful
    wherever numbers are only compared or incremented; [calculateDiscount]
    multiplies and divides, and is given here as the engine computes it. *)
Module Double.

(** A whole number as a double (exact up to 2^53). *)
Definition of_Z (n : Z) : float := SF2Prim (binary_normalize prec emax n 0 false).


(** The integer nearest to [± m · 2^e] for [e < 0], the larger one of two
    that are equally near: [floor (x + 1/2)], computed exactly. *)
Definition nearest_integer (s : bool) (m : positive) (e : Z) : Z :=
  let z := if s then Z.neg m else Z.pos m in
  ((2 * z + 2 ^ (- e)) / 2 ^ (- e + 1))%Z.

(** [Math.round]: "the Number value that is closest to x and is integral;
    if two integral Numbers are equally close to x, then the result is the
    Number value that is closer to +∞".  NaN, the infinities and the zeros
    are returned as they are, a double with a non-negative exponent is
    integral already, and a negative number that rounds to zero gives -0. *)
Definition Math_round (x : float) : float :=
  match Prim2SF x with
  | S754_finite s m e =>
      if (0 <=? e)%Z then x
      else
        let n := nearest_integer s m e in
        if (n =? 0)%Z then (if s then (-0)%float else 0%float) else of_Z n
  | _ => x
  end.

(** [Math.min] and [Math.max] of two numbers: NaN if either is NaN, and -0
    below +0. *)
Definition Math_min (x y : float) : float :=
  if PrimFloat.is_nan x || PrimFloat.is_nan y then nan
  else if (x <? y)%float then x
  else if (y <? x)%float then y
  else if PrimFloat.get_sign x then x else y.

Definition Math_max (x y : float) : float :=
  if PrimFloat.is_nan x || PrimFloat.is_nan y then nan
  else if (x <? y)%float then y
  else if (y <? x)%float then x
  else if PrimFloat.get_sign x then y else x.

(** helpers.ts, [calculateDiscount]. *)
Definition calculateDiscount
    (discountType : DiscountType) (discountValue cartTotal : float) : float :=
  match discountType with
  | percentage => Math_round (cartTotal * (discountValue / 100))%float
  | fixed => Math_min discountValue cartTotal
  end.

(** The final total of [validateCoupon] and [applyCoupon]:
    [Math.max(cartTotal - discountAmount, 0)]. *)
Definition finalTotal (cartTotal discountAmount : float) : float :=
  Math_max (cartTotal - discountAmount)%float 0%float.


End Double.

(** ** The examples

    The examples carry ASCII codes, on which [String.prototype.toUpperCase]
    is [toUpperCase_ascii]: they are evaluated with it. *)
#[global] Instance ascii_letters : UpperCasing := toUpperCase_ascii.

(** * Properties *)

(** ** Arithmetic of the model *)

Lemma Qltb_lt x y : Qltb x y = true ↔ (x < y)%Q.
Proof.
  unfold Qltb. rewrite negb_true_iff, <- not_true_iff_false, Qle_bool_iff.
  split; [apply Qnot_le_lt | apply Qlt_not_le].
Qed.

Lemma Qltb_ge x y : Qltb x y = false ↔ (y <= x)%Q.
Proof. unfold Qltb. rewrite negb_false_iff. apply Qle_bool_iff. Qed.

Lemma Qgeb_ge x y : Qgeb x y = true ↔ (y <= x)%Q.
Proof. apply Qle_bool_iff. Qed.

Lemma Qgeb_lt x y : Qgeb x y = false ↔ (x < y)%Q.
Proof.
  unfold Qgeb. rewrite <- not_true_iff_false, Qle_bool_iff.
  split; [apply Qnot_le_lt | apply Qlt_not_le].
Qed.



Lemma isInteger_spec (x : number) :
  isInteger x = true → (x == inject_Z (Qfloor x))%Q.
Proof. unfold isInteger. rewrite Qeq_bool_iff. intros ->. reflexivity. Qed.



(** ** The discount *)





(** The values the tests of the repository pin, none of them at a tie. *)
Lemma calculateDiscount_test_vectors :
  Double.calculateDiscount percentage 10 50000 = 5000%float
  ∧ Double.calculateDiscount percentage 33 10000 = 3300%float
  ∧ Double.calculateDiscount percentage 100 25000 = 25000%float
  ∧ Double.calculateDiscount fixed 5000 50000 = 5000%float
  ∧ Double.calculateDiscount fixed 50000 10000 = 10000%float
  ∧ Double.calculateDiscount percentage 50 0 = 0%float
  ∧ Double.calculateDiscount fixed 5000 0 = 0%float.
Proof. repeat split; vm_compute; reflexivity. Qed.







(** ** Eligibility *)

Lemma validateCouponEligibility_reason {T} now coupon cartTotal :
  validateCouponEligibility (T := T) now coupon cartTotal ≫= errorCode
  = checkEligibility_spec (fields coupon) cartTotal now.
Proof.
  unfold validateCouponEligibility, checkEligibility_spec.
  destruct (isActive (fields coupon)); simpl; [| reflexivity].
  destruct (Z.ltb_spec now (validFrom (fields coupon))).
  { rewrite bool_decide_eq_false_2 by lia. reflexivity. }
  rewrite bool_decide_eq_true_2 by lia.
  destruct (Z.gtb_spec now (validUntil (fields coupon))).
  { rewrite bool_decide_eq_false_2 by lia. reflexivity. }
  rewrite bool_decide_eq_true_2 by lia.
  assert (Hmin :
    match minPurchase (fields coupon) with
    | Some p =>
        if Qltb cartTotal p
        then Some (failure (T := T) (MontoMinimo p) MIN_PURCHASE_NOT_MET)
        else None
    | None => None
    end ≫= errorCode
    = match minPurchase (fields coupon) with
      | Some p => if Qlt_le_dec cartTotal p then Some MIN_PURCHASE_NOT_MET else None
      | None => None
      end).
  { destruct (minPurchase (fields coupon)) as [p |]; [| reflexivity].
    destruct (Qlt_le_dec cartTotal p) as [Hlt | Hge].
    - apply Qltb_lt in Hlt. rewrite Hlt. reflexivity.
    - apply Qltb_ge in Hge. rewrite Hge. reflexivity. }
  destruct (maxUses (fields coupon)) as [m |]; [| exact Hmin].
  destruct (Qlt_le_dec (usedCount (fields coupon)) m) as [Hlt | Hge].
  - apply Qgeb_lt in Hlt. rewrite Hlt. exact Hmin.
  - apply Qgeb_ge in Hge. rewrite Hge. reflexivity.
Qed.

(** C2. The eligibility check gives the reason of the first rule of the
    specification that fails, in the order active, not yet valid, expired,
    uses, minimum purchase, and nothing when all hold; what it returns is
    an error envelope; [now] equal to [validUntil] is not expired and a
    cart total equal to [minPurchase] meets the minimum. *)
Theorem validateCouponEligibility_spec :
  (∀ T now coupon cartTotal,
     validateCouponEligibility (T := T) now coupon cartTotal ≫= errorCode
     = checkEligibility_spec (fields coupon) cartTotal now)
  ∧ (∀ T now coupon cartTotal r,
       validateCouponEligibility (T := T) now coupon cartTotal = Some r →
       data r = None ∧ is_Some (error r) ∧ is_Some (errorCode r))
  ∧ (∀ T coupon cartTotal,
       validateCouponEligibility (T := T) (validUntil (fields coupon)) coupon cartTotal
         ≫= errorCode ≠ Some COUPON_EXPIRED)
  ∧ (∀ T now coupon p,
       minPurchase (fields coupon) = Some p →
       validateCouponEligibility (T := T) now coupon p
         ≫= errorCode ≠ Some MIN_PURCHASE_NOT_MET).
Proof.
  split; [| split; [| split]].
  - intros. apply validateCouponEligibility_reason.
  - intros T now coupon cartTotal r. unfold validateCouponEligibility.
    repeat case_match; intros [= <-]; simpl; eauto.
  - intros. rewrite validateCouponEligibility_reason. unfold checkEligibility_spec.
    repeat case_match; try congruence.
    rewrite bool_decide_eq_false in *. lia.
  - intros T now coupon p Hp. rewrite validateCouponEligibility_reason.
    unfold checkEligibility_spec. rewrite Hp.
    repeat case_match; try congruence; exfalso; eapply Qlt_irrefl; eassumption.
Qed.

Lemma validateCouponEligibility_spec_witness :
  validateCouponEligibility (T := unit) date_2026_06_01
    (mkCouponDocument "c1"
       (sample_coupon "site456" "TEST" fixed 5000 (Some 30000%Q) None 0)) 30000
    ≫= errorCode ≠ Some MIN_PURCHASE_NOT_MET.
Proof.
  destruct validateCouponEligibility_spec as (_ & _ & _ & H).
  apply (H unit date_2026_06_01
           (mkCouponDocument "c1"
              (sample_coupon "site456" "TEST" fixed 5000 (Some 30000%Q) None 0))
           30000%Q).
  reflexivity.
Defined.

(** ** Running the handlers *)

Lemma site_found_userId s sid :
  site_found s sid →
  ∃ uid, truthy_string (sites s !! sid ≫= Site.userId) = Some uid.
Proof.
  intros (d & uid & Hd & Hu & Hne). exists uid.
  rewrite Hd. simpl. rewrite Hu. unfold truthy_string, truthy.
  destruct (String.eqb_spec uid ""); [done | reflexivity].
Qed.

Lemma getSiteUserId_eq sid s :
  getSiteUserId sid s = (Returned (sites s !! sid ≫= Site.userId), s).
Proof.
  unfold getSiteUserId, sites_doc_get, mbind, IO_bind, mret, IO_ret.
  by destruct (sites s !! sid).
Qed.

Lemma complete_no_missing d :
  complete d → List.filter (field_undefined d) COUPON_REQUIRED_FIELDS = [].
Proof.
  intros ([? Hu] & [? Hc] & [? Hp]). unfold COUPON_REQUIRED_FIELDS. simpl.
  unfold field_undefined. simpl. by rewrite Hu, Hc, Hp.
Qed.

Lemma toCouponDocument_complete cid d s :
  complete d →
  toCouponDocument (mkSnapshot cid (Some d)) s = (Returned (mkCouponDocument cid d), s).
Proof.
  intros Hd. unfold toCouponDocument. cbn [doc_data doc_id].
  by rewrite complete_no_missing.
Qed.

Lemma toCouponDocument_cases cid d s :
  (complete d
   ∧ toCouponDocument (mkSnapshot cid (Some d)) s = (Returned (mkCouponDocument cid d), s))
  ∨ (¬ complete d ∧ toCouponDocument (mkSnapshot cid (Some d)) s = (Thrown, s)).
Proof.
  destruct (decide (complete d)) as [Hd | Hd].
  - left. split; [done |]. by apply toCouponDocument_complete.
  - right. split; [done |]. unfold toCouponDocument, complete in *. simpl.
    unfold field_undefined; simpl.
    destruct (userId d), (createdAt d), (updatedAt d); simpl; try done.
    exfalso. apply Hd. eauto.
Qed.

Lemma validateCouponEligibility_failure {T} now coupon cartTotal (r : FunctionResponse T) :
  validateCouponEligibility now coupon cartTotal = Some r →
  ∃ msg c, r = failure msg c.
Proof.
  unfold validateCouponEligibility. repeat case_match; intros [= <-]; eauto.
Qed.

(** A guard answered: the handler stops with an error and the store as it
    was. *)
Ltac stopped := intros [= <- <-]; left; by do 2 eexists.

(** ** validateCoupon *)

Lemma validateCouponHandler_store {upcase : UpperCasing} now req s :
  ∃ r, validateCouponHandler now req s = (Returned r, s).
Proof.
  unfold validateCouponHandler, withErrorHandling, try_catch.
  destruct (validateCouponSchema req); simpl; [| by eexists].
  unfold mbind at 1, IO_bind at 1. rewrite getSiteUserId_eq.
  destruct (truthy_string _); [| by eexists].
  unfold mbind, IO_bind, mret, IO_ret, coupons_where_siteId_code.
  simpl. destruct (docs_of_site_code _ _ _) as [| [cid [d |]] ?]; simpl;
    [by eexists | | by eexists].
  destruct (toCouponDocument_cases cid d s) as [[_ ->] | [_ ->]]; [| by eexists].
  destruct (validateCouponEligibility _ _ _); by eexists.
Qed.

(** C9. [validateCoupon] leaves the store as it found it, whatever it
    answers, and so does any number of calls. *)
Theorem validateCoupon_read_only {upcase : UpperCasing} :
  (∀ now req s, ∃ r, validateCouponHandler now req s = (Returned r, s))
  ∧ (∀ canCreateCoupon (calls : list (timestamp * Validate.t)) s,
       serve_all canCreateCoupon
         (List.map (λ c, (fst c, ValidateCoupon (snd c))) calls) s = s).
Proof.
  split; [apply validateCouponHandler_store |].
  intros canCreateCoupon calls s. induction calls as [| [now req] calls IH]; [done |].
  simpl. destruct (validateCouponHandler_store now req s) as [r ->]. exact IH.
Qed.

(** ** applyCoupon *)

(** What [applyCoupon] does: an error and the store as it was, or the
    redemption of a complete, eligible coupon of the site. *)
Lemma applyCouponHandler_cases now req s :
  (∃ msg c, applyCouponHandler now req s = (Returned (failure msg c), s))
  ∨ (∃ c,
       coupons s !! Apply.couponId req = Some c
       ∧ complete c
       ∧ siteId c = Apply.siteId req
       ∧ validateCouponEligibility (T := ApplyCouponResult) now
           (mkCouponDocument (Apply.couponId req) c) (Apply.cartTotal req) = None
       ∧ applyCouponHandler now req s =
           let discountAmount :=
             calculateDiscount (discountType c) (discountValue c) (Apply.cartTotal req) in
           (Returned (success
              {| a_couponId := Apply.couponId req;
                 a_orderId := Apply.orderId req;
                 a_discountType := discountType c;
                 a_discountValue := discountValue c;
                 a_discountAmount := discountAmount;
                 a_finalTotal := Math_max (Apply.cartTotal req - discountAmount) 0;
                 a_usedCount := (usedCount c + 1)%Q |}),
            set_coupons s
              (<[Apply.couponId req :=
                   write_fields
                     {| set_fields := no_updates;
                        set_usedCount := Some (usedCount c + 1)%Q;
                        set_updatedAt := Some now |} c]> (coupons s)))).
Proof.
  destruct (applyCouponHandler now req s) as [o s'] eqn:H. revert H.
  unfold applyCouponHandler, withErrorHandling, try_catch.
  destruct (applyCouponSchema req); simpl;
    [| stopped].
  unfold mbind at 1, IO_bind at 1. rewrite getSiteUserId_eq.
  destruct (truthy_string _); [| stopped].
  unfold runTransaction, mbind, IO_bind, mret, IO_ret, coupons_doc_get, doc_exists.
  simpl. destruct (coupons s !! Apply.couponId req) as [c |] eqn:Hc; simpl;
    [| stopped].
  destruct (toCouponDocument_cases (Apply.couponId req) c s) as [[Hd ->] | [_ ->]];
    [| stopped].
  simpl. destruct (String.eqb_spec (siteId c) (Apply.siteId req)) as [Hsite | _]; simpl;
    [| stopped].
  destruct (validateCouponEligibility _ _ _) as [e |] eqn:He.
  - apply validateCouponEligibility_failure in He as (msg & code & ->).
    stopped.
  - unfold coupons_doc_update. rewrite Hc. intros [= <- <-]. right. by exists c.
Qed.

Lemma applyCouponHandler_loaded now req s c :
  applyCouponSchema req = true →
  site_found s (Apply.siteId req) →
  coupons s !! Apply.couponId req = Some c →
  complete c →
  applyCouponHandler now req s =
    if negb (String.eqb (siteId c) (Apply.siteId req)) then
      (Returned (failure CuponDeOtraTienda FORBIDDEN), s)
    else
      match validateCouponEligibility now
              (mkCouponDocument (Apply.couponId req) c) (Apply.cartTotal req) with
      | Some eligibilityError => (Returned eligibilityError, s)
      | None =>
          let discountAmount :=
            calculateDiscount (discountType c) (discountValue c) (Apply.cartTotal req) in
          (Returned (success
             {| a_couponId := Apply.couponId req;
                a_orderId := Apply.orderId req;
                a_discountType := discountType c;
                a_discountValue := discountValue c;
                a_discountAmount := discountAmount;
                a_finalTotal := Math_max (Apply.cartTotal req - discountAmount) 0;
                a_usedCount := (usedCount c + 1)%Q |}),
           set_coupons s
             (<[Apply.couponId req :=
                  write_fields
                    {| set_fields := no_updates;
                       set_usedCount := Some (usedCount c + 1)%Q;
                       set_updatedAt := Some now |} c]> (coupons s)))
      end.
Proof.
  intros Hschema Hsite Hc Hcomplete.
  destruct (site_found_userId _ _ Hsite) as [uid Huid].
  unfold applyCouponHandler, withErrorHandling, try_catch.
  rewrite Hschema. simpl.
  unfold mbind at 1, IO_bind at 1. rewrite getSiteUserId_eq, Huid.
  unfold runTransaction, mbind, IO_bind, mret, IO_ret, coupons_doc_get, doc_exists. simpl.
  rewrite Hc. simpl. rewrite toCouponDocument_complete by done. simpl.
  destruct (String.eqb (siteId c) (Apply.siteId req)); simpl; [| done].
  destruct (validateCouponEligibility now _ _); [done |].
  unfold coupons_doc_update. rewrite Hc. done.
Qed.

(** C5. Every error result of [applyCoupon] comes with the store the
    request found, so no [usedCount] moved; a request for an existing site
    on a coupon stored under another site is answered [FORBIDDEN], with the
    store unchanged. *)
Theorem applyCoupon_error_no_write :
  (∀ now req s, ∃ r s',
     applyCouponHandler now req s = (Returned r, s')
     ∧ (is_Some (error r) ∨ data r = None → s' = s)
     ∧ (is_Some (error r) ↔ data r = None))
  ∧ (∀ now req s c,
       applyCouponSchema req = true →
       site_found s (Apply.siteId req) →
       coupons s !! Apply.couponId req = Some c →
       complete c →
       siteId c ≠ Apply.siteId req →
       applyCouponHandler now req s
       = (Returned (failure CuponDeOtraTienda FORBIDDEN), s)).
Proof.
  split.
  - intros now req s.
    destruct (applyCouponHandler_cases now req s)
      as [(msg & c & ->) | (c & _ & _ & _ & _ & ->)]; do 2 eexists; (split; [done |]).
    + split; [done |]. split; [done | by eexists].
    + simpl. split; [by intros [[? [=]] | [=]] |]. split; [by intros [? [=]] | done].
  - intros now req s c Hschema Hsite Hc Hcomplete Hne.
    rewrite (applyCouponHandler_loaded now req s c) by done.
    destruct (String.eqb_spec (siteId c) (Apply.siteId req)); done.
Qed.

Lemma applyCoupon_error_no_write_witness :
  applyCouponHandler date_2026_06_01
    (Apply.mk "site999" "coupon001" "order-001" 50000) seed_store
  = (Returned (failure CuponDeOtraTienda FORBIDDEN), seed_store).
Proof.
  destruct applyCoupon_error_no_write as [_ H].
  apply (H date_2026_06_01 (Apply.mk "site999" "coupon001" "order-001" 50000) seed_store
           (sample_coupon "site456" "BIENVENIDO" percentage 10 None (Some 100%Q) 0)).
  - reflexivity.
  - exists (Site.mk (Some "user789")), "user789". repeat split; done.
  - reflexivity.
  - repeat split; by eexists.
  - done.
Defined.

(** ** Queries *)

Lemma docs_of_site_code_nonempty s sid c :
  is_empty (docs_of_site_code s sid c) = false
  ↔ ∃ cid d, coupons s !! cid = Some d ∧ siteId d = sid ∧ code d = c.
Proof.
  unfold docs_of_site_code.
  set (P := λ kd : string * CouponData,
              String.eqb (siteId (snd kd)) sid && String.eqb (code (snd kd)) c).
  split.
  - destruct (List.filter P (map_to_list (coupons s))) as [| [cid d] l] eqn:E; [done |].
    intros _. assert (Hin : In (cid, d) (List.filter P (map_to_list (coupons s)))).
    { rewrite E. by left. }
    apply filter_In in Hin as [Hin HP].
    apply list_elem_of_In, elem_of_map_to_list in Hin.
    unfold P in HP. simpl in HP. apply andb_true_iff in HP as [H1 H2].
    apply String.eqb_eq in H1, H2. eauto.
  - intros (cid & d & Hd & Hs & Hc).
    assert (Hin : In (cid, d) (List.filter P (map_to_list (coupons s)))).
    { apply filter_In. split.
      - by apply list_elem_of_In, elem_of_map_to_list.
      - unfold P. simpl. rewrite Hs, Hc, !String.eqb_refl. done. }
    destruct (List.filter P (map_to_list (coupons s))); [destruct Hin | done].
Qed.

(** ** updateCoupon *)

Lemma validateUpdateFields_broken {T} cid c u :
  is_Some (validateUpdateFields (T := T) (mkCouponDocument cid c) u)
  ↔ merged_rules_broken c u.
Proof.
  unfold validateUpdateFields, merged_rules_broken. simpl.
  destruct (Updates.discountType u ?? discountType c); simpl.
  - destruct (Qgtb _ _) eqn:Hv.
    + apply Qltb_lt in Hv. split; [intros _; by left | by eexists].
    + apply Qltb_ge in Hv.
      destruct (Z.geb_spec (Updates.validFrom u ?? validFrom c)
                  (Updates.validUntil u ?? validUntil c)).
      * split; [intros _; right; lia | by eexists].
      * split; [by intros [? [=]] |].
        intros [[_ Hlt] | Hge]; [| lia]. exfalso. by eapply Qlt_not_le.
  - destruct (Z.geb_spec (Updates.validFrom u ?? validFrom c)
                (Updates.validUntil u ?? validUntil c)).
    + split; [intros _; right; lia | by eexists].
    + split; [by intros [? [=]] |]. intros [[[=] _] | Hge]. lia.
Qed.

Lemma validateUpdateFields_failure {T} currentData u (r : FunctionResponse T) :
  validateUpdateFields currentData u = Some r →
  ∃ msg, r = failure msg INVALID_INPUT.
Proof.
  unfold validateUpdateFields. repeat case_match; intros [= <-]; eauto.
Qed.

Lemma updated_complete {upcase : UpperCasing} now u c : complete c → complete (updated now u c).
Proof. intros (? & ? & ?). repeat split; simpl; eauto. Qed.

(** The end of the handler, from the cross-field checks on, is
    [validateUpdateFields] followed by the write and the read back. *)
Lemma updateCouponHandler_finish now cid c u s :
  coupons s !! cid = Some c →
  complete c →
  (let currentData := mkCouponDocument cid c in
   let finalDiscountType := Updates.discountType u ?? discountType (fields currentData) in
   let finalDiscountValue := Updates.discountValue u ?? discountValue (fields currentData) in
   if is_percentage finalDiscountType && Qgtb finalDiscountValue 100 then
     mret (failure PorcentajeSobre100 INVALID_INPUT)
   else
     let finalValidFrom := Updates.validFrom u ?? validFrom (fields currentData) in
     let finalValidUntil := Updates.validUntil u ?? validUntil (fields currentData) in
     if (finalValidFrom >=? finalValidUntil)%Z then
       mret (failure ValidFromPosterior INVALID_INPUT)
     else
       _ ← coupons_doc_update cid
             {| set_fields := u; set_usedCount := None; set_updatedAt := Some now |};
       updatedDoc ← coupons_doc_get cid;
       updatedData ← toCouponDocument updatedDoc;
       mret (success updatedData)) s
  = match validateUpdateFields (mkCouponDocument cid c) u with
    | Some e => (Returned e, s)
    | None =>
        let c' := write_fields (buildCleanUpdates now u) c in
        (Returned (success (mkCouponDocument cid c')),
         set_coupons s (<[cid := c']> (coupons s)))
    end.
Proof.
  intros Hc Hcomplete. unfold validateUpdateFields. simpl.
  destruct (is_percentage _ && Qgtb _ _); [done |].
  destruct (_ >=? _)%Z; [done |].
  unfold mbind, IO_bind, mret, IO_ret, coupons_doc_update, coupons_doc_get. simpl.
  rewrite Hc. simpl. rewrite lookup_insert_eq.
  rewrite toCouponDocument_complete; [done |].
  destruct Hcomplete as (? & ? & ?). repeat split; simpl; eauto.
Qed.

Lemma updateCouponHandler_loaded {upcase : UpperCasing} now req s c :
  updateCouponSchema req = true →
  site_found s (Update.siteId req) →
  coupons s !! Update.couponId req = Some c →
  complete c →
  siteId c = Update.siteId req →
  updateCouponHandler now req s =
    match truthy_string (Updates.code (Update.updates req)) with
    | Some newcode =>
        if code_taken s (Update.siteId req) (code c) (Updates.code (Update.updates req)) then
          (Returned (failure (CodigoDuplicado (toUpperCase newcode)) DUPLICATE_CODE), s)
        else
          match validateUpdateFields (mkCouponDocument (Update.couponId req) c)
                  (normalized_updates (Update.updates req)) with
          | Some e => (Returned e, s)
          | None =>
              let c' := updated now (Update.updates req) c in
              (Returned (success (mkCouponDocument (Update.couponId req) c')),
               set_coupons s (<[Update.couponId req := c']> (coupons s)))
          end
    | None =>
        match validateUpdateFields (mkCouponDocument (Update.couponId req) c)
                (normalized_updates (Update.updates req)) with
        | Some e => (Returned e, s)
        | None =>
            let c' := updated now (Update.updates req) c in
            (Returned (success (mkCouponDocument (Update.couponId req) c')),
             set_coupons s (<[Update.couponId req := c']> (coupons s)))
        end
    end.
Proof.
  intros Hschema Hsite Hc Hcomplete Howned.
  destruct (site_found_userId _ _ Hsite) as [uid Huid].
  unfold updateCouponHandler, withErrorHandling, try_catch.
  rewrite Hschema. cbn [negb].
  unfold mbind at 1, IO_bind at 1. rewrite getSiteUserId_eq, Huid.
  unfold mbind at 1, IO_bind at 1. unfold coupons_doc_get at 1, doc_exists.
  cbn [doc_data]. rewrite Hc. cbn [negb].
  unfold mbind at 1, IO_bind at 1. rewrite toCouponDocument_complete by done.
  cbn [fields]. rewrite Howned, String.eqb_refl. cbn [negb].
  unfold updated, normalized_updates, code_taken.
  destruct (truthy_string (Updates.code (Update.updates req))) as [newcode |].
  - destruct (String.eqb (toUpperCase newcode) (code c)); cbn [negb andb].
    + rewrite (updateCouponHandler_finish now _ c _ s Hc Hcomplete).
      by destruct (validateUpdateFields _ _).
    + unfold mbind at 1, IO_bind at 1, coupons_where_siteId_code at 1.
      destruct (is_empty _); cbn [negb].
      * rewrite (updateCouponHandler_finish now _ c _ s Hc Hcomplete).
        by destruct (validateUpdateFields _ _).
      * done.
  - rewrite (updateCouponHandler_finish now _ c _ s Hc Hcomplete).
    by destruct (validateUpdateFields _ _).
Qed.

Lemma truthy_string_site_found s sid uid :
  truthy_string (sites s !! sid ≫= Site.userId) = Some uid → site_found s sid.
Proof.
  destruct (sites s !! sid) as [d |] eqn:Hd; simpl; [| done].
  destruct (Site.userId d) as [u |] eqn:Hu; [| done].
  unfold truthy_string, truthy. destruct (String.eqb_spec u ""); [done |].
  intros [= <-]. by exists d, u.
Qed.

(** A request either stops at a guard, with the store untouched, or meets a
    complete coupon of its site. *)
Lemma updateCouponHandler_guards {upcase : UpperCasing} now req s :
  (∃ msg c,
     updateCouponHandler now req s = (Returned (failure msg c), s)
     ∧ c ≠ DUPLICATE_CODE
     ∧ (c = INVALID_INPUT → updateCouponSchema req = false))
  ∨ (∃ c,
       updateCouponSchema req = true
       ∧ site_found s (Update.siteId req)
       ∧ coupons s !! Update.couponId req = Some c
       ∧ complete c
       ∧ siteId c = Update.siteId req).
Proof.
  destruct (updateCouponHandler now req s) as [o s'] eqn:H. revert H.
  unfold updateCouponHandler, withErrorHandling, try_catch.
  destruct (updateCouponSchema req) eqn:Hschema; cbn [negb];
    [| stopped].
  unfold mbind at 1, IO_bind at 1. rewrite getSiteUserId_eq.
  destruct (truthy_string _) eqn:Hsite;
    [| stopped].
  apply truthy_string_site_found in Hsite.
  unfold mbind at 1, IO_bind at 1. unfold coupons_doc_get at 1, doc_exists.
  cbn [doc_data].
  destruct (coupons s !! Update.couponId req) as [c |] eqn:Hc; cbn [negb];
    [| stopped].
  unfold mbind at 1, IO_bind at 1.
  destruct (toCouponDocument_cases (Update.couponId req) c s) as [[Hd ->] | [_ ->]];
    [| stopped].
  cbn [fields].
  destruct (String.eqb_spec (siteId c) (Update.siteId req)) as [Howned | _]; cbn [negb];
    [| stopped].
  intros _. right. by exists c.
Qed.

(** C6. The cross-field rules of an update are checked on the merged
    values.  [validateUpdateFields] answers [INVALID_INPUT] exactly when the
    merged type is percentage with a merged value above 100, or the merged
    [validFrom] is not strictly before the merged [validUntil]; the handler
    answers [INVALID_INPUT] to a request that gets to these rules and
    breaks them, and whatever it answers to a request that breaks them, it
    writes nothing; switching a stored fixed 5000 to percentage is
    rejected. *)
Theorem update_rules_on_merged_values {upcase : UpperCasing} :
  (∀ T cid c u,
     (is_Some (validateUpdateFields (T := T) (mkCouponDocument cid c) u)
      ↔ merged_rules_broken c u)
     ∧ (∀ r, validateUpdateFields (T := T) (mkCouponDocument cid c) u = Some r →
             errorCode r = Some INVALID_INPUT ∧ data r = None))
  ∧ (∀ now req s c,
       site_found s (Update.siteId req) →
       coupons s !! Update.couponId req = Some c →
       complete c →
       siteId c = Update.siteId req →
       code_taken s (Update.siteId req) (code c) (Updates.code (Update.updates req)) = false →
       merged_rules_broken c (Update.updates req) →
       ∃ msg, updateCouponHandler now req s = (Returned (failure msg INVALID_INPUT), s))
  ∧ (∀ now req s c,
       coupons s !! Update.couponId req = Some c →
       merged_rules_broken c (Update.updates req) →
       ∃ msg e, updateCouponHandler now req s = (Returned (failure msg e), s))
  ∧ updateCouponHandler date_2026_06_01
      (Update.mk "site999" "coupon002"
         (Updates.mk None (Some percentage) None None None None None None))
      seed_store
    = (Returned (failure PorcentajeSobre100 INVALID_INPUT), seed_store).
Proof.
  assert (Hnorm : ∀ c u, merged_rules_broken c u → merged_rules_broken c (normalized_updates u)).
  { intros c u. unfold normalized_updates. by destruct (truthy_string _). }
  split; [| split; [| split]].
  - intros T cid c u. split; [apply validateUpdateFields_broken |].
    intros r Hr. by apply validateUpdateFields_failure in Hr as [msg ->].
  - intros now req s c Hsite Hc Hcomplete Howned Hcode Hbroken.
    destruct (updateCouponSchema req) eqn:Hschema;
      [| exists ZodIssues; unfold updateCouponHandler, withErrorHandling, try_catch;
         by rewrite Hschema].
    rewrite (updateCouponHandler_loaded now req s c) by done. rewrite Hcode.
    apply Hnorm, (validateUpdateFields_broken (T := CouponDocument) (Update.couponId req))
      in Hbroken as [e He].
    rewrite He. apply validateUpdateFields_failure in He as [msg ->].
    exists msg. by destruct (truthy_string _).
  - intros now req s c Hc Hbroken.
    destruct (updateCouponHandler_guards now req s)
      as [(msg & e & H & _) | (c' & Hschema & Hsite & Hc' & Hcomplete & Howned)];
      [by eauto |].
    assert (c' = c) as -> by congruence.
    rewrite (updateCouponHandler_loaded now req s c) by done.
    apply Hnorm, (validateUpdateFields_broken (T := CouponDocument) (Update.couponId req))
      in Hbroken as [e He].
    rewrite He. apply validateUpdateFields_failure in He as [msg ->].
    destruct (truthy_string _); [destruct (code_taken _ _ _ _) |]; eauto.
  - vm_compute. reflexivity.
Qed.

Lemma update_rules_on_merged_values_witness :
  ∃ msg,
    updateCouponHandler date_2026_06_01
      (Update.mk "site456" "coupon001"
         (Updates.mk None None (Some 150%Q) None None None None None))
      seed_store
    = (Returned (failure msg INVALID_INPUT), seed_store).
Proof.
  destruct update_rules_on_merged_values as (_ & H & _).
  apply (H date_2026_06_01
           (Update.mk "site456" "coupon001"
              (Updates.mk None None (Some 150%Q) None None None None None))
           seed_store
           (sample_coupon "site456" "BIENVENIDO" percentage 10 None (Some 100%Q) 0)).
  - exists (Site.mk (Some "user123")), "user123". repeat split; done.
  - reflexivity.
  - repeat split; by eexists.
  - reflexivity.
  - reflexivity.
  - left. split; [reflexivity | reflexivity].
Defined.

(** The schema refuses an empty code, the one string the handler's block
    on [code] would skip. *)
Lemma updateCouponSchema_code req :
  updateCouponSchema req = true → Updates.code (Update.updates req) ≠ Some "".
Proof.
  intros Hschema Hcode. unfold updateCouponSchema, updateCouponBase in Hschema.
  rewrite Hcode in Hschema.
  repeat match goal with
         | H : _ && _ = true |- _ => apply andb_true_iff in H as [H ?]
         end.
  discriminate.
Qed.

Lemma normalized_updates_code {upcase : UpperCasing} u :
  Updates.code u ≠ Some "" →
  nullish (Updates.code (normalized_updates u)) =
  nullish (toUpperCase <$> Updates.code u).
Proof.
  intros Hcode. unfold normalized_updates, truthy_string, truthy.
  destruct (Updates.code u) as [x |] eqn:Hx; simpl; [| by rewrite Hx].
  destruct (String.eqb_spec x ""); simpl; [by subst | done].
Qed.

Lemma normalized_updates_other {upcase : UpperCasing} u :
  let u' := normalized_updates u in
  Updates.discountType u' = Updates.discountType u
  ∧ Updates.discountValue u' = Updates.discountValue u
  ∧ Updates.minPurchase u' = Updates.minPurchase u
  ∧ Updates.maxUses u' = Updates.maxUses u
  ∧ Updates.validFrom u' = Updates.validFrom u
  ∧ Updates.validUntil u' = Updates.validUntil u
  ∧ Updates.isActive u' = Updates.isActive u.
Proof. unfold normalized_updates. by destruct (truthy_string _). Qed.

(** The document an accepted update leaves, field by field. *)
Lemma updated_fields {upcase : UpperCasing} now u c :
  Updates.code u ≠ Some "" →
  let c' := updated now u c in
  code c' = match Updates.code u with Some x => toUpperCase x | None => code c end
  ∧ discountType c' = match Updates.discountType u with Some x => x | None => discountType c end
  ∧ discountValue c' = match Updates.discountValue u with Some x => x | None => discountValue c end
  ∧ minPurchase c' = match Updates.minPurchase u with
                     | Some (Some x) => Some x
                     | Some None => None
                     | None => minPurchase c
                     end
  ∧ maxUses c' = match Updates.maxUses u with
                 | Some (Some x) => Some x
                 | Some None => None
                 | None => maxUses c
                 end
  ∧ validFrom c' = match Updates.validFrom u with Some x => x | None => validFrom c end
  ∧ validUntil c' = match Updates.validUntil u with Some x => x | None => validUntil c end
  ∧ isActive c' = match Updates.isActive u with Some x => x | None => isActive c end
  ∧ siteId c' = siteId c ∧ userId c' = userId c ∧ usedCount c' = usedCount c
  ∧ createdAt c' = createdAt c ∧ updatedAt c' = Some now.
Proof.
  intros Hcode.
  destruct (normalized_updates_other u) as (Hty & Hval & Hmin & Hmax & Hfrom & Huntil & Hact).
  unfold updated, write_fields, buildCleanUpdates. cbn [set_fields set_usedCount set_updatedAt
    code discountType discountValue minPurchase maxUses validFrom validUntil isActive
    siteId userId usedCount createdAt updatedAt].
  rewrite normalized_updates_code by done.
  rewrite Hty, Hval, Hmin, Hmax, Hfrom, Huntil, Hact.
  repeat split.
  - by destruct (Updates.code u).
  - by destruct (Updates.minPurchase u) as [[] |].
  - by destruct (Updates.maxUses u) as [[] |].
Qed.

Lemma updateCouponHandler_success {upcase : UpperCasing} now req s r :
  fst (updateCouponHandler now req s) = Returned r →
  is_Some (data r) →
  ∃ c, updateCouponSchema req = true
       ∧ coupons s !! Update.couponId req = Some c
       ∧ updateCouponHandler now req s
         = (Returned (success (mkCouponDocument (Update.couponId req)
                                 (updated now (Update.updates req) c))),
            set_coupons s
              (<[Update.couponId req := updated now (Update.updates req) c]> (coupons s))).
Proof.
  intros Hr Hdata.
  destruct (updateCouponHandler_guards now req s)
    as [(msg & e & H & _) | (c & Hschema & Hsite & Hc & Hcomplete & Howned)].
  { rewrite H in Hr. simpl in Hr. injection Hr as <-. by destruct Hdata. }
  exists c. split; [done |]. split; [done |]. revert Hr.
  rewrite (updateCouponHandler_loaded now req s c) by done.
  destruct (truthy_string _);
    [destruct (code_taken _ _ _ _); [intros [= <-]; by destruct Hdata |] |];
    (destruct (validateUpdateFields _ _) as [err |] eqn:He;
     [apply validateUpdateFields_failure in He as [msg ->];
      intros [= <-]; by destruct Hdata | done]).
Qed.

(** C7. After a successful update the stored coupon has, field by field,
    the value of the request where the request has one (the code in upper
    case) and the stored value where the key is absent; [minPurchase] and
    [maxUses] are cleared by an explicit [null], which is not an absent
    key; [siteId], [userId], [usedCount] and [createdAt] stay, [updatedAt]
    is the instant of the update, and no other coupon changes. *)
Theorem update_merges_present_keys {upcase : UpperCasing} now req s r :
  fst (updateCouponHandler now req s) = Returned r →
  is_Some (data r) →
  let u := Update.updates req in
  ∃ c c',
    coupons s !! Update.couponId req = Some c
    ∧ data r = Some (mkCouponDocument (Update.couponId req) c')
    ∧ snd (updateCouponHandler now req s)
      = set_coupons s (<[Update.couponId req := c']> (coupons s))
    ∧ code c' = match Updates.code u with Some x => toUpperCase x | None => code c end
    ∧ discountType c' = match Updates.discountType u with Some x => x | None => discountType c end
    ∧ discountValue c' = match Updates.discountValue u with Some x => x | None => discountValue c end
    ∧ minPurchase c' = match Updates.minPurchase u with
                       | Some (Some x) => Some x
                       | Some None => None
                       | None => minPurchase c
                       end
    ∧ maxUses c' = match Updates.maxUses u with
                   | Some (Some x) => Some x
                   | Some None => None
                   | None => maxUses c
                   end
    ∧ validFrom c' = match Updates.validFrom u with Some x => x | None => validFrom c end
    ∧ validUntil c' = match Updates.validUntil u with Some x => x | None => validUntil c end
    ∧ isActive c' = match Updates.isActive u with Some x => x | None => isActive c end
    ∧ siteId c' = siteId c ∧ userId c' = userId c ∧ usedCount c' = usedCount c
    ∧ createdAt c' = createdAt c ∧ updatedAt c' = Some now
    ∧ (∀ other, other ≠ Update.couponId req →
         coupons (snd (updateCouponHandler now req s)) !! other = coupons s !! other).
Proof.
  intros Hr Hdata u.
  destruct (updateCouponHandler_success now req s r Hr Hdata) as (c & Hschema & Hc & H).
  rewrite H in Hr |- *. simpl in Hr. injection Hr as <-.
  exists c, (updated now u c). split; [done |]. split; [done |]. split; [done |].
  destruct (updated_fields now u c (updateCouponSchema_code req Hschema))
    as (? & ? & ? & ? & ? & ? & ? & ? & ? & ? & ? & ? & ?).
  repeat (split; [done |]).
  intros other Hother. simpl. by apply lookup_insert_ne.
Qed.

Lemma update_merges_present_keys_witness :
  ∃ c',
    coupons (snd (updateCouponHandler date_2026_06_01
                    (Update.mk "site999" "coupon002"
                       (Updates.mk None None None (Some None) None None None None))
                    seed_store)) !! "coupon002" = Some c'
    ∧ minPurchase c' = None
    ∧ maxUses c' = Some 10%Q.
Proof.
  destruct (update_merges_present_keys date_2026_06_01
              (Update.mk "site999" "coupon002"
                 (Updates.mk None None None (Some None) None None None None))
              seed_store
              (success (mkCouponDocument "coupon002"
                 {| siteId := "site999"; userId := Some "user123"; code := "BIENVENIDO";
                    discountType := fixed; discountValue := 5000;
                    minPurchase := None; maxUses := Some 10%Q; usedCount := 0;
                    validFrom := date_2025_01_01; validUntil := date_2026_12_31;
                    isActive := true;
                    createdAt := Some date_2025_01_01;
                    updatedAt := Some date_2026_06_01 |})))
    as (c & c' & Hc & _ & Hs & _ & _ & _ & Hmin & Hmax & _).
  - vm_compute. reflexivity.
  - by eexists.
  - exists c'. rewrite Hs. simpl. rewrite lookup_insert_eq.
    split; [reflexivity |]. split; [exact Hmin |].
    rewrite Hmax. simpl.
    assert (E : c = sample_coupon "site999" "BIENVENIDO" fixed 5000
                      (Some 20000%Q) (Some 10%Q) 0).
    { vm_compute in Hc. by injection Hc as <-. }
    by rewrite E.
Defined.

(** ** createCoupon *)

Lemma createCouponHandler_guards {upcase : UpperCasing} canCreateCoupon now req s :
  (∃ msg c,
     createCouponHandler canCreateCoupon now req s = (Returned (failure msg c), s)
     ∧ c ≠ DUPLICATE_CODE)
  ∨ (∃ uid lc,
       createCouponSchema req = true
       ∧ truthy_string (sites s !! Create.siteId req ≫= Site.userId) = Some uid
       ∧ canCreateCoupon uid (Create.siteId req) s = Returned lc
       ∧ allowed lc = true).
Proof.
  destruct (createCouponHandler canCreateCoupon now req s) as [o s'] eqn:H. revert H.
  unfold createCouponHandler, withErrorHandling, try_catch.
  destruct (createCouponSchema req) eqn:Hschema; cbn [negb];
    [| stopped].
  unfold mbind at 1, IO_bind at 1. rewrite getSiteUserId_eq.
  destruct (truthy_string _) as [uid |] eqn:Hsite;
    [| stopped].
  unfold mbind at 1, IO_bind at 1, limits_canCreateCoupon at 1.
  destruct (canCreateCoupon uid (Create.siteId req) s) as [lc |] eqn:Hlc;
    [| stopped].
  destruct (allowed lc) eqn:Hallowed; cbn [negb];
    [| stopped].
  intros _. right. by exists uid, lc.
Qed.

Lemma createCouponHandler_loaded {upcase : UpperCasing} canCreateCoupon now req s uid lc :
  createCouponSchema req = true →
  truthy_string (sites s !! Create.siteId req ≫= Site.userId) = Some uid →
  canCreateCoupon uid (Create.siteId req) s = Returned lc →
  allowed lc = true →
  createCouponHandler canCreateCoupon now req s =
    if negb (is_empty (docs_of_site_code s (Create.siteId req)
                         (toUpperCase (Create.code req)))) then
      (Returned (failure (CodigoDuplicado (toUpperCase (Create.code req)))
                   DUPLICATE_CODE), s)
    else
      let docRef := fresh (dom (coupons s)) in
      (Returned (success (mkCouponDocument docRef (created now req uid))),
       set_coupons s (<[docRef := created now req uid]> (coupons s))).
Proof.
  intros Hschema Hsite Hlc Hallowed.
  unfold createCouponHandler, withErrorHandling, try_catch.
  rewrite Hschema. cbn [negb].
  unfold mbind at 1, IO_bind at 1. rewrite getSiteUserId_eq, Hsite.
  unfold mbind at 1, IO_bind at 1, limits_canCreateCoupon at 1.
  rewrite Hlc, Hallowed. cbn [negb].
  unfold mbind at 1, IO_bind at 1, coupons_where_siteId_code at 1.
  by destruct (is_empty _).
Qed.

(** C8. [createCoupon] answers [DUPLICATE_CODE] only if a coupon of the
    same site carries the code of the request in upper case, and, for a
    request that gets to the check (a valid request, on an existing site,
    whose plan has room), exactly when one does: a code whose upper-case
    form a coupon of the site carries collides, in whatever letter case it
    is written, and a code carried on other sites only is accepted.
    [updateCoupon] answers [DUPLICATE_CODE] only when the new code, in
    upper case, is not the coupon's own and another coupon of the site
    carries it.  All of it holds for every upper-casing function. *)
Theorem code_unique_per_site {upcase : UpperCasing} :
  (∀ canCreateCoupon now req s r,
     fst (createCouponHandler canCreateCoupon now req s) = Returned r →
     errorCode r = Some DUPLICATE_CODE →
     ∃ cid d, coupons s !! cid = Some d
              ∧ siteId d = Create.siteId req
              ∧ code d = toUpperCase (Create.code req))
  ∧ (∀ canCreateCoupon now req s uid lc,
       createCouponSchema req = true →
       truthy_string (sites s !! Create.siteId req ≫= Site.userId) = Some uid →
       canCreateCoupon uid (Create.siteId req) s = Returned lc →
       allowed lc = true →
       (createCouponHandler canCreateCoupon now req s
        = (Returned (failure (CodigoDuplicado (toUpperCase (Create.code req)))
                       DUPLICATE_CODE), s)
        ↔ ∃ cid d, coupons s !! cid = Some d
                   ∧ siteId d = Create.siteId req
                   ∧ code d = toUpperCase (Create.code req)))
  ∧ (∀ now req s r,
       fst (updateCouponHandler now req s) = Returned r →
       errorCode r = Some DUPLICATE_CODE →
       ∃ newcode c other d,
         Updates.code (Update.updates req) = Some newcode
         ∧ coupons s !! Update.couponId req = Some c
         ∧ toUpperCase newcode ≠ code c
         ∧ other ≠ Update.couponId req
         ∧ coupons s !! other = Some d
         ∧ siteId d = Update.siteId req
         ∧ code d = toUpperCase newcode)
  ∧ (∀ canCreateCoupon now req s uid lc cid d c,
       createCouponSchema req = true →
       truthy_string (sites s !! Create.siteId req ≫= Site.userId) = Some uid →
       canCreateCoupon uid (Create.siteId req) s = Returned lc →
       allowed lc = true →
       coupons s !! cid = Some d →
       siteId d = Create.siteId req →
       code d = toUpperCase c →
       toUpperCase (Create.code req) = toUpperCase c →
       createCouponHandler canCreateCoupon now req s
       = (Returned (failure (CodigoDuplicado (toUpperCase (Create.code req)))
                      DUPLICATE_CODE), s))
  ∧ (∀ canCreateCoupon now req s uid lc,
       createCouponSchema req = true →
       truthy_string (sites s !! Create.siteId req ≫= Site.userId) = Some uid →
       canCreateCoupon uid (Create.siteId req) s = Returned lc →
       allowed lc = true →
       (∀ cid d, coupons s !! cid = Some d →
                 code d = toUpperCase (Create.code req) →
                 siteId d ≠ Create.siteId req) →
       ∃ doc s',
         createCouponHandler canCreateCoupon now req s = (Returned (success doc), s')
         ∧ siteId (fields doc) = Create.siteId req
         ∧ code (fields doc) = toUpperCase (Create.code req)).
Proof.
  assert (Hiff : ∀ canCreateCoupon now req s uid lc,
            createCouponSchema req = true →
            truthy_string (sites s !! Create.siteId req ≫= Site.userId) = Some uid →
            canCreateCoupon uid (Create.siteId req) s = Returned lc →
            allowed lc = true →
            (createCouponHandler canCreateCoupon now req s
             = (Returned (failure (CodigoDuplicado (toUpperCase (Create.code req)))
                            DUPLICATE_CODE), s)
             ↔ ∃ cid d, coupons s !! cid = Some d
                        ∧ siteId d = Create.siteId req
                        ∧ code d = toUpperCase (Create.code req))).
  { intros canCreateCoupon now req s uid lc Hschema Hsite Hlc Hallowed.
    rewrite (createCouponHandler_loaded _ now req s uid lc) by done.
    rewrite <- docs_of_site_code_nonempty.
    destruct (is_empty _); cbn [negb]; split; (done || by intros [= H]). }
  split; [| split; [| split; [| split]]].
  - intros canCreateCoupon now req s r Hr Hcode.
    destruct (createCouponHandler_guards canCreateCoupon now req s)
      as [(msg & e & H & Hne) | (uid & lc & Hschema & Hsite & Hlc & Hallowed)].
    { rewrite H in Hr. simpl in Hr. injection Hr as <-. simpl in Hcode. congruence. }
    rewrite (createCouponHandler_loaded _ now req s uid lc) in Hr by done.
    destruct (is_empty _) eqn:Hq; simpl in Hr.
    + injection Hr as <-. done.
    + by apply docs_of_site_code_nonempty.
  - exact Hiff.
  - intros now req s r Hr Hcode.
    destruct (updateCouponHandler_guards now req s)
      as [(msg & e & H & Hne & _) | (c & Hschema & Hsite & Hc & Hcomplete & Howned)].
    { rewrite H in Hr. simpl in Hr. injection Hr as <-. simpl in Hcode. congruence. }
    rewrite (updateCouponHandler_loaded now req s c) in Hr by done.
    unfold code_taken in Hr.
    destruct (truthy_string _) as [newcode |] eqn:Hnew.
    + destruct (String.eqb_spec (toUpperCase newcode) (code c)) as [Hsame | Hdiff];
        cbn [negb andb] in Hr.
      { destruct (validateUpdateFields _ _) as [e |] eqn:He; simpl in Hr;
          injection Hr as <-; [| done].
        apply validateUpdateFields_failure in He as [msg ->]. done. }
      destruct (is_empty _) eqn:Hq; cbn [negb] in Hr.
      { destruct (validateUpdateFields _ _) as [e |] eqn:He; simpl in Hr;
          injection Hr as <-; [| done].
        apply validateUpdateFields_failure in He as [msg ->]. done. }
      apply docs_of_site_code_nonempty in Hq as (other & d & Hd & Hs & Hcd).
      exists newcode, c, other, d. repeat split; try done.
      * unfold truthy_string in Hnew. by destruct (truthy _).
      * intros ->. congruence.
    + destruct (validateUpdateFields _ _) as [e |] eqn:He; simpl in Hr;
        injection Hr as <-; [| done].
      apply validateUpdateFields_failure in He as [msg ->]. done.
  - intros canCreateCoupon now req s uid lc cid d c Hschema Hsite Hlc Hallowed Hd Hs Hc Hsame.
    apply (Hiff canCreateCoupon now req s uid lc Hschema Hsite Hlc Hallowed).
    exists cid, d. split; [done |]. split; [done |]. congruence.
  - intros canCreateCoupon now req s uid lc Hschema Hsite Hlc Hallowed Hfree.
    rewrite (createCouponHandler_loaded _ now req s uid lc) by done.
    destruct (is_empty _) eqn:Hq; cbn [negb].
    + by do 2 eexists.
    + apply docs_of_site_code_nonempty in Hq as (cid & d & Hd & Hs & Hc).
      by destruct (Hfree cid d Hd Hc).
Qed.

(** On the seed, with its ASCII codes: [Bienvenido] collides with the
    [BIENVENIDO] of site999, and [BIENVENIDO3], which only site456 carries,
    is accepted on site999. *)
Lemma code_unique_per_site_witness :
  createCouponHandler unlimited_plan date_2026_06_01
    (Create.mk "site999" "Bienvenido" percentage 20 None (Some 5%Q)
       date_2025_01_01 date_2026_12_31) seed_store
  = (Returned (failure (CodigoDuplicado "BIENVENIDO") DUPLICATE_CODE), seed_store)
  ∧ ∃ doc s',
      createCouponHandler unlimited_plan date_2026_06_01
        (Create.mk "site999" "BIENVENIDO3" fixed 1000 None None
           date_2025_01_01 date_2026_12_31) seed_store
      = (Returned (success doc), s')
      ∧ siteId (fields doc) = "site999"
      ∧ code (fields doc) = "BIENVENIDO3".
Proof.
  destruct code_unique_per_site as (_ & _ & _ & Hsame & Hother).
  split.
  - apply (Hsame unlimited_plan date_2026_06_01
             (Create.mk "site999" "Bienvenido" percentage 20 None (Some 5%Q)
                date_2025_01_01 date_2026_12_31)
             seed_store "user789" (mkLimitCheck true 0 0) "coupon002"
             (sample_coupon "site999" "BIENVENIDO" fixed 5000 (Some 20000%Q) (Some 10%Q) 0)
             "bienvenido"); reflexivity.
  - apply (Hother unlimited_plan date_2026_06_01
             (Create.mk "site999" "BIENVENIDO3" fixed 1000 None None
                date_2025_01_01 date_2026_12_31)
             seed_store "user789" (mkLimitCheck true 0 0)); try reflexivity.
    change (map_Forall (λ _ d, code d = "BIENVENIDO3" → siteId d ≠ "site999")
              (coupons seed_store)). simpl.
    repeat apply map_Forall_insert_2; try apply map_Forall_empty.
    all: intros Hc Hs; vm_compute in Hc, Hs; congruence.
Defined.

(** A taken code on a site whose plan is full: the plan answers first, so
    the request is answered [COUPON_LIMIT_REACHED] although a coupon of the
    site carries the code. *)
Lemma taken_code_behind_plan_limit :
  (∃ cid d, coupons seed_store !! cid = Some d
            ∧ siteId d = "site456"
            ∧ code d = toUpperCase "bienvenido")
  ∧ createCouponHandler full_plan date_2026_06_01
      (Create.mk "site456" "bienvenido" percentage 20 None (Some 5%Q)
         date_2025_01_01 date_2026_12_31) seed_store
    = (Returned (failure (LimiteDeCupones 3 3) COUPON_LIMIT_REACHED), seed_store).
Proof.
  split.
  - exists "coupon001",
      (sample_coupon "site456" "BIENVENIDO" percentage 10 None (Some 100%Q) 0).
    split; [reflexivity |]. split; reflexivity.
  - vm_compute. reflexivity.
Qed.

(** ** getCoupons and deleteCoupon *)

Lemma mapM_toCouponDocument_store (docs : list DocumentSnapshot) s :
  ∃ o, mapM toCouponDocument docs s = (o, s).
Proof.
  induction docs as [| doc docs [o IH]]; [by eexists |].
  change (mapM toCouponDocument (doc :: docs))
    with (y ← toCouponDocument doc; k ← mapM toCouponDocument docs; mret (y :: k)).
  unfold mbind at 1, IO_bind at 1.
  destruct doc as [cid [d |]]; [| by eexists].
  destruct (toCouponDocument_cases cid d s) as [[_ ->] | [_ ->]]; [| by eexists].
  unfold mbind at 1, IO_bind at 1. rewrite IH. destruct o; by eexists.
Qed.

Lemma getCouponsHandler_store req s :
  ∃ r, getCouponsHandler req s = (Returned r, s).
Proof.
  unfold getCouponsHandler, withErrorHandling, try_catch.
  destruct (getCouponsSchema req); cbn [negb]; [| by eexists].
  unfold mbind at 1, IO_bind at 1. rewrite getSiteUserId_eq.
  destruct (truthy_string _); [| by eexists].
  unfold mbind at 1, IO_bind at 1, coupons_where_siteId at 1.
  unfold mbind at 1, IO_bind at 1.
  destruct (mapM_toCouponDocument_store (docs_of_site s (Get.siteId req)) s) as [o ->].
  destruct o; by eexists.
Qed.

Lemma deleteCouponHandler_cases req s :
  (∃ msg c, deleteCouponHandler req s = (Returned (failure msg c), s))
  ∨ (∃ c,
       coupons s !! Delete.couponId req = Some c
       ∧ siteId c = Delete.siteId req
       ∧ deleteCouponHandler req s
         = (Returned (success (Delete.couponId req)),
            set_coupons s (delete (Delete.couponId req) (coupons s)))).
Proof.
  destruct (deleteCouponHandler req s) as [o s'] eqn:H. revert H.
  unfold deleteCouponHandler, withErrorHandling, try_catch.
  destruct (deleteCouponSchema req); cbn [negb];
    [| stopped].
  unfold mbind at 1, IO_bind at 1. rewrite getSiteUserId_eq.
  destruct (truthy_string _); [| stopped].
  unfold mbind at 1, IO_bind at 1, coupons_doc_get at 1. cbn [doc_data].
  destruct (coupons s !! Delete.couponId req) as [c |] eqn:Hc;
    [| stopped].
  destruct (String.eqb_spec (siteId c) (Delete.siteId req)) as [Howned | _]; cbn [negb];
    [| stopped].
  intros [= <- <-]. right. by exists c.
Qed.

(** ** The store a request leaves *)

Lemma serve_cases {upcase : UpperCasing} canCreateCoupon now r s :
  serve canCreateCoupon now r s = s
  ∨ (∃ req uid,
       r = CreateCoupon req ∧ createCouponSchema req = true
       ∧ serve canCreateCoupon now r s
         = set_coupons s (<[fresh (dom (coupons s)) := created now req uid]> (coupons s)))
  ∨ (∃ req c,
       r = UpdateCoupon req ∧ updateCouponSchema req = true
       ∧ coupons s !! Update.couponId req = Some c
       ∧ serve canCreateCoupon now r s
         = set_coupons s
             (<[Update.couponId req := updated now (Update.updates req) c]> (coupons s)))
  ∨ (∃ req,
       r = DeleteCoupon req
       ∧ serve canCreateCoupon now r s
         = set_coupons s (delete (Delete.couponId req) (coupons s)))
  ∨ (∃ req c,
       r = ApplyCoupon req
       ∧ coupons s !! Apply.couponId req = Some c
       ∧ validateCouponEligibility (T := ApplyCouponResult) now
           (mkCouponDocument (Apply.couponId req) c) (Apply.cartTotal req) = None
       ∧ serve canCreateCoupon now r s
         = set_coupons s (<[Apply.couponId req := redeemed now c]> (coupons s))).
Proof.
  destruct r as [req | req | req | req | req | req]; simpl.
  - destruct (createCouponHandler_guards canCreateCoupon now req s)
      as [(msg & e & -> & _) | (uid & lc & Hschema & Hsite & Hlc & Hallowed)];
      [by left |].
    rewrite (createCouponHandler_loaded _ now req s uid lc) by done.
    destruct (is_empty _); simpl; [| by left].
    right; left. by exists req, uid.
  - destruct (getCouponsHandler_store req s) as [r ->]. by left.
  - destruct (updateCouponHandler_guards now req s)
      as [(msg & e & -> & _) | (c & Hschema & Hsite & Hc & Hcomplete & Howned)];
      [by left |].
    rewrite (updateCouponHandler_loaded now req s c) by done.
    destruct (truthy_string _); [destruct (code_taken _ _ _ _); [by left |] |];
      (destruct (validateUpdateFields _ _); [by left |]);
      do 2 right; left; by exists req, c.
  - destruct (deleteCouponHandler_cases req s) as [(msg & e & ->) | (c & _ & _ & ->)];
      [by left |].
    do 3 right; left. by exists req.
  - destruct (validateCouponHandler_store now req s) as [r ->]. by left.
  - destruct (applyCouponHandler_cases now req s)
      as [(msg & e & ->) | (c & Hc & _ & _ & He & ->)]; [by left |].
    do 4 right. by exists req, c.
Qed.

(** ** The use counter *)

Lemma isInteger_intro (x : number) (n : Z) : (x == inject_Z n)%Q → isInteger x = true.
Proof.
  intros Hx. unfold isInteger. apply Qeq_bool_iff.
  rewrite (Qfloor_comp _ _ Hx), Qfloor_Z. by symmetry.
Qed.

Lemma isInteger_succ (x : number) : isInteger x = true → isInteger (x + 1) = true.
Proof.
  intros Hx. apply isInteger_spec in Hx.
  apply (isInteger_intro _ (Qfloor x + 1)).
  rewrite inject_Z_plus. change (inject_Z 1) with 1%Q. by rewrite <- Hx.
Qed.

Lemma integers_lt_succ_le (x y : number) :
  isInteger x = true → isInteger y = true → (x < y)%Q → (x + 1 <= y)%Q.
Proof.
  intros Hx Hy Hlt. apply isInteger_spec in Hx, Hy.
  rewrite Hx, Hy in Hlt |- *. rewrite <- Zlt_Qlt in Hlt.
  change 1%Q with (inject_Z 1). rewrite <- inject_Z_plus, <- Zle_Qle. lia.
Qed.

Lemma eligible_below_cap {T} now coupon cartTotal m :
  validateCouponEligibility (T := T) now coupon cartTotal = None →
  maxUses (fields coupon) = Some m →
  (usedCount (fields coupon) < m)%Q.
Proof.
  unfold validateCouponEligibility. intros H Hm. rewrite Hm in H.
  destruct (negb _); [done |]. destruct (_ <? _)%Z; [done |].
  destruct (_ >? _)%Z; [done |].
  destruct (Qgeb _ _) eqn:Hcap; [done |]. by apply Qgeb_lt.
Qed.

Lemma at_cap_refused {T} now coupon cartTotal m :
  isActive (fields coupon) = true →
  (validFrom (fields coupon) ≤ now ≤ validUntil (fields coupon))%Z →
  maxUses (fields coupon) = Some m →
  (m <= usedCount (fields coupon))%Q →
  validateCouponEligibility (T := T) now coupon cartTotal
  = Some (failure CuponSinUsos COUPON_MAX_USES).
Proof.
  intros Hactive [Hfrom Huntil] Hm Hcap. unfold validateCouponEligibility.
  rewrite Hactive, Hm. cbn [negb].
  destruct (Z.ltb_spec now (validFrom (fields coupon))); [lia |].
  destruct (Z.gtb_spec now (validUntil (fields coupon))); [lia |].
  apply Qgeb_ge in Hcap. by rewrite Hcap.
Qed.

Lemma within_cap_created {upcase : UpperCasing} now req uid :
  createCouponSchema req = true → within_cap (created now req uid).
Proof.
  unfold createCouponSchema, createCouponBase, within_cap. simpl.
  rewrite !andb_true_iff. intros [[[_ Hmax] _] _]. split; [done |].
  intros m Hm. rewrite Hm in Hmax. simpl in Hmax.
  apply andb_true_iff in Hmax as [Hint Hpos]. split; [done |].
  apply Qltb_lt in Hpos. by apply Qlt_le_weak.
Qed.

Lemma normalized_updates_maxUses {upcase : UpperCasing} u :
  Updates.maxUses (normalized_updates u) = Updates.maxUses u.
Proof. unfold normalized_updates. by destruct (truthy_string _). Qed.

Lemma within_cap_updated {upcase : UpperCasing} now req c :
  updateCouponSchema req = true →
  within_cap c →
  (∀ m, Updates.maxUses (Update.updates req) = Some (Some m) → (usedCount c <= m)%Q) →
  within_cap (updated now (Update.updates req) c).
Proof.
  unfold updateCouponSchema, updateCouponBase.
  rewrite !andb_true_iff. intros [[[_ Hmax] _] _] [Hint Hcap] Hkeeps.
  unfold within_cap, updated. simpl. rewrite normalized_updates_maxUses.
  split; [done |]. intros m.
  destruct (Updates.maxUses (Update.updates req)) as [[m' |] |]; simpl.
  - intros [= ->]. simpl in Hmax. apply andb_true_iff in Hmax as [Hm _]. auto.
  - done.
  - apply Hcap.
Qed.

Lemma within_cap_redeemed {T} now cid c cartTotal :
  within_cap c →
  validateCouponEligibility (T := T) now (mkCouponDocument cid c) cartTotal = None →
  within_cap (redeemed now c).
Proof.
  intros [Hint Hcap] He. unfold within_cap, redeemed. simpl.
  split; [by apply isInteger_succ |].
  intros m Hm. destruct (Hcap m Hm) as [Hm_int _]. split; [done |].
  apply integers_lt_succ_le; [done | done |].
  by apply (eligible_below_cap now _ cartTotal m He).
Qed.

Lemma serve_within_cap {upcase : UpperCasing} canCreateCoupon now r s :
  store_within_cap s → keeps_cap s r →
  store_within_cap (serve canCreateCoupon now r s).
Proof.
  intros Hs Hkeeps.
  destruct (serve_cases canCreateCoupon now r s)
    as [-> | [(req & uid & -> & Hschema & ->) | [(req & c & -> & Hschema & Hc & ->)
       | [(req & -> & ->) | (req & c & -> & Hc & He & ->)]]]]; [done | | | |].
  - intros cid d. simpl. destruct (decide (fresh (dom (coupons s)) = cid)) as [-> | Hne].
    + rewrite lookup_insert_eq. intros [= <-]. by apply within_cap_created.
    + rewrite lookup_insert_ne by done. apply Hs.
  - intros cid d. simpl. destruct (decide (Update.couponId req = cid)) as [<- | Hne].
    + rewrite lookup_insert_eq. intros [= <-].
      apply within_cap_updated; [done | by eapply Hs |].
      intros m Hm. by apply (Hkeeps c m).
    + rewrite lookup_insert_ne by done. apply Hs.
  - intros cid d. simpl. intros Hd. apply lookup_delete_Some in Hd as [_ Hd].
    by eapply Hs.
  - intros cid d. simpl. destruct (decide (Apply.couponId req = cid)) as [<- | Hne].
    + rewrite lookup_insert_eq. intros [= <-].
      eapply within_cap_redeemed; [by eapply Hs | done].
    + rewrite lookup_insert_ne by done. apply Hs.
Qed.

Lemma serve_usedCount {upcase : UpperCasing} canCreateCoupon now r s cid d d' :
  (∀ req, r ≠ ApplyCoupon req) →
  coupons s !! cid = Some d →
  coupons (serve canCreateCoupon now r s) !! cid = Some d' →
  usedCount d' = usedCount d.
Proof.
  intros Hr Hd.
  destruct (serve_cases canCreateCoupon now r s)
    as [-> | [(req & uid & -> & Hschema & ->) | [(req & c & -> & Hschema & Hc & ->)
       | [(req & -> & ->) | (req & c & -> & Hc & He & ->)]]]]; simpl.
  - congruence.
  - rewrite lookup_insert_ne; [congruence |].
    intros Heq. apply (is_fresh (dom (coupons s))). rewrite Heq.
    apply elem_of_dom. by eexists.
  - destruct (decide (Update.couponId req = cid)) as [<- | Hne].
    + rewrite lookup_insert_eq. intros [= <-]. simpl. congruence.
    + rewrite lookup_insert_ne by done. congruence.
  - intros Hd'. apply lookup_delete_Some in Hd' as [_ Hd']. congruence.
  - by destruct (Hr req).
Qed.

Lemma seed_store_within_cap : store_within_cap seed_store.
Proof.
  change (map_Forall (λ _ d, within_cap d) (coupons seed_store)). simpl.
  repeat apply map_Forall_insert_2; try apply map_Forall_empty.
  all: split; [reflexivity |]; intros m [= <-]; split; [reflexivity |];
    vm_compute; congruence.
Qed.

(** C1, as stated, fails: an update may set [maxUses] under the uses a
    coupon already has.  From the seed, two redemptions of [coupon001] and
    an update of its [maxUses] to 1 leave [usedCount = 2] over
    [maxUses = 1]. *)
Lemma update_lowers_cap_under_uses :
  let reqs :=
    [ (date_2026_06_01, ApplyCoupon (Apply.mk "site456" "coupon001" "order-001" 50000));
      (date_2026_06_01, ApplyCoupon (Apply.mk "site456" "coupon001" "order-002" 50000));
      (date_2026_06_01,
       UpdateCoupon (Update.mk "site456" "coupon001"
                       (Updates.mk None None None None (Some (Some 1%Q)) None None None))) ] in
  store_within_cap seed_store
  ∧ ∃ d, coupons (serve_all unlimited_plan reqs seed_store) !! "coupon001" = Some d
         ∧ maxUses d = Some 1%Q
         ∧ usedCount d = 2%Q
         ∧ ¬ (usedCount d <= 1)%Q
         ∧ ¬ store_within_cap (serve_all unlimited_plan reqs seed_store).
Proof.
  split; [apply seed_store_within_cap |].
  eexists. split; [vm_compute; reflexivity |].
  split; [reflexivity |]. split; [reflexivity |].
  split; [vm_compute; congruence |].
  intros H.
  assert (Hd : coupons
                 (serve_all unlimited_plan
                    [ (date_2026_06_01,
                       ApplyCoupon (Apply.mk "site456" "coupon001" "order-001" 50000));
                      (date_2026_06_01,
                       ApplyCoupon (Apply.mk "site456" "coupon001" "order-002" 50000));
                      (date_2026_06_01,
                       UpdateCoupon (Update.mk "site456" "coupon001"
                          (Updates.mk None None None None (Some (Some 1%Q)) None None None))) ]
                    seed_store) !! "coupon001"
               = Some {| siteId := "site456"; userId := Some "user123"; code := "BIENVENIDO";
                         discountType := percentage; discountValue := 10;
                         minPurchase := None; maxUses := Some 1%Q; usedCount := 2;
                         validFrom := date_2025_01_01; validUntil := date_2026_12_31;
                         isActive := true;
                         createdAt := Some date_2025_01_01;
                         updatedAt := Some date_2026_06_01 |})
    by (vm_compute; reflexivity).
  apply H in Hd as [_ Hcap]. destruct (Hcap 1%Q) as [_ Hle]; [reflexivity |].
  vm_compute in Hle. congruence.
Qed.

Lemma serve_all_within_cap {upcase : UpperCasing} canCreateCoupon reqs s :
  store_within_cap s → all_keep_cap canCreateCoupon reqs s →
  store_within_cap (serve_all canCreateCoupon reqs s).
Proof.
  revert s. induction reqs as [| [now r] reqs IH]; intros s Hs Hkeep; [done |].
  destruct Hkeep as [Hr Hrest]. simpl. apply IH; [| done].
  by apply serve_within_cap.
Qed.

(** C1, amended. With whole counts: a redemption that reaches the check of
    the uses on a coupon with [usedCount ≥ maxUses] is answered
    [COUPON_MAX_USES] and writes nothing; a redemption that succeeds found
    [usedCount < maxUses] and stores [usedCount + 1]; no request other than
    a redemption changes the [usedCount] of a stored coupon; hence
    [usedCount ≤ maxUses] is kept by every sequence of requests whose
    updates do not set [maxUses] under the [usedCount] of their coupon.  On
    a coupon for one use, the first redemption succeeds and the second is
    refused. *)
Theorem usedCount_within_maxUses {upcase : UpperCasing} :
  (∀ now req s c m,
     applyCouponSchema req = true →
     site_found s (Apply.siteId req) →
     coupons s !! Apply.couponId req = Some c →
     complete c →
     siteId c = Apply.siteId req →
     isActive c = true →
     (validFrom c ≤ now ≤ validUntil c)%Z →
     maxUses c = Some m →
     (m <= usedCount c)%Q →
     applyCouponHandler now req s = (Returned (failure CuponSinUsos COUPON_MAX_USES), s))
  ∧ (∀ now req s r,
       fst (applyCouponHandler now req s) = Returned r →
       is_Some (data r) →
       ∃ c, coupons s !! Apply.couponId req = Some c
            ∧ (∀ m, maxUses c = Some m → (usedCount c < m)%Q)
            ∧ snd (applyCouponHandler now req s)
              = set_coupons s (<[Apply.couponId req := redeemed now c]> (coupons s))
            ∧ usedCount (redeemed now c) = (usedCount c + 1)%Q
            ∧ maxUses (redeemed now c) = maxUses c
            ∧ a_usedCount <$> data r = Some (usedCount c + 1)%Q)
  ∧ (∀ canCreateCoupon now r s cid d d',
       (∀ req, r ≠ ApplyCoupon req) →
       coupons s !! cid = Some d →
       coupons (serve canCreateCoupon now r s) !! cid = Some d' →
       usedCount d' = usedCount d)
  ∧ (∀ canCreateCoupon reqs s,
       store_within_cap s →
       all_keep_cap canCreateCoupon reqs s →
       store_within_cap (serve_all canCreateCoupon reqs s))
  ∧ (∃ r1 s1,
       applyCouponHandler date_2026_06_01
         (Apply.mk "site456" "coupon004" "order-001" 50000) single_use_store
       = (Returned (success r1), s1)
       ∧ a_usedCount r1 = 1%Q
       ∧ applyCouponHandler date_2026_06_01
           (Apply.mk "site456" "coupon004" "order-002" 50000) s1
         = (Returned (failure CuponSinUsos COUPON_MAX_USES), s1)).
Proof.
  split; [| split; [| split; [| split]]].
  - intros now req s c m Hschema Hsite Hc Hcomplete Howned Hactive Hwindow Hm Hcap.
    rewrite (applyCouponHandler_loaded now req s c) by done.
    rewrite Howned, String.eqb_refl. cbn [negb].
    by rewrite (at_cap_refused now _ _ m).
  - intros now req s r Hr Hdata.
    destruct (applyCouponHandler_cases now req s)
      as [(msg & e & H) | (c & Hc & _ & _ & He & H)]; rewrite H in Hr |- *;
      simpl in Hr; injection Hr as <-.
    { by destruct Hdata. }
    exists c. split; [done |]. split; [| done].
    intros m Hm. by apply (eligible_below_cap now _ _ m He).
  - apply serve_usedCount.
  - apply serve_all_within_cap.
  - do 2 eexists. split; [vm_compute; reflexivity |].
    split; [reflexivity |]. vm_compute. reflexivity.
Qed.

Lemma usedCount_within_maxUses_witness :
  store_within_cap
    (serve_all unlimited_plan
       [ (date_2026_06_01, ApplyCoupon (Apply.mk "site456" "coupon001" "order-001" 50000));
         (date_2026_06_01,
          UpdateCoupon (Update.mk "site456" "coupon001"
                          (Updates.mk None None None None (Some (Some 1%Q)) None None None)));
         (date_2026_06_01, ApplyCoupon (Apply.mk "site456" "coupon001" "order-002" 50000)) ]
       seed_store).
Proof.
  destruct usedCount_within_maxUses as (_ & _ & _ & H & _).
  apply H.
  - apply seed_store_within_cap.
  - split; [exact I |]. split; [| split; [exact I | exact I]].
    intros d m Hd [= <-]. vm_compute in Hd. injection Hd as <-.
    vm_compute. congruence.
Defined.

(** ** The two versions of the handlers *)

Lemma bind_ext {A B} (m : IO A) (f g : A → IO B) s :
  (∀ a s', m s = (Returned a, s') → f a s' = g a s') →
  (m ≫= f) s = (m ≫= g) s.
Proof.
  intros H. unfold mbind, IO_bind. destruct (m s) as [[a |] s']; [| done]. by apply H.
Qed.

Lemma bind_ext2 {A B} (m1 m2 : IO A) (f g : A → IO B) s :
  m1 s = m2 s →
  (∀ a s', m2 s = (Returned a, s') → f a s' = g a s') →
  (m1 ≫= f) s = (m2 ≫= g) s.
Proof.
  intros Hm H. unfold mbind, IO_bind. rewrite Hm.
  destruct (m2 s) as [[a |] s']; [| done]. by apply H.
Qed.

Lemma try_catch_ext {A} (b1 b2 h : IO A) s :
  b1 s = b2 s → try_catch b1 h s = try_catch b2 h s.
Proof. intros H. unfold try_catch. by rewrite H. Qed.

Lemma getSiteUserId_returned sid s a s' :
  getSiteUserId sid s = (Returned a, s') → s' = s.
Proof. rewrite getSiteUserId_eq. by intros [= _ <-]. Qed.

Lemma toCouponDocument_agree doc s :
  (∀ d, doc_data doc = Some d → complete d) →
  V1.toCouponDocument doc s = toCouponDocument doc s.
Proof.
  intros Hdoc. destruct doc as [cid [d |]]; [| done].
  rewrite toCouponDocument_complete; [done |]. by apply Hdoc.
Qed.

Lemma toCouponDocument_returned doc s a s' :
  toCouponDocument doc s = (Returned a, s') → s' = s.
Proof.
  destruct doc as [cid [d |]]; [| done].
  destruct (toCouponDocument_cases cid d s) as [[_ ->] | [_ ->]]; congruence.
Qed.

Lemma inline_checks_eligibility {T} now coupon cartTotal (k : IO (FunctionResponse T)) :
  V1.inline_checks now coupon cartTotal k
  = match validateCouponEligibility now coupon cartTotal with
    | Some eligibilityError => mret eligibilityError
    | None => k
    end.
Proof.
  unfold V1.inline_checks, validateCouponEligibility.
  repeat case_match; done.
Qed.

Lemma docs_of_site_complete s sid doc d :
  store_complete s → doc ∈ docs_of_site s sid → doc_data doc = Some d → complete d.
Proof.
  intros Hs Hin Hd. unfold docs_of_site, snapshots in Hin.
  apply list_elem_of_In, in_map_iff in Hin as ([cid d'] & <- & Hin).
  simpl in Hd. injection Hd as ->.
  apply filter_In in Hin as [Hin _].
  apply list_elem_of_In, elem_of_map_to_list in Hin. by eapply Hs.
Qed.

Lemma docs_of_site_code_complete s sid c doc docs d :
  store_complete s → docs_of_site_code s sid c = doc :: docs →
  doc_data doc = Some d → complete d.
Proof.
  intros Hs Hq Hd. unfold docs_of_site_code, snapshots in Hq.
  destruct (List.filter _ _) as [| [cid d'] l] eqn:E; [done |].
  simpl in Hq. injection Hq as <- _. simpl in Hd. injection Hd as ->.
  assert (Hin : In (cid, d) (List.filter
            (λ kd, String.eqb (siteId (snd kd)) sid && String.eqb (code (snd kd)) c)
            (map_to_list (coupons s)))) by (rewrite E; by left).
  apply filter_In in Hin as [Hin _].
  apply list_elem_of_In, elem_of_map_to_list in Hin. by eapply Hs.
Qed.

Lemma mapM_toCouponDocument_agree (docs : list DocumentSnapshot) s :
  (∀ doc d, doc ∈ docs → doc_data doc = Some d → complete d) →
  mapM V1.toCouponDocument docs s = mapM toCouponDocument docs s.
Proof.
  induction docs as [| doc docs IH]; intros Hdocs; [done |].
  change (mapM V1.toCouponDocument (doc :: docs))
    with (y ← V1.toCouponDocument doc; k ← mapM V1.toCouponDocument docs; mret (y :: k)).
  change (mapM toCouponDocument (doc :: docs))
    with (y ← toCouponDocument doc; k ← mapM toCouponDocument docs; mret (y :: k)).
  apply bind_ext2.
  { apply toCouponDocument_agree. intros d. apply Hdocs. by left. }
  intros y s' Hy.
  apply toCouponDocument_returned in Hy as ->.
  apply bind_ext2; [| done].
  apply IH. intros doc' d Hin. apply Hdocs. by right.
Qed.

Lemma createCouponHandler_agree {upcase : UpperCasing} canCreateCoupon now req s :
  V1.createCouponHandler canCreateCoupon now req s
  = createCouponHandler canCreateCoupon now req s.
Proof. reflexivity. Qed.

Lemma deleteCouponHandler_agree req s :
  V1.deleteCouponHandler req s = deleteCouponHandler req s.
Proof. reflexivity. Qed.

Lemma getCouponsHandler_agree req s :
  store_complete s → V1.getCouponsHandler req s = getCouponsHandler req s.
Proof.
  intros Hs. unfold V1.getCouponsHandler, getCouponsHandler, withErrorHandling,
    V1.internal_error.
  apply try_catch_ext. destruct (getCouponsSchema req); cbn [negb]; [| done].
  apply bind_ext. intros userId s' ->%getSiteUserId_returned.
  destruct (truthy_string userId); [| done].
  apply bind_ext. intros docs s' [= <- <-].
  apply bind_ext2; [| done]. apply mapM_toCouponDocument_agree.
  intros doc d. by apply docs_of_site_complete.
Qed.

Lemma validateCouponHandler_agree {upcase : UpperCasing} now req s :
  store_complete s → V1.validateCouponHandler now req s = validateCouponHandler now req s.
Proof.
  intros Hs. unfold V1.validateCouponHandler, validateCouponHandler, withErrorHandling,
    V1.internal_error.
  apply try_catch_ext. destruct (validateCouponSchema req); cbn [negb]; [| done].
  apply bind_ext. intros userId s' ->%getSiteUserId_returned.
  destruct (truthy_string userId); [| done].
  apply bind_ext. intros docs s' [= <- <-].
  destruct (docs_of_site_code _ _ _) as [| doc docs] eqn:Hq; [done |].
  apply bind_ext2.
  { apply toCouponDocument_agree. intros d. by eapply docs_of_site_code_complete. }
  intros coupon s' _. by rewrite inline_checks_eligibility.
Qed.

Lemma runTransaction_ext {A} (f g : IO A) s :
  f s = g s → runTransaction f s = runTransaction g s.
Proof. intros H. unfold runTransaction. by rewrite H. Qed.

Lemma applyCouponHandler_agree now req s :
  store_complete s → V1.applyCouponHandler now req s = applyCouponHandler now req s.
Proof.
  intros Hs. unfold V1.applyCouponHandler, applyCouponHandler, withErrorHandling,
    V1.internal_error.
  apply try_catch_ext. destruct (applyCouponSchema req); cbn [negb]; [| done].
  apply bind_ext. intros userId s' ->%getSiteUserId_returned.
  destruct (truthy_string userId); [| done].
  apply runTransaction_ext.
  apply bind_ext. intros couponDoc s' [= <- <-].
  destruct (negb _); [done |].
  apply bind_ext2.
  { apply toCouponDocument_agree. simpl. intros d. by apply Hs. }
  intros coupon s' _. destruct (negb _); [done |].
  by rewrite inline_checks_eligibility.
Qed.

Lemma store_complete_insert s cid d :
  store_complete s → complete d →
  store_complete (set_coupons s (<[cid := d]> (coupons s))).
Proof.
  intros Hs Hd cid' d'. simpl. destruct (decide (cid = cid')) as [<- | Hne].
  - rewrite lookup_insert_eq. by intros [= <-].
  - rewrite lookup_insert_ne by done. apply Hs.
Qed.

Lemma write_fields_complete now u c :
  complete c →
  complete (write_fields
              {| set_fields := u; set_usedCount := None; set_updatedAt := Some now |} c).
Proof. intros (? & ? & ?). repeat split; simpl; eauto. Qed.

Lemma updateCouponHandler_agree {upcase : UpperCasing} now req s :
  store_complete s → V1.updateCouponHandler now req s = updateCouponHandler now req s.
Proof.
  intros Hs. unfold V1.updateCouponHandler, updateCouponHandler, withErrorHandling,
    V1.internal_error.
  apply try_catch_ext. destruct (updateCouponSchema req); cbn [negb]; [| done].
  apply bind_ext. intros userId s' ->%getSiteUserId_returned.
  destruct (truthy_string userId); [| done].
  apply bind_ext. intros couponDoc s' [= <- <-].
  destruct (negb _); [done |].
  apply bind_ext2.
  { apply toCouponDocument_agree. simpl. intros d. by apply Hs. }
  intros currentData s' ->%toCouponDocument_returned.
  destruct (negb _); [done |]. cbv zeta.
  assert (Hfinish : ∀ u,
    (if is_percentage (Updates.discountType u ?? discountType (fields currentData))
        && Qgtb (Updates.discountValue u ?? discountValue (fields currentData)) 100
     then mret (failure PorcentajeSobre100 INVALID_INPUT)
     else
       if (Updates.validFrom u ?? validFrom (fields currentData)
           >=? Updates.validUntil u ?? validUntil (fields currentData))%Z
       then mret (failure ValidFromPosterior INVALID_INPUT)
       else
         _ ← coupons_doc_update (Update.couponId req)
               {| set_fields := u; set_usedCount := None; set_updatedAt := Some now |};
         updatedDoc ← coupons_doc_get (Update.couponId req);
         updatedData ← V1.toCouponDocument updatedDoc;
         mret (success updatedData)) s
    = (if is_percentage (Updates.discountType u ?? discountType (fields currentData))
          && Qgtb (Updates.discountValue u ?? discountValue (fields currentData)) 100
       then mret (failure PorcentajeSobre100 INVALID_INPUT)
       else
         if (Updates.validFrom u ?? validFrom (fields currentData)
             >=? Updates.validUntil u ?? validUntil (fields currentData))%Z
         then mret (failure ValidFromPosterior INVALID_INPUT)
         else
           _ ← coupons_doc_update (Update.couponId req)
                 {| set_fields := u; set_usedCount := None; set_updatedAt := Some now |};
           updatedDoc ← coupons_doc_get (Update.couponId req);
           updatedData ← toCouponDocument updatedDoc;
           mret (success updatedData)) s).
  { intros u. destruct (_ && _); [done |]. destruct (_ >=? _)%Z; [done |].
    apply bind_ext. intros [] s' Hupdate.
    assert (Hs' : store_complete s').
    { unfold coupons_doc_update in Hupdate.
      destruct (coupons s !! Update.couponId req) as [c |] eqn:Hc; [| done].
      injection Hupdate as <-. apply store_complete_insert; [done |].
      apply write_fields_complete. by eapply Hs. }
    apply bind_ext. intros updatedDoc s'' [= <- <-].
    apply bind_ext2; [| done].
    apply toCouponDocument_agree. simpl. intros d. by apply Hs'. }
  destruct (truthy_string _) as [c |]; [| apply Hfinish].
  destruct (negb _); [| apply Hfinish].
  apply bind_ext. intros existing s' [= <- <-].
  destruct (negb _); [done | apply Hfinish].
Qed.

Lemma serve_complete {upcase : UpperCasing} canCreateCoupon now r s :
  store_complete s → store_complete (serve canCreateCoupon now r s).
Proof.
  intros Hs.
  destruct (serve_cases canCreateCoupon now r s)
    as [-> | [(req & uid & -> & Hschema & ->) | [(req & c & -> & Hschema & Hc & ->)
       | [(req & -> & ->) | (req & c & -> & Hc & He & ->)]]]]; [done | | | |].
  - apply store_complete_insert; [done |]. repeat split; simpl; eauto.
  - apply store_complete_insert; [done |]. apply updated_complete. by eapply Hs.
  - intros cid d. simpl. intros Hd. apply lookup_delete_Some in Hd as [_ Hd].
    by eapply Hs.
  - apply store_complete_insert; [done |].
    destruct (Hs _ _ Hc) as (? & ? & ?). repeat split; simpl; eauto.
Qed.

Lemma seed_store_complete : store_complete seed_store.
Proof.
  change (map_Forall (λ _ d, complete d) (coupons seed_store)). simpl.
  repeat apply map_Forall_insert_2; try apply map_Forall_empty.
  all: repeat split; by eexists.
Qed.

(** C10, as stated, fails on a store with a document that lacks a required
    field: the earlier [toCouponDocument] lets it through, the later one
    throws.  On such a coupon the earlier [getCoupons] lists it and the
    earlier [applyCoupon] redeems it, the later ones answer
    [INTERNAL_ERROR] and write nothing. *)
Lemma versions_differ_on_incomplete_document :
  let legacy :=
    {| siteId := "site456"; userId := Some "user123"; code := "BIENVENIDO";
       discountType := percentage; discountValue := 10;
       minPurchase := None; maxUses := Some 100%Q; usedCount := 0;
       validFrom := date_2025_01_01; validUntil := date_2026_12_31;
       isActive := true; createdAt := None; updatedAt := None |} in
  let apply_req := Apply.mk "site456" "coupon001" "order-001" 50000 in
  coupons legacy_store !! "coupon001" = Some legacy
  ∧ V1.getCouponsHandler (Get.mk "site456") legacy_store
    = (Returned (success [mkCouponDocument "coupon001" legacy]), legacy_store)
  ∧ getCouponsHandler (Get.mk "site456") legacy_store
    = (Returned (failure ErrorInterno INTERNAL_ERROR), legacy_store)
  ∧ (usedCount <$> coupons (snd (V1.applyCouponHandler date_2026_06_01 apply_req legacy_store))
                     !! "coupon001") = Some 1%Q
  ∧ applyCouponHandler date_2026_06_01 apply_req legacy_store
    = (Returned (failure ErrorInterno INTERNAL_ERROR), legacy_store)
  ∧ V1.applyCouponHandler date_2026_06_01 apply_req legacy_store
    ≠ applyCouponHandler date_2026_06_01 apply_req legacy_store.
Proof.
  cbv zeta. repeat split; try (vm_compute; reflexivity).
  intros H. apply (f_equal fst) in H. vm_compute in H. discriminate H.
Qed.

(** C10, amended. On a store whose coupon documents carry every required
    field, each of the six handlers of the earlier version returns the
    response and leaves the store that the handler of the later version
    does, and the store a request leaves is again such a store. *)
Theorem versions_agree_on_complete_stores {upcase : UpperCasing} canCreateCoupon now s :
  store_complete s →
  (∀ req, V1.createCouponHandler canCreateCoupon now req s
          = createCouponHandler canCreateCoupon now req s)
  ∧ (∀ req, V1.getCouponsHandler req s = getCouponsHandler req s)
  ∧ (∀ req, V1.updateCouponHandler now req s = updateCouponHandler now req s)
  ∧ (∀ req, V1.deleteCouponHandler req s = deleteCouponHandler req s)
  ∧ (∀ req, V1.validateCouponHandler now req s = validateCouponHandler now req s)
  ∧ (∀ req, V1.applyCouponHandler now req s = applyCouponHandler now req s)
  ∧ (∀ r, store_complete (serve canCreateCoupon now r s)).
Proof.
  intros Hs.
  split; [intros; apply createCouponHandler_agree |].
  split; [intros; by apply getCouponsHandler_agree |].
  split; [intros; by apply updateCouponHandler_agree |].
  split; [intros; apply deleteCouponHandler_agree |].
  split; [intros; by apply validateCouponHandler_agree |].
  split; [intros; by apply applyCouponHandler_agree |].
  intros. by apply serve_complete.
Qed.

Lemma versions_agree_on_complete_stores_witness :
  V1.applyCouponHandler date_2026_06_01
    (Apply.mk "site456" "coupon001" "order-001" 50000) seed_store
  = applyCouponHandler date_2026_06_01
      (Apply.mk "site456" "coupon001" "order-001" 50000) seed_store.
Proof.
  destruct (versions_agree_on_complete_stores unlimited_plan date_2026_06_01 seed_store)
    as (_ & _ & _ & _ & _ & H & _).
  - apply seed_store_complete.
  - apply H.
Defined.

(** * Further properties of the handlers *)

(** ** Invalid input and unknown sites *)

Lemma not_site_found s sid :
  ¬ site_found s sid → truthy_string (sites s !! sid ≫= Site.userId) = None.
Proof.
  intros H. destruct (truthy_string _) as [uid |] eqn:E; [| done].
  destruct H. by eapply truthy_string_site_found.
Qed.

(** X1.  A request the schema rejects is answered [INVALID_INPUT] by each of the
    six handlers, before any access to the store: whatever the store holds,
    it is returned as it was, and [canCreateCoupon] is not consulted. *)
Theorem invalid_input_stops_first {upcase : UpperCasing} canCreateCoupon now s :
  (∀ req, createCouponSchema req = false →
     createCouponHandler canCreateCoupon now req s
     = (Returned (failure ZodIssues INVALID_INPUT), s))
  ∧ (∀ req, getCouponsSchema req = false →
       getCouponsHandler req s = (Returned (failure ZodIssues INVALID_INPUT), s))
  ∧ (∀ req, updateCouponSchema req = false →
       updateCouponHandler now req s = (Returned (failure ZodIssues INVALID_INPUT), s))
  ∧ (∀ req, deleteCouponSchema req = false →
       deleteCouponHandler req s = (Returned (failure ZodIssues INVALID_INPUT), s))
  ∧ (∀ req, validateCouponSchema req = false →
       validateCouponHandler now req s = (Returned (failure ZodIssues INVALID_INPUT), s))
  ∧ (∀ req, applyCouponSchema req = false →
       applyCouponHandler now req s = (Returned (failure ZodIssues INVALID_INPUT), s)).
Proof.
  repeat split; intros req Hschema.
  - unfold createCouponHandler, withErrorHandling, try_catch. by rewrite Hschema.
  - unfold getCouponsHandler, withErrorHandling, try_catch. by rewrite Hschema.
  - unfold updateCouponHandler, withErrorHandling, try_catch. by rewrite Hschema.
  - unfold deleteCouponHandler, withErrorHandling, try_catch. by rewrite Hschema.
  - unfold validateCouponHandler, withErrorHandling, try_catch. by rewrite Hschema.
  - unfold applyCouponHandler, withErrorHandling, try_catch. by rewrite Hschema.
Qed.

Lemma invalid_input_stops_first_witness :
  applyCouponHandler date_2026_06_01
    (Apply.mk "site456" "coupon001" "" 50000) seed_store
  = (Returned (failure ZodIssues INVALID_INPUT), seed_store).
Proof.
  destruct (invalid_input_stops_first unlimited_plan date_2026_06_01 seed_store)
    as (_ & _ & _ & _ & _ & H).
  apply H. reflexivity.
Defined.

(** X2.  A request that passes its schema for a site that does not exist, or
    whose document has no owner, is answered [SITE_NOT_FOUND] by each of the
    six handlers, and the store is returned as it was: no coupon is read or
    written and the plan is not consulted. *)
Theorem unknown_site_stops {upcase : UpperCasing} canCreateCoupon now s :
  (∀ req, createCouponSchema req = true → ¬ site_found s (Create.siteId req) →
     createCouponHandler canCreateCoupon now req s
     = (Returned (failure SitioNoEncontrado SITE_NOT_FOUND), s))
  ∧ (∀ req, getCouponsSchema req = true → ¬ site_found s (Get.siteId req) →
       getCouponsHandler req s
       = (Returned (failure SitioNoEncontrado SITE_NOT_FOUND), s))
  ∧ (∀ req, updateCouponSchema req = true → ¬ site_found s (Update.siteId req) →
       updateCouponHandler now req s
       = (Returned (failure SitioNoEncontrado SITE_NOT_FOUND), s))
  ∧ (∀ req, deleteCouponSchema req = true → ¬ site_found s (Delete.siteId req) →
       deleteCouponHandler req s
       = (Returned (failure SitioNoEncontrado SITE_NOT_FOUND), s))
  ∧ (∀ req, validateCouponSchema req = true → ¬ site_found s (Validate.siteId req) →
       validateCouponHandler now req s
       = (Returned (failure SitioNoEncontrado SITE_NOT_FOUND), s))
  ∧ (∀ req, applyCouponSchema req = true → ¬ site_found s (Apply.siteId req) →
       applyCouponHandler now req s
       = (Returned (failure SitioNoEncontrado SITE_NOT_FOUND), s)).
Proof.
  repeat split; intros req Hschema Hsite%not_site_found.
  - unfold createCouponHandler, withErrorHandling, try_catch. rewrite Hschema. cbn [negb].
    unfold mbind at 1, IO_bind at 1. by rewrite getSiteUserId_eq, Hsite.
  - unfold getCouponsHandler, withErrorHandling, try_catch. rewrite Hschema. cbn [negb].
    unfold mbind at 1, IO_bind at 1. by rewrite getSiteUserId_eq, Hsite.
  - unfold updateCouponHandler, withErrorHandling, try_catch. rewrite Hschema. cbn [negb].
    unfold mbind at 1, IO_bind at 1. by rewrite getSiteUserId_eq, Hsite.
  - unfold deleteCouponHandler, withErrorHandling, try_catch. rewrite Hschema. cbn [negb].
    unfold mbind at 1, IO_bind at 1. by rewrite getSiteUserId_eq, Hsite.
  - unfold validateCouponHandler, withErrorHandling, try_catch. rewrite Hschema. cbn [negb].
    unfold mbind at 1, IO_bind at 1. by rewrite getSiteUserId_eq, Hsite.
  - unfold applyCouponHandler, withErrorHandling, try_catch. rewrite Hschema. cbn [negb].
    unfold mbind at 1, IO_bind at 1. by rewrite getSiteUserId_eq, Hsite.
Qed.

Lemma unknown_site_stops_witness :
  validateCouponHandler date_2026_06_01
    (Validate.mk "site000" "BIENVENIDO" 50000) seed_store
  = (Returned (failure SitioNoEncontrado SITE_NOT_FOUND), seed_store).
Proof.
  destruct (unknown_site_stops unlimited_plan date_2026_06_01 seed_store)
    as (_ & _ & _ & _ & H & _).
  apply H; [reflexivity |].
  intros (d & uid & Hd & _). vm_compute in Hd. discriminate Hd.
Defined.

(** ** The query by site and code *)

Lemma docs_of_site_code_shape s sid c :
  docs_of_site_code s sid c = []
  ∨ ∃ cid d,
      docs_of_site_code s sid c = [mkSnapshot cid (Some d)]
      ∧ coupons s !! cid = Some d ∧ siteId d = sid ∧ code d = c.
Proof.
  unfold docs_of_site_code.
  set (P := λ kd : string * CouponData,
              String.eqb (siteId (snd kd)) sid && String.eqb (code (snd kd)) c).
  destruct (List.filter P (map_to_list (coupons s))) as [| [cid d] l] eqn:E; [by left |].
  right. exists cid, d. split; [done |].
  assert (Hin : In (cid, d) (List.filter P (map_to_list (coupons s)))).
  { rewrite E. by left. }
  apply filter_In in Hin as [Hin HP].
  apply list_elem_of_In, elem_of_map_to_list in Hin.
  unfold P in HP. simpl in HP. apply andb_true_iff in HP as [H1 H2].
  by apply String.eqb_eq in H1, H2.
Qed.


(** ** createCoupon *)

Lemma createCouponHandler_cases {upcase : UpperCasing} canCreateCoupon now req s :
  (∃ msg c, createCouponHandler canCreateCoupon now req s = (Returned (failure msg c), s))
  ∨ (∃ uid,
       createCouponSchema req = true
       ∧ truthy_string (sites s !! Create.siteId req ≫= Site.userId) = Some uid
       ∧ (∀ cid d, coupons s !! cid = Some d → siteId d = Create.siteId req →
                   code d ≠ toUpperCase (Create.code req))
       ∧ createCouponHandler canCreateCoupon now req s
         = (Returned (success (mkCouponDocument (fresh (dom (coupons s)))
                                 (created now req uid))),
            set_coupons s
              (<[fresh (dom (coupons s)) := created now req uid]> (coupons s)))).
Proof.
  destruct (createCouponHandler_guards canCreateCoupon now req s)
    as [(msg & e & H & _) | (uid & lc & Hschema & Hsite & Hlc & Hallowed)];
    [left; eauto |].
  rewrite (createCouponHandler_loaded _ now req s uid lc) by done.
  destruct (is_empty _) eqn:Hq; cbn [negb]; [| left; eauto].
  right. exists uid. repeat split; try done.
  intros cid d Hd Hs Hc.
  assert (is_empty (docs_of_site_code s (Create.siteId req)
                      (toUpperCase (Create.code req))) = false); [| congruence].
  apply docs_of_site_code_nonempty. eauto.
Qed.

(** ** getCoupons *)

Lemma mapM_toCouponDocument_returned (l : list (string * CouponData)) s docs s' :
  mapM toCouponDocument (snapshots l) s = (Returned docs, s') →
  docs = List.map document_of l ∧ s' = s ∧ ∀ kd, kd ∈ l → complete (snd kd).
Proof.
  revert docs s'. induction l as [| [cid d] l IH]; intros docs s'.
  { intros [= <- <-]. split; [done |]. split; [done |]. by intros kd ?%elem_of_nil. }
  change (mapM toCouponDocument (snapshots ((cid, d) :: l)))
    with (y ← toCouponDocument (mkSnapshot cid (Some d));
          k ← mapM toCouponDocument (snapshots l); mret (y :: k)).
  unfold mbind at 1, IO_bind at 1.
  destruct (toCouponDocument_cases cid d s) as [[Hd ->] | [_ ->]]; [| done].
  unfold mbind at 1, IO_bind at 1.
  destruct (mapM toCouponDocument (snapshots l) s) as [[k |] s''] eqn:E; [| done].
  destruct (IH k s'' eq_refl) as (-> & -> & Hl). intros [= <- <-].
  split; [done |]. split; [done |].
  intros kd [-> | Hin]%elem_of_cons; [done | by apply Hl].
Qed.

Lemma mapM_toCouponDocument_complete (l : list (string * CouponData)) s :
  (∀ kd, kd ∈ l → complete (snd kd)) →
  mapM toCouponDocument (snapshots l) s = (Returned (List.map document_of l), s).
Proof.
  induction l as [| [cid d] l IH]; intros Hl; [done |].
  change (mapM toCouponDocument (snapshots ((cid, d) :: l)))
    with (y ← toCouponDocument (mkSnapshot cid (Some d));
          k ← mapM toCouponDocument (snapshots l); mret (y :: k)).
  unfold mbind at 1, IO_bind at 1.
  rewrite toCouponDocument_complete by (apply (Hl (cid, d)); by left).
  unfold mbind at 1, IO_bind at 1.
  rewrite IH; [done |]. intros kd Hin. apply Hl. by right.
Qed.

Lemma getCouponsHandler_cases req s :
  (∃ msg c, getCouponsHandler req s = (Returned (failure msg c), s))
  ∨ (getCouponsSchema req = true
     ∧ site_found s (Get.siteId req)
     ∧ (∀ cid d, coupons s !! cid = Some d → siteId d = Get.siteId req → complete d)
     ∧ getCouponsHandler req s
       = (Returned (success (List.map document_of
            (List.filter (λ kd, String.eqb (siteId (snd kd)) (Get.siteId req))
               (map_to_list (coupons s))))), s)).
Proof.
  destruct (getCouponsHandler req s) as [o s'] eqn:H. revert H.
  unfold getCouponsHandler, withErrorHandling, try_catch.
  destruct (getCouponsSchema req); cbn [negb]; [| stopped].
  unfold mbind at 1, IO_bind at 1. rewrite getSiteUserId_eq.
  destruct (truthy_string _) eqn:Hsite; [| stopped].
  apply truthy_string_site_found in Hsite.
  unfold mbind at 1, IO_bind at 1, coupons_where_siteId at 1.
  unfold mbind at 1, IO_bind at 1, docs_of_site.
  destruct (mapM toCouponDocument _ s) as [[docs |] s''] eqn:E.
  - apply mapM_toCouponDocument_returned in E as (-> & -> & Hl).
    intros [= <- <-]. right. split; [done |]. split; [done |]. split; [| done].
    intros cid d Hd Hs. apply (Hl (cid, d)).
    apply list_elem_of_In, filter_In. split.
    + by apply list_elem_of_In, elem_of_map_to_list.
    + simpl. rewrite Hs. apply String.eqb_refl.
  - destruct (mapM_toCouponDocument_store
                (snapshots (List.filter
                   (λ kd, String.eqb (siteId (snd kd)) (Get.siteId req))
                   (map_to_list (coupons s)))) s) as [o' E'].
    rewrite E in E'. injection E' as <- <-. stopped.
Qed.

Lemma getCouponsHandler_elem req s docs doc :
  fst (getCouponsHandler req s) = Returned (success docs) →
  doc ∈ docs
  ↔ coupons s !! id doc = Some (fields doc) ∧ siteId (fields doc) = Get.siteId req.
Proof.
  intros Hr.
  destruct (getCouponsHandler_cases req s) as [(msg & e & H) | (_ & _ & _ & H)];
    rewrite H in Hr; simpl in Hr; [done |].
  injection Hr as <-. destruct doc as [cid d]. simpl.
  rewrite list_elem_of_In, in_map_iff. split.
  - intros ([cid' d'] & [= -> ->] & Hin). apply filter_In in Hin as [Hin HP].
    apply list_elem_of_In, elem_of_map_to_list in Hin. simpl in HP.
    by apply String.eqb_eq in HP.
  - intros [Hd Hs]. exists (cid, d). split; [done |]. apply filter_In. split.
    + by apply list_elem_of_In, elem_of_map_to_list.
    + simpl. rewrite Hs. apply String.eqb_refl.
Qed.

(** X4.  The list [getCoupons] answers holds the coupons of the site asked for,
    all of them and nothing else, each once, each as it is stored; and it
    answers with a list whenever the request is valid, the site exists and
    the coupons of the site are complete documents. *)
Theorem getCoupons_lists_the_site req s :
  (∀ docs,
     fst (getCouponsHandler req s) = Returned (success docs) →
     NoDup docs
     ∧ ∀ doc, doc ∈ docs
              ↔ coupons s !! id doc = Some (fields doc)
                ∧ siteId (fields doc) = Get.siteId req)
  ∧ (getCouponsSchema req = true →
     site_found s (Get.siteId req) →
     (∀ cid d, coupons s !! cid = Some d → siteId d = Get.siteId req → complete d) →
     ∃ docs, getCouponsHandler req s = (Returned (success docs), s)).
Proof.
  split.
  - intros docs Hr. split; [| intros doc; by apply getCouponsHandler_elem].
    destruct (getCouponsHandler_cases req s) as [(msg & e & H) | (_ & _ & _ & H)];
      rewrite H in Hr; simpl in Hr; [done |].
    injection Hr as <-. apply NoDup_fmap_2.
    + intros [k1 d1] [k2 d2]. unfold document_of. simpl. by intros [= -> ->].
    + apply NoDup_ListNoDup, List.NoDup_filter, NoDup_ListNoDup, NoDup_map_to_list.
  - intros Hschema Hsite Hcomplete.
    destruct (site_found_userId _ _ Hsite) as [uid Huid]. eexists.
    unfold getCouponsHandler, withErrorHandling, try_catch. rewrite Hschema. cbn [negb].
    unfold mbind at 1, IO_bind at 1. rewrite getSiteUserId_eq, Huid.
    unfold mbind at 1, IO_bind at 1, coupons_where_siteId at 1.
    unfold mbind at 1, IO_bind at 1, docs_of_site.
    rewrite mapM_toCouponDocument_complete; [done |].
    intros [cid d] Hin. apply list_elem_of_In, filter_In in Hin as [Hin HP].
    apply list_elem_of_In, elem_of_map_to_list in Hin. simpl in HP.
    apply String.eqb_eq in HP. by eapply Hcomplete.
Qed.

Lemma getCoupons_lists_the_site_witness :
  ∃ docs, getCouponsHandler (Get.mk "site456") seed_store
          = (Returned (success docs), seed_store).
Proof.
  destruct (getCoupons_lists_the_site (Get.mk "site456") seed_store) as [_ H].
  apply H.
  - reflexivity.
  - exists (Site.mk (Some "user123")), "user123". repeat split; done.
  - intros cid d Hd _. by apply (seed_store_complete cid).
Defined.

(** ** validateCoupon *)

Lemma validateCouponHandler_cases {upcase : UpperCasing} now req s :
  (∃ msg c, validateCouponHandler now req s = (Returned (failure msg c), s))
  ∨ (∃ cid d,
       validateCouponSchema req = true
       ∧ site_found s (Validate.siteId req)
       ∧ coupons s !! cid = Some d
       ∧ complete d
       ∧ siteId d = Validate.siteId req
       ∧ code d = toUpperCase (Validate.code req)
       ∧ validateCouponEligibility (T := ValidateCouponResult) now
           (mkCouponDocument cid d) (Validate.cartTotal req) = None
       ∧ validateCouponHandler now req s =
           let discountAmount :=
             calculateDiscount (discountType d) (discountValue d) (Validate.cartTotal req) in
           (Returned (success
              {| v_valid := true;
                 v_couponId := cid;
                 v_code := code d;
                 v_discountType := discountType d;
                 v_discountValue := discountValue d;
                 v_discountAmount := discountAmount;
                 v_finalTotal := Math_max (Validate.cartTotal req - discountAmount) 0 |}),
            s)).
Proof.
  destruct (validateCouponHandler now req s) as [o s'] eqn:H. revert H.
  unfold validateCouponHandler, withErrorHandling, try_catch.
  destruct (validateCouponSchema req); cbn [negb]; [| stopped].
  unfold mbind at 1, IO_bind at 1. rewrite getSiteUserId_eq.
  destruct (truthy_string _) eqn:Hsite; [| stopped].
  apply truthy_string_site_found in Hsite.
  unfold mbind at 1, IO_bind at 1, coupons_where_siteId_code at 1.
  destruct (docs_of_site_code_shape s (Validate.siteId req) (toUpperCase (Validate.code req)))
    as [-> | (cid & d & -> & Hd & Hs & Hc)]; [stopped |].
  unfold mbind at 1, IO_bind at 1.
  destruct (toCouponDocument_cases cid d s) as [[Hcomplete ->] | [_ ->]]; [| stopped].
  destruct (validateCouponEligibility _ _ _) as [e |] eqn:He.
  - apply validateCouponEligibility_failure in He as (msg & code & ->). stopped.
  - intros [= <- <-]. right. by exists cid, d.
Qed.

Lemma eligibility_result_type {T U} now coupon cartTotal :
  validateCouponEligibility (T := T) now coupon cartTotal = None →
  validateCouponEligibility (T := U) now coupon cartTotal = None.
Proof.
  intros H.
  pose proof (validateCouponEligibility_reason (T := T) now coupon cartTotal) as HT.
  pose proof (validateCouponEligibility_reason (T := U) now coupon cartTotal) as HU.
  rewrite H in HT. simpl in HT. rewrite <- HT in HU.
  destruct (validateCouponEligibility (T := U) now coupon cartTotal) as [r |] eqn:E; [| done].
  by apply validateCouponEligibility_failure in E as (msg & c & ->).
Qed.

(** X5.  What [validateCoupon] answers with is a coupon of the site asked for,
    stored with the upper-case form of the code asked for, and the answer
    repeats its identifier, code, kind and value.  The upper-case form is
    the one the upper-casing function gives, whichever it is: under the
    engine's, [niño] resolves to the coupon stored as [NIÑO]. *)
Theorem validateCoupon_resolves_within_site {upcase : UpperCasing} now req s v :
  fst (validateCouponHandler now req s) = Returned (success v) →
  ∃ d, coupons s !! v_couponId v = Some d
       ∧ siteId d = Validate.siteId req
       ∧ code d = toUpperCase (Validate.code req)
       ∧ v_code v = code d
       ∧ v_discountType v = discountType d
       ∧ v_discountValue v = discountValue d
       ∧ v_valid v = true.
Proof.
  intros Hr.
  destruct (validateCouponHandler_cases now req s)
    as [(msg & e & H) | (cid & d & _ & _ & Hd & _ & Hs & Hc & _ & H)];
    rewrite H in Hr; simpl in Hr; [done |].
  injection Hr as <-. by exists d.
Qed.

Lemma validateCoupon_resolves_within_site_witness :
  ∃ d, coupons seed_store !! "coupon002" = Some d
       ∧ siteId d = "site999"
       ∧ code d = toUpperCase "bienvenido"
       ∧ "BIENVENIDO" = code d
       ∧ fixed = discountType d
       ∧ 5000%Q = discountValue d
       ∧ true = true.
Proof.
  apply (validateCoupon_resolves_within_site date_2026_06_01
           (Validate.mk "site999" "bienvenido" 50000) seed_store
           {| v_valid := true; v_couponId := "coupon002"; v_code := "BIENVENIDO";
              v_discountType := fixed; v_discountValue := 5000;
              v_discountAmount := 5000; v_finalTotal := 45000 |}).
  vm_compute. reflexivity.
Defined.

(** X6.  What [validateCoupon] previews is what [applyCoupon] does: when the
    preview succeeds, redeeming the coupon it names, for the same site and
    cart total at the same instant, succeeds with the same discount and the
    same final total. *)
Theorem validate_previews_apply {upcase : UpperCasing} now req s v orderId :
  fst (validateCouponHandler now req s) = Returned (success v) →
  orderId ≠ "" →
  v_couponId v ≠ "" →
  ∃ a s',
    applyCouponHandler now
      (Apply.mk (Validate.siteId req) (v_couponId v) orderId (Validate.cartTotal req)) s
    = (Returned (success a), s')
    ∧ a_couponId a = v_couponId v
    ∧ a_discountType a = v_discountType v
    ∧ a_discountValue a = v_discountValue v
    ∧ a_discountAmount a = v_discountAmount v
    ∧ a_finalTotal a = v_finalTotal v.
Proof.
  intros Hr Horder Hid.
  destruct (validateCouponHandler_cases now req s)
    as [(msg & e & H) | (cid & d & Hschema & Hsite & Hd & Hcomplete & Hs & Hc & He & H)];
    rewrite H in Hr; simpl in Hr; [done |].
  injection Hr as <-. simpl in *.
  rewrite (applyCouponHandler_loaded now _ s d); try done.
  - simpl. rewrite Hs, String.eqb_refl. cbn [negb].
    rewrite (eligibility_result_type (T := ValidateCouponResult) now _ _ He).
    by do 2 eexists.
  - unfold applyCouponSchema, validateCouponSchema, min1 in *. simpl.
    apply andb_true_iff in Hschema as [[Hsid _]%andb_true_iff Hcart].
    rewrite Hsid, Hcart.
    destruct (String.eqb_spec cid ""); [done |].
    destruct (String.eqb_spec orderId ""); done.
Qed.

Lemma validate_previews_apply_witness :
  ∃ a s',
    applyCouponHandler date_2026_06_01
      (Apply.mk "site456" "coupon001" "order-001" 50000) seed_store
    = (Returned (success a), s')
    ∧ a_couponId a = "coupon001"
    ∧ a_discountType a = percentage
    ∧ a_discountValue a = 10%Q
    ∧ a_discountAmount a = 5000%Q
    ∧ a_finalTotal a = 45000%Q.
Proof.
  apply (validate_previews_apply date_2026_06_01
           (Validate.mk "site456" "Bienvenido" 50000) seed_store
           {| v_valid := true; v_couponId := "coupon001"; v_code := "BIENVENIDO";
              v_discountType := percentage; v_discountValue := 10;
              v_discountAmount := 5000; v_finalTotal := 45000 |} "order-001").
  - vm_compute. reflexivity.
  - done.
  - done.
Defined.

(** ** Letter case of codes *)

Lemma min1_intro c : c ≠ "" → min1 c = true.
Proof. intros Hc. unfold min1. by destruct (String.eqb_spec c ""). Qed.

(** X7.  The letter case of a code in a request is immaterial: two requests to
    [createCoupon], or to [validateCoupon], whose codes are not empty and
    have the same upper-case form, and which agree otherwise, get the same
    answer and leave the same store.  It holds for every upper-casing
    function, so for the engine's: [niño] and [NIÑO] are answered alike. *)
Theorem code_case_is_immaterial {upcase : UpperCasing} canCreateCoupon now s c1 c2 :
  c1 ≠ "" →
  c2 ≠ "" →
  toUpperCase c1 = toUpperCase c2 →
  (∀ sid ty v minP maxU from until,
     createCouponHandler canCreateCoupon now
       (Create.mk sid c1 ty v minP maxU from until) s
     = createCouponHandler canCreateCoupon now
         (Create.mk sid c2 ty v minP maxU from until) s)
  ∧ (∀ sid cartTotal,
       validateCouponHandler now (Validate.mk sid c1 cartTotal) s
       = validateCouponHandler now (Validate.mk sid c2 cartTotal) s).
Proof.
  intros H1%min1_intro H2%min1_intro Hcase. split.
  - intros. unfold createCouponHandler, withErrorHandling, createCouponSchema,
      createCouponBase. cbn [Create.siteId Create.code Create.discountType
      Create.discountValue Create.minPurchase Create.maxUses Create.validFrom
      Create.validUntil]. by rewrite H1, H2, Hcase.
  - intros. unfold validateCouponHandler, withErrorHandling, validateCouponSchema.
    cbn [Validate.siteId Validate.code Validate.cartTotal]. by rewrite H1, H2, Hcase.
Qed.

Lemma code_case_is_immaterial_witness :
  validateCouponHandler date_2026_06_01 (Validate.mk "site456" "bienvenido" 50000) seed_store
  = validateCouponHandler date_2026_06_01 (Validate.mk "site456" "BienVenido" 50000) seed_store.
Proof.
  destruct (code_case_is_immaterial unlimited_plan date_2026_06_01 seed_store
              "bienvenido" "BienVenido") as [_ H]; [done | done | reflexivity |].
  apply H.
Defined.

(** ** Coupons that are not there, or not of the site *)

Lemma updateCouponHandler_cases {upcase : UpperCasing} now req s :
  (∃ msg c, updateCouponHandler now req s = (Returned (failure msg c), s))
  ∨ (∃ c,
       updateCouponSchema req = true
       ∧ site_found s (Update.siteId req)
       ∧ coupons s !! Update.couponId req = Some c
       ∧ complete c
       ∧ siteId c = Update.siteId req
       ∧ code_taken s (Update.siteId req) (code c) (Updates.code (Update.updates req)) = false
       ∧ validateUpdateFields (T := CouponDocument)
           (mkCouponDocument (Update.couponId req) c)
           (normalized_updates (Update.updates req)) = None
       ∧ updateCouponHandler now req s
         = (Returned (success (mkCouponDocument (Update.couponId req)
                                 (updated now (Update.updates req) c))),
            set_coupons s
              (<[Update.couponId req := updated now (Update.updates req) c]> (coupons s)))).
Proof.
  destruct (updateCouponHandler_guards now req s)
    as [(msg & e & H & _) | (c & Hschema & Hsite & Hc & Hcomplete & Howned)];
    [left; eauto |].
  rewrite (updateCouponHandler_loaded now req s c) by done.
  assert (Hnone : truthy_string (Updates.code (Update.updates req)) = None →
                  code_taken s (Update.siteId req) (code c)
                    (Updates.code (Update.updates req)) = false).
  { unfold code_taken. by intros ->. }
  destruct (truthy_string _) as [newcode |] eqn:Hnew.
  - destruct (code_taken _ _ _ _) eqn:Htaken; [left; eauto |].
    destruct (validateUpdateFields _ _) as [err |] eqn:He.
    + apply validateUpdateFields_failure in He as [msg ->]. left; eauto.
    + right. by exists c.
  - destruct (validateUpdateFields _ _) as [err |] eqn:He.
    + apply validateUpdateFields_failure in He as [msg ->]. left; eauto.
    + right. exists c. do 5 (split; [done |]). split; [by apply Hnone |]. done.
Qed.

Lemma applyCouponHandler_not_found now req s :
  applyCouponSchema req = true → site_found s (Apply.siteId req) →
  coupons s !! Apply.couponId req = None →
  applyCouponHandler now req s = (Returned (failure CuponNoEncontrado COUPON_NOT_FOUND), s).
Proof.
  intros Hschema [uid Huid]%site_found_userId Hc.
  unfold applyCouponHandler, withErrorHandling, try_catch. rewrite Hschema. cbn [negb].
  unfold mbind at 1, IO_bind at 1. rewrite getSiteUserId_eq, Huid.
  unfold runTransaction, mbind, IO_bind, coupons_doc_get, doc_exists. cbn [doc_data].
  by rewrite Hc.
Qed.

(** X8.  An update, a deletion or a redemption that names a coupon the store
    does not hold is answered [COUPON_NOT_FOUND], for a valid request on an
    existing site, and the store is returned as it was. *)
Theorem missing_coupon_not_found {upcase : UpperCasing} now s :
  (∀ req, updateCouponSchema req = true → site_found s (Update.siteId req) →
     coupons s !! Update.couponId req = None →
     updateCouponHandler now req s
     = (Returned (failure CuponNoEncontrado COUPON_NOT_FOUND), s))
  ∧ (∀ req, deleteCouponSchema req = true → site_found s (Delete.siteId req) →
       coupons s !! Delete.couponId req = None →
       deleteCouponHandler req s
       = (Returned (failure CuponNoEncontrado COUPON_NOT_FOUND), s))
  ∧ (∀ req, applyCouponSchema req = true → site_found s (Apply.siteId req) →
       coupons s !! Apply.couponId req = None →
       applyCouponHandler now req s
       = (Returned (failure CuponNoEncontrado COUPON_NOT_FOUND), s)).
Proof.
  repeat split; [| | intros req; apply applyCouponHandler_not_found];
    intros req Hschema [uid Huid]%site_found_userId Hc.
  - unfold updateCouponHandler, withErrorHandling, try_catch. rewrite Hschema. cbn [negb].
    unfold mbind at 1, IO_bind at 1. rewrite getSiteUserId_eq, Huid.
    unfold mbind at 1, IO_bind at 1, coupons_doc_get at 1, doc_exists. cbn [doc_data].
    by rewrite Hc.
  - unfold deleteCouponHandler, withErrorHandling, try_catch. rewrite Hschema. cbn [negb].
    unfold mbind at 1, IO_bind at 1. rewrite getSiteUserId_eq, Huid.
    unfold mbind at 1, IO_bind at 1, coupons_doc_get at 1. cbn [doc_data].
    by rewrite Hc.
Qed.

Lemma missing_coupon_not_found_witness :
  deleteCouponHandler (Delete.mk "site456" "coupon999") seed_store
  = (Returned (failure CuponNoEncontrado COUPON_NOT_FOUND), seed_store).
Proof.
  destruct (missing_coupon_not_found date_2026_06_01 seed_store) as (_ & H & _).
  apply H.
  - reflexivity.
  - exists (Site.mk (Some "user123")), "user123". repeat split; done.
  - reflexivity.
Defined.

(** X9.  An update or a deletion through a site other than the one the coupon is
    stored under is answered [FORBIDDEN] and writes nothing.  The deletion
    does not look at the other fields of the document; the update first
    requires a complete document. *)
Theorem cross_tenant_write_refused {upcase : UpperCasing} now s :
  (∀ req c, updateCouponSchema req = true → site_found s (Update.siteId req) →
     coupons s !! Update.couponId req = Some c → complete c →
     siteId c ≠ Update.siteId req →
     updateCouponHandler now req s
     = (Returned (failure CuponDeOtraTienda FORBIDDEN), s))
  ∧ (∀ req c, deleteCouponSchema req = true → site_found s (Delete.siteId req) →
       coupons s !! Delete.couponId req = Some c →
       siteId c ≠ Delete.siteId req →
       deleteCouponHandler req s
       = (Returned (failure CuponDeOtraTienda FORBIDDEN), s)).
Proof.
  split.
  - intros req c Hschema [uid Huid]%site_found_userId Hc Hcomplete Hne.
    unfold updateCouponHandler, withErrorHandling, try_catch. rewrite Hschema. cbn [negb].
    unfold mbind at 1, IO_bind at 1. rewrite getSiteUserId_eq, Huid.
    unfold mbind at 1, IO_bind at 1, coupons_doc_get at 1, doc_exists. cbn [doc_data].
    rewrite Hc. cbn [negb].
    unfold mbind at 1, IO_bind at 1. rewrite toCouponDocument_complete by done.
    cbn [fields]. by destruct (String.eqb_spec (siteId c) (Update.siteId req)).
  - intros req c Hschema [uid Huid]%site_found_userId Hc Hne.
    unfold deleteCouponHandler, withErrorHandling, try_catch. rewrite Hschema. cbn [negb].
    unfold mbind at 1, IO_bind at 1. rewrite getSiteUserId_eq, Huid.
    unfold mbind at 1, IO_bind at 1, coupons_doc_get at 1. cbn [doc_data].
    rewrite Hc. by destruct (String.eqb_spec (siteId c) (Delete.siteId req)).
Qed.

Lemma cross_tenant_write_refused_witness :
  deleteCouponHandler (Delete.mk "site999" "coupon001") seed_store
  = (Returned (failure CuponDeOtraTienda FORBIDDEN), seed_store).
Proof.
  destruct (cross_tenant_write_refused date_2026_06_01 seed_store) as [_ H].
  apply (H (Delete.mk "site999" "coupon001")
           (sample_coupon "site456" "BIENVENIDO" percentage 10 None (Some 100%Q) 0)).
  - reflexivity.
  - exists (Site.mk (Some "user789")), "user789". repeat split; done.
  - reflexivity.
  - done.
Defined.

(** ** deleteCoupon *)

Lemma serve_sites {upcase : UpperCasing} canCreateCoupon now r s :
  sites (serve canCreateCoupon now r s) = sites s.
Proof.
  destruct (serve_cases canCreateCoupon now r s)
    as [-> | [(req & uid & -> & _ & ->) | [(req & c & -> & _ & _ & ->)
       | [(req & -> & ->) | (req & c & -> & _ & _ & ->)]]]]; done.
Qed.

(** X10.  A valid deletion through the site a coupon is stored under removes that
    coupon, whether or not the document is complete, and nothing else: the
    other coupons and the sites stay as they are.  The coupon is then gone:
    a redemption that names it is answered [COUPON_NOT_FOUND]. *)
Theorem deleteCoupon_removes_its_coupon req s c :
  deleteCouponSchema req = true →
  site_found s (Delete.siteId req) →
  coupons s !! Delete.couponId req = Some c →
  siteId c = Delete.siteId req →
  ∃ s',
    deleteCouponHandler req s = (Returned (success (Delete.couponId req)), s')
    ∧ coupons s' !! Delete.couponId req = None
    ∧ (∀ other, other ≠ Delete.couponId req → coupons s' !! other = coupons s !! other)
    ∧ sites s' = sites s
    ∧ (∀ now areq,
         applyCouponSchema areq = true →
         site_found s (Apply.siteId areq) →
         Apply.couponId areq = Delete.couponId req →
         applyCouponHandler now areq s'
         = (Returned (failure CuponNoEncontrado COUPON_NOT_FOUND), s')).
Proof.
  intros Hschema Hsite Hc Howned.
  destruct (site_found_userId _ _ Hsite) as [uid Huid].
  exists (set_coupons s (delete (Delete.couponId req) (coupons s))). split.
  { unfold deleteCouponHandler, withErrorHandling, try_catch. rewrite Hschema. cbn [negb].
    unfold mbind at 1, IO_bind at 1. rewrite getSiteUserId_eq, Huid.
    unfold mbind at 1, IO_bind at 1, coupons_doc_get at 1. cbn [doc_data].
    rewrite Hc, Howned, String.eqb_refl. done. }
  split; [apply lookup_delete_eq |].
  split; [intros other Hother; simpl; by rewrite lookup_delete_ne |].
  split; [done |].
  intros now areq Haschema Hasite Hid.
  apply applyCouponHandler_not_found; [done | done |].
  rewrite Hid. apply lookup_delete_eq.
Qed.

Lemma deleteCoupon_removes_its_coupon_witness :
  ∃ s',
    deleteCouponHandler (Delete.mk "site456" "coupon003") seed_store
    = (Returned (success "coupon003"), s')
    ∧ coupons s' !! "coupon003" = None.
Proof.
  destruct (deleteCoupon_removes_its_coupon (Delete.mk "site456" "coupon003") seed_store
              (sample_coupon "site456" "BIENVENIDO3" percentage 5 None (Some 50%Q) 0))
    as (s' & H & Hgone & _).
  - reflexivity.
  - exists (Site.mk (Some "user123")), "user123". repeat split; done.
  - reflexivity.
  - reflexivity.
  - exists s'. by split.
Defined.

(** ** What every request keeps *)

Lemma ascii_toUpperCase_idempotent a :
  ascii_toUpperCase (ascii_toUpperCase a) = ascii_toUpperCase a.
Proof. destruct a as [[] [] [] [] [] [] [] []]; reflexivity. Qed.

Lemma toUpperCase_ascii_idempotent c :
  toUpperCase_ascii (toUpperCase_ascii c) = toUpperCase_ascii c.
Proof.
  induction c as [| a c IH]; [done |]. simpl. by rewrite ascii_toUpperCase_idempotent, IH.
Qed.

Lemma toUpperCase_ascii_nonempty c : toUpperCase_ascii c = "" → c = "".
Proof. by destruct c. Qed.

Lemma min1_nonempty c : min1 c = true → c ≠ "".
Proof. unfold min1. by destruct (String.eqb_spec c ""). Qed.

Lemma coupon_rules_created {upcase : UpperCasing} now req uid :
  createCouponSchema req = true → coupon_rules (created now req uid).
Proof.
  unfold createCouponSchema, createCouponBase, coupon_rules. simpl.
  rewrite !andb_true_iff, orb_true_iff.
  intros [[[[[[_ _] Hval] Hmin] Hmax] Hpct] Hdates].
  split; [by apply Qltb_lt |]. split.
  { intros Hty. rewrite Hty in Hpct. destruct Hpct as [[=] | Hle]. by apply Qle_bool_iff. }
  split; [lia |]. split.
  - intros p Hp. rewrite Hp in Hmin. by apply Qltb_lt.
  - intros m Hm. rewrite Hm in Hmax. simpl in Hmax.
    apply andb_true_iff in Hmax as [Hint Hpos]. split; [done | by apply Qltb_lt].
Qed.

Lemma coupon_rules_updated {upcase : UpperCasing} now req c :
  updateCouponSchema req = true →
  validateUpdateFields (T := CouponDocument) (mkCouponDocument (Update.couponId req) c)
    (normalized_updates (Update.updates req)) = None →
  coupon_rules c →
  coupon_rules (updated now (Update.updates req) c).
Proof.
  intros Hschema Hvalid (Hval & Hpct & Hdates & Hmin & Hmax).
  assert (Hok : ¬ merged_rules_broken c (normalized_updates (Update.updates req))).
  { rewrite <- (validateUpdateFields_broken (T := CouponDocument) (Update.couponId req)).
    rewrite Hvalid. by intros [? [=]]. }
  unfold merged_rules_broken in Hok.
  destruct (normalized_updates_other (Update.updates req))
    as (Ety & Ev & _ & _ & Efrom & Euntil & _).
  rewrite Ety, Ev, Efrom, Euntil in Hok. clear Ety Ev Efrom Euntil.
  destruct (updated_fields now (Update.updates req) c (updateCouponSchema_code req Hschema))
    as (_ & Fty & Fv & Fmin & Fmax & Ffrom & Funtil & _).
  unfold updateCouponSchema, updateCouponBase in Hschema.
  rewrite !andb_true_iff in Hschema.
  destruct Hschema as [[[[[[[_ _] _] Sval] Smin] Smax] _] _].
  unfold coupon_rules. rewrite Fty, Fv, Fmin, Fmax, Ffrom, Funtil.
  set (u := Update.updates req) in *.
  assert (Hv : (0 < match Updates.discountValue u with
                     | Some x => x | None => discountValue c end)%Q).
  { destruct (Updates.discountValue u); [by apply Qltb_lt | done]. }
  split; [exact Hv |]. split.
  { intros Hty.
    destruct (Qlt_le_dec 100
                match Updates.discountValue u with
                | Some x => x | None => discountValue c end) as [Hgt | Hle]; [| done].
    destruct Hok. left. split.
    - by destruct (Updates.discountType u).
    - by destruct (Updates.discountValue u). }
  split.
  { destruct (Z.lt_ge_cases
                match Updates.validFrom u with Some x => x | None => validFrom c end
                match Updates.validUntil u with Some x => x | None => validUntil c end)
      as [Hlt | Hge]; [done |].
    destruct Hok. right.
    destruct (Updates.validFrom u), (Updates.validUntil u); simpl; lia. }
  split.
  - intros p. destruct (Updates.minPurchase u) as [[p' |] |]; simpl in *.
    + intros [= <-]. by apply Qltb_lt.
    + done.
    + apply Hmin.
  - intros m. destruct (Updates.maxUses u) as [[m' |] |]; simpl in *.
    + intros [= <-]. apply andb_true_iff in Smax as [Hint Hpos].
      split; [done | by apply Qltb_lt].
    + done.
    + apply Hmax.
Qed.

Lemma code_normalized_updated {upcase : UpperCasing} now req c :
  updateCouponSchema req = true →
  code_normalized c →
  code_normalized (updated now (Update.updates req) c).
Proof.
  intros Hschema Hc. unfold code_normalized.
  destruct (updated_fields now (Update.updates req) c (updateCouponSchema_code req Hschema))
    as (-> & _).
  unfold updateCouponSchema, updateCouponBase in Hschema.
  rewrite !andb_true_iff in Hschema.
  destruct Hschema as [[[[[[[_ _] Scode] _] _] _] _] _].
  destruct (Updates.code (Update.updates req)) as [x |]; [| done].
  simpl in Scode. apply min1_nonempty in Scode. by exists x.
Qed.

Lemma code_normalized_created {upcase : UpperCasing} now req uid :
  createCouponSchema req = true → code_normalized (created now req uid).
Proof.
  unfold createCouponSchema, createCouponBase.
  rewrite !andb_true_iff. intros [[[[[[_ Hcode] _] _] _] _] _].
  apply min1_nonempty in Hcode. by exists (Create.code req).
Qed.

(** What a request does to the store, with what the handler checked. *)
Lemma serve_effects {upcase : UpperCasing} canCreateCoupon now r s :
  serve canCreateCoupon now r s = s
  ∨ (∃ req uid,
       r = CreateCoupon req ∧ createCouponSchema req = true
       ∧ (∀ cid d, coupons s !! cid = Some d → siteId d = Create.siteId req →
                   code d ≠ toUpperCase (Create.code req))
       ∧ serve canCreateCoupon now r s
         = set_coupons s (<[fresh (dom (coupons s)) := created now req uid]> (coupons s)))
  ∨ (∃ req c,
       r = UpdateCoupon req ∧ updateCouponSchema req = true
       ∧ coupons s !! Update.couponId req = Some c
       ∧ siteId c = Update.siteId req
       ∧ code_taken s (Update.siteId req) (code c) (Updates.code (Update.updates req)) = false
       ∧ validateUpdateFields (T := CouponDocument)
           (mkCouponDocument (Update.couponId req) c)
           (normalized_updates (Update.updates req)) = None
       ∧ serve canCreateCoupon now r s
         = set_coupons s
             (<[Update.couponId req := updated now (Update.updates req) c]> (coupons s)))
  ∨ (∃ req,
       r = DeleteCoupon req
       ∧ serve canCreateCoupon now r s
         = set_coupons s (delete (Delete.couponId req) (coupons s)))
  ∨ (∃ req c,
       r = ApplyCoupon req
       ∧ coupons s !! Apply.couponId req = Some c
       ∧ serve canCreateCoupon now r s
         = set_coupons s (<[Apply.couponId req := redeemed now c]> (coupons s))).
Proof.
  destruct r as [req | req | req | req | req | req]; simpl.
  - destruct (createCouponHandler_cases canCreateCoupon now req s)
      as [(msg & e & ->) | (uid & Hschema & _ & Hfree & ->)]; [by left |].
    right; left. by exists req, uid.
  - destruct (getCouponsHandler_store req s) as [r ->]. by left.
  - destruct (updateCouponHandler_cases now req s)
      as [(msg & e & ->) | (c & Hschema & _ & Hc & _ & Howned & Hcode & Hvalid & ->)];
      [by left |].
    do 2 right; left. by exists req, c.
  - destruct (deleteCouponHandler_cases req s) as [(msg & e & ->) | (c & _ & _ & ->)];
      [by left |].
    do 3 right; left. by exists req.
  - destruct (validateCouponHandler_store now req s) as [r ->]. by left.
  - destruct (applyCouponHandler_cases now req s)
      as [(msg & e & ->) | (c & Hc & _ & _ & _ & ->)]; [by left |].
    do 4 right. by exists req, c.
Qed.

Lemma serve_all_invariant {upcase : UpperCasing} canCreateCoupon (I : Store → Prop) :
  (∀ now r s, I s → I (serve canCreateCoupon now r s)) →
  ∀ reqs s, I s → I (serve_all canCreateCoupon reqs s).
Proof.
  intros Hstep reqs. induction reqs as [| [now r] reqs IH]; intros s Hs; [done |].
  simpl. by apply IH, Hstep.
Qed.

Lemma store_insert_forall (P : CouponData → Prop) s cid d :
  (∀ k x, coupons s !! k = Some x → P x) → P d →
  ∀ k x, coupons (set_coupons s (<[cid := d]> (coupons s))) !! k = Some x → P x.
Proof.
  intros Hs Hd k x. simpl. destruct (decide (cid = k)) as [<- | Hne].
  - rewrite lookup_insert_eq. by intros [= <-].
  - rewrite lookup_insert_ne by done. apply Hs.
Qed.

Lemma store_delete_forall (P : CouponData → Prop) s cid :
  (∀ k x, coupons s !! k = Some x → P x) →
  ∀ k x, coupons (set_coupons s (delete cid (coupons s))) !! k = Some x → P x.
Proof.
  intros Hs k x. simpl. intros [_ Hx]%lookup_delete_Some. by eapply Hs.
Qed.

Lemma serve_store_rules {upcase : UpperCasing} canCreateCoupon now r s :
  store_rules s → store_rules (serve canCreateCoupon now r s).
Proof.
  intros Hs.
  destruct (serve_effects canCreateCoupon now r s)
    as [-> | [(req & uid & -> & Hschema & _ & ->)
       | [(req & c & -> & Hschema & Hc & _ & _ & Hvalid & ->)
       | [(req & -> & ->) | (req & c & -> & Hc & ->)]]]]; [done | | | |].
  - refine (store_insert_forall coupon_rules _ _ _ Hs _). by apply coupon_rules_created.
  - refine (store_insert_forall coupon_rules _ _ _ Hs _).
    apply coupon_rules_updated; [done | done | by eapply Hs].
  - exact (store_delete_forall coupon_rules _ _ Hs).
  - refine (store_insert_forall coupon_rules _ _ _ Hs _). by apply (Hs _ _ Hc).
Qed.

Lemma serve_store_codes_normalized {upcase : UpperCasing} canCreateCoupon now r s :
  store_codes_normalized s → store_codes_normalized (serve canCreateCoupon now r s).
Proof.
  intros Hs.
  destruct (serve_effects canCreateCoupon now r s)
    as [-> | [(req & uid & -> & Hschema & _ & ->)
       | [(req & c & -> & Hschema & Hc & _ & _ & Hvalid & ->)
       | [(req & -> & ->) | (req & c & -> & Hc & ->)]]]]; [done | | | |].
  - refine (store_insert_forall code_normalized _ _ _ Hs _).
    by apply code_normalized_created.
  - refine (store_insert_forall code_normalized _ _ _ Hs _).
    apply code_normalized_updated; [done | by eapply Hs].
  - exact (store_delete_forall code_normalized _ _ Hs).
  - refine (store_insert_forall code_normalized _ _ _ Hs _). by apply (Hs _ _ Hc).
Qed.

(** X11.  The rules of the schemas hold of every stored coupon after any sequence
    of requests, if they held before: the discount value is positive and at
    most 100 for a percentage, [validFrom] is before [validUntil], a minimum
    purchase is positive and a cap on the uses is a positive whole number.
    An update cannot break them through the fields it leaves out. *)
Theorem stored_rules_are_kept {upcase : UpperCasing} canCreateCoupon reqs s :
  store_rules s → store_rules (serve_all canCreateCoupon reqs s).
Proof.
  apply (serve_all_invariant canCreateCoupon store_rules).
  intros now r s'. apply serve_store_rules.
Qed.

Lemma seed_store_rules : store_rules seed_store.
Proof.
  change (map_Forall (λ _ d, coupon_rules d) (coupons seed_store)). simpl.
  repeat apply map_Forall_insert_2; try apply map_Forall_empty.
  all: split; [vm_compute; congruence |];
    split; [intros Hty; first [discriminate Hty | vm_compute; congruence] |];
    split; [vm_compute; congruence |];
    split; [intros p [= <-]; vm_compute; congruence |];
    intros m [= <-]; split; [reflexivity | vm_compute; congruence].
Qed.

Lemma stored_rules_are_kept_witness :
  store_rules
    (serve_all unlimited_plan
       [ (date_2026_06_01,
          UpdateCoupon (Update.mk "site999" "coupon002"
            (Updates.mk None (Some percentage) (Some 50%Q) None None None None None)));
         (date_2026_06_01,
          UpdateCoupon (Update.mk "site999" "coupon002"
            (Updates.mk None None (Some 5000%Q) None None None None None))) ]
       seed_store).
Proof.
  apply (stored_rules_are_kept unlimited_plan). apply seed_store_rules.
Defined.

(** X12.  The stored codes stay normalised through any sequence of requests:
    if every stored code is the upper-case form of a code that is not
    empty, so is every code stored afterwards, whatever the upper-casing
    function.  Where upper-casing is idempotent, every stored code is then
    its own upper-case form; where it maps only the empty string to the
    empty string, no stored code is empty. *)
Theorem stored_codes_stay_normalized {upcase : UpperCasing} canCreateCoupon reqs s :
  store_codes_normalized s →
  let s' := serve_all canCreateCoupon reqs s in
  store_codes_normalized s'
  ∧ ((∀ c, toUpperCase (toUpperCase c) = toUpperCase c) →
     ∀ cid d, coupons s' !! cid = Some d → toUpperCase (code d) = code d)
  ∧ ((∀ c, toUpperCase c = "" → c = "") →
     ∀ cid d, coupons s' !! cid = Some d → code d ≠ "").
Proof.
  intros Hs s'.
  assert (Hs' : store_codes_normalized s').
  { revert Hs. apply (serve_all_invariant canCreateCoupon store_codes_normalized).
    intros now r s0. apply serve_store_codes_normalized. }
  split; [exact Hs' |]. split.
  - intros Hidem cid d Hd. destruct (Hs' cid d Hd) as (c & _ & ->). apply Hidem.
  - intros Hempty cid d Hd. destruct (Hs' cid d Hd) as (c & Hc & ->).
    intros Hup. by apply Hc, Hempty.
Qed.

Lemma seed_store_codes_normalized : store_codes_normalized seed_store.
Proof.
  change (map_Forall (λ _ d, code_normalized d) (coupons seed_store)). simpl.
  repeat apply map_Forall_insert_2; try apply map_Forall_empty.
  - by exists "bienvenido".
  - by exists "bienvenido".
  - by exists "bienvenido3".
Qed.

Lemma stored_codes_stay_normalized_witness :
  store_codes_normalized
    (serve_all unlimited_plan
       [ (date_2026_06_01,
          CreateCoupon (Create.mk "site456" "verano20" percentage 20 None None
                          date_2025_01_01 date_2026_12_31));
         (date_2026_06_01,
          UpdateCoupon (Update.mk "site999" "coupon002"
            (Updates.mk (Some "otono25") None None None None None None None))) ]
       seed_store)
  ∧ (∀ cid d,
       coupons
         (serve_all unlimited_plan
            [ (date_2026_06_01,
               CreateCoupon (Create.mk "site456" "verano20" percentage 20 None None
                               date_2025_01_01 date_2026_12_31));
              (date_2026_06_01,
               UpdateCoupon (Update.mk "site999" "coupon002"
                 (Updates.mk (Some "otono25") None None None None None None None))) ]
            seed_store) !! cid = Some d →
       toUpperCase (code d) = code d ∧ code d ≠ "").
Proof.
  destruct (stored_codes_stay_normalized unlimited_plan
              [ (date_2026_06_01,
                 CreateCoupon (Create.mk "site456" "verano20" percentage 20 None None
                                 date_2025_01_01 date_2026_12_31));
                (date_2026_06_01,
                 UpdateCoupon (Update.mk "site999" "coupon002"
                   (Updates.mk (Some "otono25") None None None None None None None))) ]
              seed_store seed_store_codes_normalized) as (Hall & Hupper & Hfull).
  split; [exact Hall |]. intros cid d Hd. split.
  - exact (Hupper toUpperCase_ascii_idempotent cid d Hd).
  - exact (Hfull toUpperCase_ascii_nonempty cid d Hd).
Defined.

Lemma code_not_taken {upcase : UpperCasing} s sid current x :
  x ≠ "" →
  code_taken s sid current (Some x) = false →
  toUpperCase x = current
  ∨ ∀ cid d, coupons s !! cid = Some d → siteId d = sid → code d ≠ toUpperCase x.
Proof.
  intros Hx. unfold code_taken, truthy_string, truthy.
  destruct (String.eqb_spec x ""); [done |]. cbn [negb].
  destruct (String.eqb_spec (toUpperCase x) current); [by left |]. cbn [negb andb].
  intros Hq%negb_false_iff. right. intros cid d Hd Hs Hc.
  assert (is_empty (docs_of_site_code s sid (toUpperCase x)) = false); [| congruence].
  apply docs_of_site_code_nonempty. eauto.
Qed.

Lemma serve_codes_unique {upcase : UpperCasing} canCreateCoupon now r s :
  codes_unique s → codes_unique (serve canCreateCoupon now r s).
Proof.
  intros Hs.
  destruct (serve_effects canCreateCoupon now r s)
    as [-> | [(req & uid & -> & Hschema & Hfree & ->)
       | [(req & c & -> & Hschema & Hc & Howned & Htaken & _ & ->)
       | [(req & -> & ->) | (req & c & -> & Hc & ->)]]]]; [done | | | |].
  - intros k1 k2 d1 d2. simpl.
    destruct (decide (fresh (dom (coupons s)) = k1)) as [<- | H1],
             (decide (fresh (dom (coupons s)) = k2)) as [<- | H2];
      rewrite ?lookup_insert_eq, ?lookup_insert_ne by done; [done | | |].
    + intros [= <-] Hd2 Hsite Hcode. simpl in *. by destruct (Hfree k2 d2).
    + intros Hd1 [= <-] Hsite Hcode. simpl in *. by destruct (Hfree k1 d1).
    + apply Hs.
  - assert (Hcode : ∀ k d, k ≠ Update.couponId req → coupons s !! k = Some d →
                    siteId d = siteId c →
                    code d ≠ code (updated now (Update.updates req) c)).
    { intros k d Hk Hd Hsite.
      destruct (updated_fields now (Update.updates req) c
                  (updateCouponSchema_code req Hschema)) as (-> & _).
      destruct (Updates.code (Update.updates req)) as [x |] eqn:Hx.
      - assert (Hne : x ≠ "").
        { unfold updateCouponSchema, updateCouponBase in Hschema.
          rewrite !andb_true_iff in Hschema.
          destruct Hschema as [[[[[[[_ _] Scode] _] _] _] _] _].
          rewrite Hx in Scode. by apply min1_nonempty. }
        destruct (code_not_taken _ _ _ _ Hne Htaken) as [-> | Hfree].
        + intros Heq. apply Hk. by apply (Hs k (Update.couponId req) d c).
        + apply (Hfree k d Hd). congruence.
      - intros Heq. apply Hk. by apply (Hs k (Update.couponId req) d c). }
    intros k1 k2 d1 d2. simpl.
    destruct (decide (Update.couponId req = k1)) as [<- | H1],
             (decide (Update.couponId req = k2)) as [<- | H2];
      rewrite ?lookup_insert_eq, ?lookup_insert_ne by done; [done | | |].
    + intros [= <-] Hd2 Hsite Heq. by destruct (Hcode k2 d2).
    + intros Hd1 [= <-] Hsite Heq. by destruct (Hcode k1 d1).
    + apply Hs.
  - intros k1 k2 d1 d2. simpl.
    intros [_ Hd1]%lookup_delete_Some [_ Hd2]%lookup_delete_Some. by apply Hs.
  - intros k1 k2 d1 d2. simpl.
    destruct (decide (Apply.couponId req = k1)) as [<- | H1],
             (decide (Apply.couponId req = k2)) as [<- | H2];
      rewrite ?lookup_insert_eq, ?lookup_insert_ne by done; [done | | |].
    + intros [= <-] Hd2. apply (Hs _ _ c d2 Hc Hd2).
    + intros Hd1 [= <-]. apply (Hs _ _ d1 c Hd1 Hc).
    + apply Hs.
Qed.

(** X13.  Served one after the other, the requests keep the codes unique per
    site: if no two coupons of a site carry the same code, none do after any
    sequence of requests.  (The same code on two sites is not excluded.) *)
Theorem codes_stay_unique_per_site {upcase : UpperCasing} canCreateCoupon reqs s :
  codes_unique s → codes_unique (serve_all canCreateCoupon reqs s).
Proof.
  apply (serve_all_invariant canCreateCoupon codes_unique).
  intros now r s'. apply serve_codes_unique.
Qed.

Lemma no_coupons_codes_unique : codes_unique (store_of ∅).
Proof. intros k1 k2 d1 d2 Hd1. simpl in Hd1. by rewrite lookup_empty in Hd1. Qed.

Lemma codes_stay_unique_per_site_witness :
  codes_unique
    (serve_all unlimited_plan
       [ (date_2026_06_01,
          CreateCoupon (Create.mk "site456" "verano20" percentage 20 None None
                          date_2025_01_01 date_2026_12_31));
         (date_2026_06_01,
          CreateCoupon (Create.mk "site456" "VERANO20" fixed 1000 None None
                          date_2025_01_01 date_2026_12_31));
         (date_2026_06_01,
          CreateCoupon (Create.mk "site999" "Verano20" fixed 1000 None None
                          date_2025_01_01 date_2026_12_31)) ]
       (store_of ∅)).
Proof.
  apply (codes_stay_unique_per_site unlimited_plan). apply no_coupons_codes_unique.
Defined.

(** X14.  No request changes the sites, and no request changes the site, the
    owner or the creation instant of a coupon it leaves in the store, nor
    lowers its count of uses. *)
Theorem requests_keep_identity {upcase : UpperCasing} canCreateCoupon now r s :
  sites (serve canCreateCoupon now r s) = sites s
  ∧ ∀ cid d d',
      coupons s !! cid = Some d →
      coupons (serve canCreateCoupon now r s) !! cid = Some d' →
      siteId d' = siteId d ∧ userId d' = userId d ∧ createdAt d' = createdAt d
      ∧ (usedCount d <= usedCount d')%Q.
Proof.
  split; [apply serve_sites |]. intros cid d d' Hd.
  destruct (serve_effects canCreateCoupon now r s)
    as [-> | [(req & uid & -> & Hschema & Hfree & ->)
       | [(req & c & -> & Hschema & Hc & _ & _ & _ & ->)
       | [(req & -> & ->) | (req & c & -> & Hc & ->)]]]]; simpl.
  - intros Hd'. assert (d' = d) as -> by congruence. repeat split; apply Qle_refl.
  - rewrite lookup_insert_ne.
    + intros Hd'. assert (d' = d) as -> by congruence. repeat split; apply Qle_refl.
    + intros Heq. apply (is_fresh (dom (coupons s))). rewrite Heq.
      apply elem_of_dom. by eexists.
  - destruct (decide (Update.couponId req = cid)) as [<- | Hne].
    + rewrite lookup_insert_eq. intros [= <-]. assert (c = d) as -> by congruence.
      repeat split. simpl. apply Qle_refl.
    + rewrite lookup_insert_ne by done. intros Hd'.
      assert (d' = d) as -> by congruence. repeat split; apply Qle_refl.
  - intros [_ Hd']%lookup_delete_Some.
    assert (d' = d) as -> by congruence. repeat split; apply Qle_refl.
  - destruct (decide (Apply.couponId req = cid)) as [<- | Hne].
    + rewrite lookup_insert_eq. intros [= <-]. assert (c = d) as -> by congruence.
      repeat split. simpl. lra.
    + rewrite lookup_insert_ne by done. intros Hd'.
      assert (d' = d) as -> by congruence. repeat split; apply Qle_refl.
Qed.

Lemma requests_keep_identity_witness :
  siteId (updated date_2026_06_01
            (Updates.mk (Some "hola") None None None None None None (Some false))
            (sample_coupon "site456" "BIENVENIDO" percentage 10 None (Some 100%Q) 0))
  = "site456".
Proof.
  destruct (requests_keep_identity unlimited_plan date_2026_06_01
              (UpdateCoupon (Update.mk "site456" "coupon001"
                 (Updates.mk (Some "hola") None None None None None None (Some false))))
              seed_store) as [_ H].
  destruct (H "coupon001"
              (sample_coupon "site456" "BIENVENIDO" percentage 10 None (Some 100%Q) 0)
              (updated date_2026_06_01
                 (Updates.mk (Some "hola") None None None None None None (Some false))
                 (sample_coupon "site456" "BIENVENIDO" percentage 10 None (Some 100%Q) 0)))
    as (Hsite & _); [reflexivity | vm_compute; reflexivity | exact Hsite].
Defined.

(** ** The shape of the answers *)

Lemma envelope_failure {T} msg c : envelope (failure (T := T) msg c).
Proof. split; split; simpl; by eauto. Qed.

Lemma envelope_success {T} (d : T) : envelope (success d).
Proof. split; split; simpl; (done || by intros [? [=]]). Qed.

(** X15.  Each of the six handlers returns, and never throws; what it returns
    carries either data or an error, never both and never neither, and an
    error code exactly when it carries an error. *)
Theorem handlers_answer_with_envelopes {upcase : UpperCasing} canCreateCoupon now s :
  (∀ req, ∃ r s', createCouponHandler canCreateCoupon now req s = (Returned r, s')
                  ∧ envelope r)
  ∧ (∀ req, ∃ r s', getCouponsHandler req s = (Returned r, s') ∧ envelope r)
  ∧ (∀ req, ∃ r s', updateCouponHandler now req s = (Returned r, s') ∧ envelope r)
  ∧ (∀ req, ∃ r s', deleteCouponHandler req s = (Returned r, s') ∧ envelope r)
  ∧ (∀ req, ∃ r s', validateCouponHandler now req s = (Returned r, s') ∧ envelope r)
  ∧ (∀ req, ∃ r s', applyCouponHandler now req s = (Returned r, s') ∧ envelope r).
Proof.
  repeat split; intros req.
  - destruct (createCouponHandler_cases canCreateCoupon now req s)
      as [(msg & e & ->) | (uid & _ & _ & _ & ->)]; do 2 eexists;
      (split; [done |]); [apply envelope_failure | apply envelope_success].
  - destruct (getCouponsHandler_cases req s) as [(msg & e & ->) | (_ & _ & _ & ->)];
      do 2 eexists; (split; [done |]); [apply envelope_failure | apply envelope_success].
  - destruct (updateCouponHandler_cases now req s)
      as [(msg & e & ->) | (c & _ & _ & _ & _ & _ & _ & _ & ->)]; do 2 eexists;
      (split; [done |]); [apply envelope_failure | apply envelope_success].
  - destruct (deleteCouponHandler_cases req s) as [(msg & e & ->) | (c & _ & _ & ->)];
      do 2 eexists; (split; [done |]); [apply envelope_failure | apply envelope_success].
  - destruct (validateCouponHandler_cases now req s)
      as [(msg & e & ->) | (cid & d & _ & _ & _ & _ & _ & _ & _ & ->)]; do 2 eexists;
      (split; [done |]); [apply envelope_failure | apply envelope_success].
  - destruct (applyCouponHandler_cases now req s)
      as [(msg & e & ->) | (c & _ & _ & _ & _ & ->)]; do 2 eexists;
      (split; [done |]); [apply envelope_failure | apply envelope_success].
Qed.

(** ** createCoupon, and what follows it *)

Lemma created_stored {upcase : UpperCasing} canCreateCoupon now req s doc :
  fst (createCouponHandler canCreateCoupon now req s) = Returned (success doc) →
  ∃ uid,
    createCouponSchema req = true
    ∧ truthy_string (sites s !! Create.siteId req ≫= Site.userId) = Some uid
    ∧ (∀ cid d, coupons s !! cid = Some d → siteId d = Create.siteId req →
                code d ≠ toUpperCase (Create.code req))
    ∧ doc = mkCouponDocument (fresh (dom (coupons s))) (created now req uid)
    ∧ snd (createCouponHandler canCreateCoupon now req s)
      = set_coupons s (<[fresh (dom (coupons s)) := created now req uid]> (coupons s)).
Proof.
  intros Hr.
  destruct (createCouponHandler_cases canCreateCoupon now req s)
    as [(msg & e & H) | (uid & Hschema & Hsite & Hfree & H)];
    rewrite H in Hr |- *; simpl in Hr; [done |].
  injection Hr as <-. by exists uid.
Qed.

(** X16.  A coupon [createCoupon] answers with is stored as answered, under an
    identifier that was not in use, for the site of the request and the
    owner of that site, with the upper-case form of the code of the request
    (whatever the upper-casing function), the fields of the request, no
    uses, active; the coupons that were there are unchanged. *)
Theorem createCoupon_stores_what_it_answers {upcase : UpperCasing} canCreateCoupon now req s doc :
  fst (createCouponHandler canCreateCoupon now req s) = Returned (success doc) →
  let s' := snd (createCouponHandler canCreateCoupon now req s) in
  coupons s !! id doc = None
  ∧ coupons s' !! id doc = Some (fields doc)
  ∧ (∀ other, other ≠ id doc → coupons s' !! other = coupons s !! other)
  ∧ siteId (fields doc) = Create.siteId req
  ∧ (sites s !! Create.siteId req ≫= Site.userId) = userId (fields doc)
  ∧ code (fields doc) = toUpperCase (Create.code req)
  ∧ discountType (fields doc) = Create.discountType req
  ∧ discountValue (fields doc) = Create.discountValue req
  ∧ minPurchase (fields doc) = Create.minPurchase req
  ∧ maxUses (fields doc) = Create.maxUses req
  ∧ validFrom (fields doc) = Create.validFrom req
  ∧ validUntil (fields doc) = Create.validUntil req
  ∧ usedCount (fields doc) = 0%Q
  ∧ isActive (fields doc) = true
  ∧ createdAt (fields doc) = Some now
  ∧ updatedAt (fields doc) = Some now.
Proof.
  intros Hr s'.
  destruct (created_stored _ _ _ _ _ Hr) as (uid & _ & Hsite & _ & -> & Hs').
  subst s'. rewrite Hs'. simpl.
  split. { apply not_elem_of_dom, is_fresh. }
  split; [apply lookup_insert_eq |].
  split; [intros other Hother; by apply lookup_insert_ne |].
  split; [done |]. split; [| done].
  unfold truthy_string in Hsite. by destruct (truthy _).
Qed.

Lemma createCoupon_stores_what_it_answers_witness :
  coupons seed_store !! "0" = None
  ∧ code (created date_2026_06_01
            (Create.mk "site456" "verano20" percentage 20 None (Some 5%Q)
               date_2025_01_01 date_2026_12_31) "user123") = toUpperCase "verano20".
Proof.
  destruct (createCoupon_stores_what_it_answers unlimited_plan date_2026_06_01
              (Create.mk "site456" "verano20" percentage 20 None (Some 5%Q)
                 date_2025_01_01 date_2026_12_31)
              seed_store
              (mkCouponDocument "0"
                 (created date_2026_06_01
                    (Create.mk "site456" "verano20" percentage 20 None (Some 5%Q)
                       date_2025_01_01 date_2026_12_31) "user123")))
    as (Hnew & _ & _ & _ & _ & Hcode & _).
  - vm_compute. reflexivity.
  - split; [exact Hnew | exact Hcode].
Defined.

(** X17.  A coupon just created is found: [getCoupons] for its site lists it as
    it was answered, and [validateCoupon] for its site and any code that
    has the upper-case form of its code resolves to it and to no other
    coupon, whatever the upper-casing function. *)
Theorem created_coupon_is_found {upcase : UpperCasing} canCreateCoupon now req s doc :
  fst (createCouponHandler canCreateCoupon now req s) = Returned (success doc) →
  let s' := snd (createCouponHandler canCreateCoupon now req s) in
  (∀ docs,
     fst (getCouponsHandler (Get.mk (Create.siteId req)) s') = Returned (success docs) →
     doc ∈ docs)
  ∧ (∀ now' c cartTotal v,
       toUpperCase c = toUpperCase (Create.code req) →
       fst (validateCouponHandler now'
              (Validate.mk (Create.siteId req) c cartTotal) s') = Returned (success v) →
       v_couponId v = id doc).
Proof.
  intros Hr s'.
  destruct (created_stored _ _ _ _ _ Hr) as (uid & _ & _ & Hfree & -> & Hs').
  subst s'. rewrite Hs'. split.
  - intros docs Hdocs.
    apply (getCouponsHandler_elem _ _ _ _ Hdocs). simpl.
    split; [apply lookup_insert_eq | done].
  - intros now' c cartTotal v Hcase Hv.
    destruct (validateCouponHandler_cases now' (Validate.mk (Create.siteId req) c cartTotal)
                (set_coupons s
                   (<[fresh (dom (coupons s)) := created now req uid]> (coupons s))))
      as [(msg & e & H) | (cid & d & _ & _ & Hd & _ & Hsite & Hcode & _ & H)];
      rewrite H in Hv; simpl in Hv; [done |].
    injection Hv as <-.
    simpl in *. destruct (decide (fresh (dom (coupons s)) = cid)) as [| Hne];
      [done |].
    rewrite lookup_insert_ne in Hd by done.
    destruct (Hfree _ _ Hd Hsite). congruence.
Qed.

Lemma created_coupon_is_found_witness :
  v_couponId
    {| v_valid := true; v_couponId := "0"; v_code := "VERANO20";
       v_discountType := percentage; v_discountValue := 20;
       v_discountAmount := calculateDiscount percentage 20 50000;
       v_finalTotal := Math_max (50000 - calculateDiscount percentage 20 50000) 0 |}
  = id (mkCouponDocument "0"
          (created date_2026_06_01
             (Create.mk "site456" "verano20" percentage 20 None (Some 5%Q)
                date_2025_01_01 date_2026_12_31) "user123")).
Proof.
  destruct (created_coupon_is_found unlimited_plan date_2026_06_01
              (Create.mk "site456" "verano20" percentage 20 None (Some 5%Q)
                 date_2025_01_01 date_2026_12_31)
              seed_store
              (mkCouponDocument "0"
                 (created date_2026_06_01
                    (Create.mk "site456" "verano20" percentage 20 None (Some 5%Q)
                       date_2025_01_01 date_2026_12_31) "user123")))
    as [_ H].
  - vm_compute. reflexivity.
  - apply (H date_2026_06_01 "Verano20" 50000%Q); [reflexivity |].
    vm_compute. reflexivity.
Defined.

(** X18.  After a coupon is created, a second [createCoupon] for the same site
    with a code of the same upper-case form is answered [DUPLICATE_CODE]
    and writes nothing, when it is valid and the plan of the owner still
    has room, whatever the upper-casing function. *)
Theorem createCoupon_twice_is_duplicate {upcase : UpperCasing}
    canCreateCoupon now req s doc now' req' uid lc :
  fst (createCouponHandler canCreateCoupon now req s) = Returned (success doc) →
  let s' := snd (createCouponHandler canCreateCoupon now req s) in
  createCouponSchema req' = true →
  Create.siteId req' = Create.siteId req →
  toUpperCase (Create.code req') = toUpperCase (Create.code req) →
  userId (fields doc) = Some uid →
  canCreateCoupon uid (Create.siteId req') s' = Returned lc →
  allowed lc = true →
  createCouponHandler canCreateCoupon now' req' s'
  = (Returned (failure (CodigoDuplicado (toUpperCase (Create.code req))) DUPLICATE_CODE), s').
Proof.
  intros Hr s' Hschema' Hsite' Hcode' Huid Hlc Hallowed.
  destruct (created_stored _ _ _ _ _ Hr) as (uid0 & _ & Hsite & _ & -> & Hs').
  simpl in Huid. injection Huid as ->.
  assert (Hsites : sites s' = sites s) by (subst s'; by rewrite Hs').
  rewrite (createCouponHandler_loaded _ now' req' s' uid lc); try done.
  - assert (Hq : is_empty (docs_of_site_code s' (Create.siteId req')
                             (toUpperCase (Create.code req'))) = false).
    { apply docs_of_site_code_nonempty.
      exists (fresh (dom (coupons s))), (created now req uid).
      subst s'. rewrite Hs'. simpl. rewrite lookup_insert_eq. done. }
    rewrite Hq. cbn [negb]. by rewrite Hcode'.
  - by rewrite Hsites, Hsite'.
Qed.

Lemma createCoupon_twice_is_duplicate_witness :
  createCouponHandler unlimited_plan date_2026_06_01
    (Create.mk "site456" "VERANO20" fixed 1000 None None date_2025_01_01 date_2026_12_31)
    (snd (createCouponHandler unlimited_plan date_2026_06_01
            (Create.mk "site456" "verano20" percentage 20 None (Some 5%Q)
               date_2025_01_01 date_2026_12_31) seed_store))
  = (Returned (failure (CodigoDuplicado (toUpperCase "verano20")) DUPLICATE_CODE),
     snd (createCouponHandler unlimited_plan date_2026_06_01
            (Create.mk "site456" "verano20" percentage 20 None (Some 5%Q)
               date_2025_01_01 date_2026_12_31) seed_store)).
Proof.
  apply (createCoupon_twice_is_duplicate unlimited_plan date_2026_06_01
           (Create.mk "site456" "verano20" percentage 20 None (Some 5%Q)
              date_2025_01_01 date_2026_12_31)
           seed_store
           (mkCouponDocument "0"
              (created date_2026_06_01
                 (Create.mk "site456" "verano20" percentage 20 None (Some 5%Q)
                    date_2025_01_01 date_2026_12_31) "user123"))
           date_2026_06_01
           (Create.mk "site456" "VERANO20" fixed 1000 None None
              date_2025_01_01 date_2026_12_31)
           "user123" (mkLimitCheck true 0 0)).
  - vm_compute. reflexivity.
  - reflexivity.
  - reflexivity.
  - reflexivity.
  - reflexivity.
  - reflexivity.
  - reflexivity.
Defined.

(** ** applyCoupon *)

(** X19.  A redemption that succeeds changes, in the whole store, the count of
    uses and the update instant of the coupon redeemed and nothing else;
    the answer repeats the order and the coupon of the request and gives
    the count of uses that is stored. *)
Theorem redemption_changes_the_counter_only now req s a :
  fst (applyCouponHandler now req s) = Returned (success a) →
  let s' := snd (applyCouponHandler now req s) in
  ∃ c c',
    coupons s !! Apply.couponId req = Some c
    ∧ coupons s' !! Apply.couponId req = Some c'
    ∧ usedCount c' = (usedCount c + 1)%Q
    ∧ updatedAt c' = Some now
    ∧ siteId c' = siteId c ∧ userId c' = userId c ∧ code c' = code c
    ∧ discountType c' = discountType c ∧ discountValue c' = discountValue c
    ∧ minPurchase c' = minPurchase c ∧ maxUses c' = maxUses c
    ∧ validFrom c' = validFrom c ∧ validUntil c' = validUntil c
    ∧ isActive c' = isActive c ∧ createdAt c' = createdAt c
    ∧ (∀ other, other ≠ Apply.couponId req → coupons s' !! other = coupons s !! other)
    ∧ sites s' = sites s
    ∧ a_couponId a = Apply.couponId req
    ∧ a_orderId a = Apply.orderId req
    ∧ a_usedCount a = usedCount c'.
Proof.
  intros Hr s'. subst s'.
  destruct (applyCouponHandler_cases now req s)
    as [(msg & e & H) | (c & Hc & _ & _ & _ & H)]; rewrite H in Hr |- *;
    simpl in Hr; [done |].
  injection Hr as <-. exists c, (redeemed now c). simpl.
  split; [done |]. split; [apply lookup_insert_eq |].
  do 13 (split; [done |]).
  split; [intros other Hother; by apply lookup_insert_ne |]. done.
Qed.

Lemma redemption_changes_the_counter_only_witness :
  ∃ c', coupons (snd (applyCouponHandler date_2026_06_01
                        (Apply.mk "site456" "coupon001" "order-001" 50000) seed_store))
          !! "coupon001" = Some c'
        ∧ maxUses c' = Some 100%Q ∧ isActive c' = true.
Proof.
  destruct (redemption_changes_the_counter_only date_2026_06_01
              (Apply.mk "site456" "coupon001" "order-001" 50000) seed_store
              {| a_couponId := "coupon001"; a_orderId := "order-001";
                 a_discountType := percentage; a_discountValue := 10;
                 a_discountAmount := 5000; a_finalTotal := 45000; a_usedCount := 1 |})
    as (c & c' & Hc & Hc' & _ & _ & _ & _ & _ & _ & _ & _ & Hmax & _ & _ & Hact & _).
  - vm_compute. reflexivity.
  - exists c'. split; [exact Hc' |].
    assert (E : c = sample_coupon "site456" "BIENVENIDO" percentage 10 None (Some 100%Q) 0).
    { vm_compute in Hc. by injection Hc as <-. }
    rewrite Hmax, Hact, E. by split.
Defined.





(** ** updateCoupon *)

Lemma updated_idempotent {upcase : UpperCasing}
    now u c : updated now u (updated now u c) = updated now u c.
Proof.
  unfold updated, write_fields, buildCleanUpdates. simpl.
  set (u' := normalized_updates u).
  f_equal.
  - by destruct (Updates.code u').
  - by destruct (Updates.discountType u').
  - by destruct (Updates.discountValue u').
  - by destruct (Updates.minPurchase u').
  - by destruct (Updates.maxUses u').
  - by destruct (Updates.validFrom u').
  - by destruct (Updates.validUntil u').
  - by destruct (Updates.isActive u').
Qed.

Lemma validateUpdateFields_updated {upcase : UpperCasing} {T} now cid u c :
  validateUpdateFields (T := T) (mkCouponDocument cid (updated now u c)) (normalized_updates u)
  = validateUpdateFields (T := T) (mkCouponDocument cid c) (normalized_updates u).
Proof.
  unfold validateUpdateFields, updated, write_fields, buildCleanUpdates. simpl.
  set (u' := normalized_updates u).
  by destruct (Updates.discountType u'), (Updates.discountValue u'),
    (Updates.validFrom u'), (Updates.validUntil u').
Qed.

(** X21.  An update that succeeded can be repeated: the same request at the same
    instant, on the store the first one left, gets the same answer and
    leaves that store as it is.  In particular the code the coupon now has
    is not taken for a duplicate of itself. *)
Theorem updateCoupon_is_idempotent {upcase : UpperCasing} now req s doc :
  fst (updateCouponHandler now req s) = Returned (success doc) →
  let s' := snd (updateCouponHandler now req s) in
  updateCouponHandler now req s' = (Returned (success doc), s').
Proof.
  intros Hr s'. subst s'.
  destruct (updateCouponHandler_cases now req s)
    as [(msg & e & H) | (c & Hschema & Hsite & Hc & Hcomplete & Howned & _ & Hvalid & H)];
    rewrite H in Hr |- *; simpl in Hr; [done |].
  injection Hr as <-. simpl.
  set (c' := updated now (Update.updates req) c).
  set (s' := set_coupons s (<[Update.couponId req := c']> (coupons s))).
  assert (Hc' : coupons s' !! Update.couponId req = Some c') by apply lookup_insert_eq.
  assert (Hsite' : site_found s' (Update.siteId req)) by done.
  rewrite (updateCouponHandler_loaded now req s' c' Hschema Hsite' Hc'
             (updated_complete _ _ _ Hcomplete) Howned).
  assert (Hstore : set_coupons s'
                     (<[Update.couponId req := updated now (Update.updates req) c']>
                        (coupons s')) = s').
  { unfold s', c'. rewrite updated_idempotent. unfold set_coupons. simpl.
    by rewrite insert_insert_eq. }
  cbv zeta. rewrite Hstore. clear Hstore.
  unfold c' at 2 3 4 5.
  rewrite validateUpdateFields_updated, Hvalid, !updated_idempotent. fold c'.
  destruct (truthy_string (Updates.code (Update.updates req))) as [newcode |] eqn:Hnew;
    [| done].
  assert (Hcode : code c' = toUpperCase newcode).
  { destruct (updated_fields now (Update.updates req) c
                (updateCouponSchema_code req Hschema)) as (Hcode & _).
    unfold c'. rewrite Hcode. unfold truthy_string in Hnew.
    destruct (truthy _); [| done]. by rewrite Hnew. }
  unfold code_taken. rewrite Hnew, Hcode, String.eqb_refl. done.
Qed.

Lemma updateCoupon_is_idempotent_witness :
  updateCouponHandler date_2026_06_01
    (Update.mk "site456" "coupon001"
       (Updates.mk (Some "hola") None None None None None None None))
    (snd (updateCouponHandler date_2026_06_01
            (Update.mk "site456" "coupon001"
               (Updates.mk (Some "hola") None None None None None None None))
            seed_store))
  = (Returned (success
       (mkCouponDocument "coupon001"
          (updated date_2026_06_01
             (Updates.mk (Some "hola") None None None None None None None)
             (sample_coupon "site456" "BIENVENIDO" percentage 10 None (Some 100%Q) 0)))),
     snd (updateCouponHandler date_2026_06_01
            (Update.mk "site456" "coupon001"
               (Updates.mk (Some "hola") None None None None None None None))
            seed_store)).
Proof.
  apply (updateCoupon_is_idempotent date_2026_06_01
           (Update.mk "site456" "coupon001"
              (Updates.mk (Some "hola") None None None None None None None))
           seed_store).
  vm_compute. reflexivity.
Defined.

(** X22.  Deactivating a coupon stops its redemption: after an update that sets
    [isActive] to false succeeds, a redemption of that coupon through its
    site is answered [COUPON_INACTIVE], whatever its dates, uses and
    minimum purchase, and writes nothing. *)
Theorem deactivated_coupon_is_refused {upcase : UpperCasing} now req s doc now' areq :
  fst (updateCouponHandler now req s) = Returned (success doc) →
  Updates.isActive (Update.updates req) = Some false →
  let s' := snd (updateCouponHandler now req s) in
  applyCouponSchema areq = true →
  Apply.siteId areq = Update.siteId req →
  Apply.couponId areq = Update.couponId req →
  applyCouponHandler now' areq s' = (Returned (failure CuponNoActivo COUPON_INACTIVE), s').
Proof.
  intros Hr Hoff s' Hschema Hsite Hid. subst s'.
  destruct (updateCouponHandler_cases now req s)
    as [(msg & e & H) | (c & _ & Hfound & Hc & Hcomplete & Howned & _ & _ & H)];
    rewrite H in Hr |- *; simpl in Hr; [done |].
  simpl.
  rewrite (applyCouponHandler_loaded now' areq _ (updated now (Update.updates req) c)).
  - simpl. rewrite Howned, Hsite, String.eqb_refl. cbn [negb].
    unfold validateCouponEligibility. simpl.
    destruct (normalized_updates_other (Update.updates req)) as (_ & _ & _ & _ & _ & _ & ->).
    by rewrite Hoff.
  - done.
  - by rewrite Hsite.
  - rewrite Hid. apply lookup_insert_eq.
  - by apply updated_complete.
Qed.

Lemma deactivated_coupon_is_refused_witness :
  applyCouponHandler date_2026_06_01
    (Apply.mk "site456" "coupon001" "order-001" 50000)
    (snd (updateCouponHandler date_2026_06_01
            (Update.mk "site456" "coupon001"
               (Updates.mk None None None None None None None (Some false)))
            seed_store))
  = (Returned (failure CuponNoActivo COUPON_INACTIVE),
     snd (updateCouponHandler date_2026_06_01
            (Update.mk "site456" "coupon001"
               (Updates.mk None None None None None None None (Some false)))
            seed_store)).
Proof.
  apply (deactivated_coupon_is_refused date_2026_06_01
           (Update.mk "site456" "coupon001"
              (Updates.mk None None None None None None None (Some false)))
           seed_store
           (mkCouponDocument "coupon001"
              (updated date_2026_06_01
                 (Updates.mk None None None None None None None (Some false))
                 (sample_coupon "site456" "BIENVENIDO" percentage 10 None (Some 100%Q) 0)))).
  - vm_compute. reflexivity.
  - reflexivity.
  - reflexivity.
  - reflexivity.
  - reflexivity.
Defined.

(** ** The cart total *)






(** ** Counting redemptions *)

Lemma validateCouponEligibility_passes {T} now coupon cartTotal :
  isActive (fields coupon) = true →
  (validFrom (fields coupon) ≤ now ≤ validUntil (fields coupon))%Z →
  (∀ m, maxUses (fields coupon) = Some m → (usedCount (fields coupon) < m)%Q) →
  (∀ p, minPurchase (fields coupon) = Some p → (p <= cartTotal)%Q) →
  validateCouponEligibility (T := T) now coupon cartTotal = None.
Proof.
  intros Hactive [Hfrom Huntil] Hcap Hmin. unfold validateCouponEligibility.
  rewrite Hactive. cbn [negb].
  destruct (Z.ltb_spec now (validFrom (fields coupon))); [lia |].
  destruct (Z.gtb_spec now (validUntil (fields coupon))); [lia |].
  destruct (maxUses (fields coupon)) as [m |].
  - specialize (Hcap m eq_refl). apply Qgeb_lt in Hcap. rewrite Hcap.
    destruct (minPurchase (fields coupon)) as [p |]; [| done].
    specialize (Hmin p eq_refl). apply Qltb_ge in Hmin. by rewrite Hmin.
  - destruct (minPurchase (fields coupon)) as [p |]; [| done].
    specialize (Hmin p eq_refl). apply Qltb_ge in Hmin. by rewrite Hmin.
Qed.

Lemma redeemable_served sid cid c nr s :
  site_found s sid → coupons s !! cid = Some c → complete c → siteId c = sid →
  isActive c = true →
  redeemable sid cid c nr →
  (∀ m, maxUses c = Some m → (usedCount c < m)%Q) →
  snd (applyCouponHandler nr.1 nr.2 s)
  = set_coupons s (<[cid := redeemed nr.1 c]> (coupons s)).
Proof.
  intros Hsite Hc Hcomplete Hsid Hactive (Hschema & Hs & Hid & Hdates & Hmin) Hcap.
  subst sid cid. rewrite <- Hs in Hsite.
  rewrite (applyCouponHandler_loaded nr.1 nr.2 s c Hschema Hsite Hc Hcomplete).
  rewrite Hs, String.eqb_refl. cbn [negb].
  by rewrite validateCouponEligibility_passes.
Qed.

Lemma redemptions_counted {upcase : UpperCasing} canCreateCoupon sid cid reqs : ∀ c s,
  site_found s sid → coupons s !! cid = Some c → complete c → siteId c = sid →
  isActive c = true →
  Forall (redeemable sid cid c) reqs →
  (∀ m, maxUses c = Some m → (usedCount c + inject_Z (Z.of_nat (length reqs)) <= m)%Q) →
  ∃ c', coupons (serve_all canCreateCoupon (redemptions reqs) s) !! cid = Some c'
      ∧ site_found (serve_all canCreateCoupon (redemptions reqs) s) sid
      ∧ complete c'
      ∧ siteId c' = sid
      ∧ isActive c' = true
      ∧ validFrom c' = validFrom c
      ∧ validUntil c' = validUntil c
      ∧ minPurchase c' = minPurchase c
      ∧ maxUses c' = maxUses c
      ∧ (usedCount c' == usedCount c + inject_Z (Z.of_nat (length reqs)))%Q.
Proof.
  induction reqs as [| nr reqs IH]; intros c s Hsite Hc Hcomplete Hsid Hactive Hreqs Hcap.
  - exists c. cbn [redemptions map serve_all length]. do 9 (split; [done |]).
    change (inject_Z (Z.of_nat 0)) with 0%Q. lra.
  - apply Forall_cons in Hreqs as [Hnr Hreqs].
    assert (Hlen : (inject_Z (Z.of_nat (length (nr :: reqs))) == inject_Z (Z.of_nat (length reqs)) + 1)%Q).
    { cbn [length]. rewrite Nat2Z.inj_succ, <- Z.add_1_r, inject_Z_plus. reflexivity. }
    assert (Hpos : (0 <= inject_Z (Z.of_nat (length reqs)))%Q).
    { change 0%Q with (inject_Z 0). rewrite <- Zle_Qle. lia. }
    cbn [redemptions map serve_all serve fst snd].
    rewrite (redeemable_served sid cid c nr s Hsite Hc Hcomplete Hsid Hactive Hnr).
    2: { intros m Hm. specialize (Hcap m Hm). rewrite Hlen in Hcap. lra. }
    destruct (IH (redeemed nr.1 c)
                (set_coupons s (<[cid := redeemed nr.1 c]> (coupons s))))
      as (c' & Hc' & Hsite' & Hcomplete' & Hsid' & Hactive' & Hfrom & Huntil & Hmin
            & Hmax & Hused).
    + done.
    + apply lookup_insert_eq.
    + destruct Hcomplete as (? & ? & ?). by repeat split.
    + done.
    + done.
    + eapply Forall_impl; [exact Hreqs |]. intros nr' H. exact H.
    + intros m Hm. simpl in Hm |- *. specialize (Hcap m Hm). rewrite Hlen in Hcap. lra.
    + exists c'. do 9 (split; [done |]). rewrite Hused, Hlen. simpl. lra.
Qed.

(** X24.  Redemptions are counted one by one.  A complete, active coupon of a
    site that has room for [n] more uses accepts [n] redemptions in a row,
    each within its dates and reaching its minimum purchase: afterwards the
    stored count is the old one plus [n].  If that exhausts [maxUses], the
    next such redemption is answered [COUPON_MAX_USES] and writes nothing. *)
Theorem redemptions_are_counted {upcase : UpperCasing} canCreateCoupon sid cid c reqs s :
  site_found s sid →
  coupons s !! cid = Some c →
  complete c →
  siteId c = sid →
  isActive c = true →
  Forall (redeemable sid cid c) reqs →
  (∀ m, maxUses c = Some m → (usedCount c + inject_Z (Z.of_nat (length reqs)) <= m)%Q) →
  let s' := serve_all canCreateCoupon (redemptions reqs) s in
  (∃ c', coupons s' !! cid = Some c'
       ∧ (usedCount c' == usedCount c + inject_Z (Z.of_nat (length reqs)))%Q
       ∧ maxUses c' = maxUses c)
  ∧ (∀ m nr, maxUses c = Some m →
       (usedCount c + inject_Z (Z.of_nat (length reqs)) == m)%Q →
       redeemable sid cid c nr →
       applyCouponHandler nr.1 nr.2 s'
       = (Returned (failure CuponSinUsos COUPON_MAX_USES), s')).
Proof.
  intros Hsite Hc Hcomplete Hsid Hactive Hreqs Hcap s'.
  destruct (redemptions_counted canCreateCoupon sid cid reqs c s
              Hsite Hc Hcomplete Hsid Hactive Hreqs Hcap)
    as (c' & Hc' & Hsite' & Hcomplete' & Hsid' & Hactive' & Hfrom & Huntil & Hmin
          & Hmax & Hused).
  fold s' in Hc', Hsite'. split.
  - by exists c'.
  - intros m nr Hm Hfull (Hschema & Hs & Hid & Hdates & _).
    subst cid. rewrite <- Hs in Hsite'.
    rewrite (applyCouponHandler_loaded nr.1 nr.2 s' c' Hschema Hsite' Hc' Hcomplete').
    rewrite Hsid', Hs, String.eqb_refl. cbn [negb].
    rewrite (at_cap_refused nr.1 (mkCouponDocument (Apply.couponId nr.2) c')
               (Apply.cartTotal nr.2) m); simpl; [done | done | | by rewrite Hmax |].
    + by rewrite Hfrom, Huntil.
    + rewrite Hused, Hfull. lra.
Qed.

Lemma redemptions_are_counted_witness :
  ∃ c', coupons
          (serve_all unlimited_plan
             (redemptions
                [(date_2026_06_01, Apply.mk "site456" "coupon004" "order-1" 3000)])
             single_use_store) !! "coupon004" = Some c'
      ∧ (usedCount c' == 0 + inject_Z (Z.of_nat 1))%Q
      ∧ maxUses c' = Some 1%Q.
Proof.
  refine (proj1 (redemptions_are_counted unlimited_plan "site456" "coupon004"
                   (sample_coupon "site456" "UNUSO" fixed 1000 None (Some 1%Q) 0)
                   [(date_2026_06_01, Apply.mk "site456" "coupon004" "order-1" 3000)]
                   single_use_store _ _ _ _ _ _ _)).
  - exists (Site.mk (Some "user123")), "user123". by vm_compute.
  - by vm_compute.
  - unfold complete. simpl. by repeat split.
  - reflexivity.
  - reflexivity.
  - repeat constructor; by vm_compute.
  - intros m [= <-]. by vm_compute.
Defined.

(** ** The documents in the answers *)

(** X25.  Every coupon document that [createCoupon], [getCoupons] or
    [updateCoupon] hands out in a success answer has all the required
    fields, belongs to the site of the request, and is the document the
    store holds under its id once the request is done. *)
Theorem answered_documents_are_stored {upcase : UpperCasing} canCreateCoupon now s doc :
  (∀ req,
     fst (createCouponHandler canCreateCoupon now req s) = Returned (success doc) →
     complete (fields doc)
     ∧ siteId (fields doc) = Create.siteId req
     ∧ coupons (snd (createCouponHandler canCreateCoupon now req s)) !! id doc
       = Some (fields doc))
  ∧ (∀ req docs,
       fst (getCouponsHandler req s) = Returned (success docs) →
       doc ∈ docs →
       complete (fields doc)
       ∧ siteId (fields doc) = Get.siteId req
       ∧ coupons (snd (getCouponsHandler req s)) !! id doc = Some (fields doc))
  ∧ (∀ req,
       fst (updateCouponHandler now req s) = Returned (success doc) →
       complete (fields doc)
       ∧ siteId (fields doc) = Update.siteId req
       ∧ id doc = Update.couponId req
       ∧ coupons (snd (updateCouponHandler now req s)) !! id doc = Some (fields doc)).
Proof.
  split; [| split].
  - intros req Hr.
    destruct (createCouponHandler_cases canCreateCoupon now req s)
      as [(msg & e & H) | (uid & _ & _ & _ & H)]; rewrite H in Hr |- *; simpl in Hr;
      [done |].
    injection Hr as <-. simpl. split; [| split; [done |]].
    + unfold complete, created. simpl. by repeat split.
    + apply lookup_insert_eq.
  - intros req docs Hr Hin.
    destruct (getCouponsHandler_cases req s) as [(msg & e & H) | (_ & _ & Hcomplete & H)];
      rewrite H in Hr |- *; simpl in Hr; [done |].
    injection Hr as <-. simpl.
    apply list_elem_of_In, in_map_iff in Hin as ([cid d] & <- & Hin).
    apply filter_In in Hin as [Hin HP].
    apply list_elem_of_In, elem_of_map_to_list in Hin. simpl in HP |- *.
    apply String.eqb_eq in HP. split; [by eapply Hcomplete | done].
  - intros req Hr.
    destruct (updateCouponHandler_cases now req s)
      as [(msg & e & H) | (c & _ & _ & _ & Hcomplete & Howned & _ & _ & H)];
      rewrite H in Hr |- *; simpl in Hr; [done |].
    injection Hr as <-. simpl. split; [by apply updated_complete |].
    split; [exact Howned |]. split; [done |]. apply lookup_insert_eq.
Qed.

Lemma answered_documents_are_stored_witness :
  complete
    (updated date_2026_06_01 (Updates.mk None None (Some 15%Q) None None None None None)
       (sample_coupon "site456" "BIENVENIDO" percentage 10 None (Some 100%Q) 0))
  ∧ "site456" = "site456"
  ∧ "coupon001" = "coupon001"
  ∧ coupons
      (snd (updateCouponHandler date_2026_06_01
              (Update.mk "site456" "coupon001"
                 (Updates.mk None None (Some 15%Q) None None None None None))
              seed_store)) !! "coupon001"
    = Some
        (updated date_2026_06_01 (Updates.mk None None (Some 15%Q) None None None None None)
           (sample_coupon "site456" "BIENVENIDO" percentage 10 None (Some 100%Q) 0)).
Proof.
  destruct (answered_documents_are_stored unlimited_plan date_2026_06_01 seed_store
              (mkCouponDocument "coupon001"
                 (updated date_2026_06_01
                    (Updates.mk None None (Some 15%Q) None None None None None)
                    (sample_coupon "site456" "BIENVENIDO" percentage 10 None
                       (Some 100%Q) 0))))
    as (_ & _ & H).
  apply (H (Update.mk "site456" "coupon001"
              (Updates.mk None None (Some 15%Q) None None None None None))).
  vm_compute. reflexivity.
Defined.

(** ** The plan limit of createCoupon *)

(** X26.  The plan limit is asked for the owner of the site, after the input and
    the site are checked and before the code is looked up: when it refuses,
    a valid request on an existing site is answered [COUPON_LIMIT_REACHED]
    with the counts of the verdict, whether or not the code is taken; when
    the check itself fails, the answer is [INTERNAL_ERROR].  Neither
    writes. *)
Theorem plan_limit_stops_creation {upcase : UpperCasing} canCreateCoupon now req s site uid :
  createCouponSchema req = true →
  sites s !! Create.siteId req = Some site →
  Site.userId site = Some uid →
  uid ≠ "" →
  (∀ lc, canCreateCoupon uid (Create.siteId req) s = Returned lc →
         allowed lc = false →
         createCouponHandler canCreateCoupon now req s
         = (Returned (failure (LimiteDeCupones (current lc) (limit lc))
                        COUPON_LIMIT_REACHED), s))
  ∧ (canCreateCoupon uid (Create.siteId req) s = Thrown →
     createCouponHandler canCreateCoupon now req s
     = (Returned (failure ErrorInterno INTERNAL_ERROR), s)).
Proof.
  intros Hschema Hsite Huid Hne.
  assert (Hfound : sites s !! Create.siteId req ≫= Site.userId = Some uid).
  { by rewrite Hsite. }
  assert (Htruthy : truthy_string (Some uid) = Some uid).
  { unfold truthy_string, truthy. destruct (String.eqb_spec uid ""); done. }
  split.
  - intros lc Hlc Hrefused.
    unfold createCouponHandler, withErrorHandling, try_catch. rewrite Hschema. cbn [negb].
    unfold mbind at 1, IO_bind at 1. rewrite getSiteUserId_eq, Hfound, Htruthy.
    unfold mbind at 1, IO_bind at 1, limits_canCreateCoupon at 1.
    by rewrite Hlc, Hrefused.
  - intros Hlc.
    unfold createCouponHandler, withErrorHandling, try_catch. rewrite Hschema. cbn [negb].
    unfold mbind at 1, IO_bind at 1. rewrite getSiteUserId_eq, Hfound, Htruthy.
    unfold mbind at 1, IO_bind at 1, limits_canCreateCoupon at 1.
    by rewrite Hlc.
Qed.

Lemma plan_limit_stops_creation_witness :
  createCouponHandler (λ _ _ _, Returned (mkLimitCheck false 3 3)) date_2026_06_01
    (Create.mk "site456" "bienvenido" percentage 20 None (Some 5%Q)
       date_2025_01_01 date_2026_12_31) seed_store
  = (Returned (failure (LimiteDeCupones 3 3) COUPON_LIMIT_REACHED), seed_store).
Proof.
  destruct (plan_limit_stops_creation (λ _ _ _, Returned (mkLimitCheck false 3 3))
              date_2026_06_01
              (Create.mk "site456" "bienvenido" percentage 20 None (Some 5%Q)
                 date_2025_01_01 date_2026_12_31)
              seed_store (Site.mk (Some "user123")) "user123") as [H _].
  - reflexivity.
  - reflexivity.
  - reflexivity.
  - done.
  - apply (H (mkLimitCheck false 3 3)); reflexivity.
Defined.

(** ** Stored documents that lack a required field *)

(** X27.  A stored coupon that lacks a required field makes the requests that
    read it fail with [INTERNAL_ERROR], the store left as it was:
    [getCoupons] of its site, and an update or a redemption that names it,
    from whatever existing site, since the document is checked before its
    owner is. *)
Theorem incomplete_document_is_internal_error {upcase : UpperCasing} now s cid c :
  coupons s !! cid = Some c →
  ¬ complete c →
  (∀ req, getCouponsSchema req = true → site_found s (Get.siteId req) →
          siteId c = Get.siteId req →
          getCouponsHandler req s = (Returned (failure ErrorInterno INTERNAL_ERROR), s))
  ∧ (∀ req, updateCouponSchema req = true → site_found s (Update.siteId req) →
            Update.couponId req = cid →
            updateCouponHandler now req s
            = (Returned (failure ErrorInterno INTERNAL_ERROR), s))
  ∧ (∀ req, applyCouponSchema req = true → site_found s (Apply.siteId req) →
            Apply.couponId req = cid →
            applyCouponHandler now req s
            = (Returned (failure ErrorInterno INTERNAL_ERROR), s)).
Proof.
  intros Hc Hincomplete. split; [| split].
  - intros req Hschema [uid Huid]%site_found_userId Hsite.
    unfold getCouponsHandler, withErrorHandling, try_catch. rewrite Hschema. cbn [negb].
    unfold mbind at 1, IO_bind at 1. rewrite getSiteUserId_eq, Huid.
    unfold mbind at 1, IO_bind at 1, coupons_where_siteId at 1.
    unfold mbind at 1, IO_bind at 1, docs_of_site.
    destruct (mapM toCouponDocument _ s) as [[docs |] s''] eqn:E.
    + apply mapM_toCouponDocument_returned in E as (_ & _ & Hl).
      destruct Hincomplete. apply (Hl (cid, c)).
      apply list_elem_of_In, filter_In. split.
      * by apply list_elem_of_In, elem_of_map_to_list.
      * simpl. rewrite Hsite. apply String.eqb_refl.
    + destruct (mapM_toCouponDocument_store
                  (snapshots (List.filter
                     (λ kd, String.eqb (siteId (snd kd)) (Get.siteId req))
                     (map_to_list (coupons s)))) s) as [o' E'].
      rewrite E in E'. by injection E' as <- <-.
  - intros req Hschema [uid Huid]%site_found_userId <-.
    unfold updateCouponHandler, withErrorHandling, try_catch. rewrite Hschema. cbn [negb].
    unfold mbind at 1, IO_bind at 1. rewrite getSiteUserId_eq, Huid.
    unfold mbind at 1, IO_bind at 1. unfold coupons_doc_get at 1, doc_exists.
    cbn [doc_data]. rewrite Hc. cbn [negb].
    unfold mbind at 1, IO_bind at 1.
    by destruct (toCouponDocument_cases (Update.couponId req) c s) as [[Hd _] | [_ ->]].
  - intros req Hschema [uid Huid]%site_found_userId <-.
    unfold applyCouponHandler, withErrorHandling, try_catch. rewrite Hschema. cbn [negb].
    unfold mbind at 1, IO_bind at 1. rewrite getSiteUserId_eq, Huid.
    unfold runTransaction, mbind, IO_bind, mret, IO_ret, coupons_doc_get, doc_exists.
    simpl. rewrite Hc. simpl.
    by destruct (toCouponDocument_cases (Apply.couponId req) c s) as [[Hd _] | [_ ->]].
Qed.

Lemma incomplete_document_is_internal_error_witness :
  applyCouponHandler date_2026_06_01 (Apply.mk "site999" "coupon001" "order-001" 50000)
    legacy_store
  = (Returned (failure ErrorInterno INTERNAL_ERROR), legacy_store).
Proof.
  destruct (incomplete_document_is_internal_error date_2026_06_01 legacy_store "coupon001"
              {| siteId := "site456"; userId := Some "user123"; code := "BIENVENIDO";
                 discountType := percentage; discountValue := 10;
                 minPurchase := None; maxUses := Some 100%Q; usedCount := 0;
                 validFrom := date_2025_01_01; validUntil := date_2026_12_31;
                 isActive := true; createdAt := None; updatedAt := None |})
    as (_ & _ & H).
  - reflexivity.
  - intros (_ & [? [=]] & _).
  - apply H.
    + reflexivity.
    + exists (Site.mk (Some "user789")), "user789". repeat split; done.
    + reflexivity.
Defined.
